(** * Cost estimation engine: duty classifier, rate resolver, cost calculator

    A shallow embedding of
    [backend/services/cost_calculation_service.py] (class
    [CostCalculationService]) together with the properties of its
    natural-language specification.

    Conventions of the embedding:
    - a Python [float] is an IEEE-754 binary64 value, written as the
      Standard Library's [spec_float] with [prec = 53], [emax = 1024]; the
      arithmetic is the correctly rounded one of [SpecFloat], and the
      properties hold for every [spec_float];
    - a Python [int] is a [Z];
    - a Python [str] is a [string]; the string functions are the ones of
      Python restricted to the ASCII range;
    - a Python [dict] with string keys is a [gmap string _];
    - a call that may raise returns a [result]: [Return v] or [Raise e];
    - the database is a [Session]: its tables as lists in the order the
      database returns the rows, and the set of queries that fail. *)

From Stdlib Require Import ZArith Bool List Ascii String Lia.
From Stdlib Require Import Floats.SpecFloat.
From stdpp Require Import gmap strings.

Local Open Scope string_scope.
Local Open Scope Z_scope.

(** ** Exceptions and results *)

Inductive exn : Type :=
| KeyError (key : string)
| ValueError (msg : string)
| AttributeError
| OverflowError
| OperationalError.

Inductive result (A : Type) : Type :=
| Return (a : A)
| Raise (e : exn).

Arguments Return {A} a.
Arguments Raise {A} e.

(** Sequencing: [x ← m; k] runs [k] on the value of [m] and passes an
    exception of [m] on. *)
#[global] Instance result_ret : MRet result := fun _ a => Return a.
#[global] Instance result_bind : MBind result := fun _ _ k m =>
  match m with
  | Return a => k a
  | Raise e => Raise e
  end.

(** ** Binary64 floating point *)

Module PyFloat.

Definition float : Type := spec_float.

Definition prec : Z := 53.
Definition emax : Z := 1024.

Definition fadd : float -> float -> float := SFadd prec emax.
Definition fmul : float -> float -> float := SFmul prec emax.
Definition fdiv : float -> float -> float := SFdiv prec emax.
Definition fleb : float -> float -> bool := SFleb.
Definition fltb : float -> float -> bool := SFltb.
(** [x > y] *)
Definition fgtb (x y : float) : bool := SFltb y x.

(** The nearest binary64 to an integer (ties to even); an infinity when
    the integer is out of range. *)
Definition of_int (n : Z) : float := binary_normalize prec emax n 0 false.

(** The binary64 a decimal literal [n / d] denotes, [d] a power of ten:
    both are exact binary64 values for the literals of this program, so
    the correctly rounded quotient is the literal's value. *)
Definition dec (n d : Z) : float := fdiv (of_int n) (of_int d).

Definition is_infinite (x : float) : bool :=
  match x with S754_infinity _ => true | _ => false end.

(** [float(n)] for an [int] operand of mixed arithmetic: [OverflowError]
    when [n] is too large for a binary64. *)
Definition float_of_int (n : Z) : result float :=
  let f := of_int n in
  if is_infinite f then Raise OverflowError else Return f.

(** [x ** 2]: the rounded square; [OverflowError] when a finite [x] has an
    infinite square. *)
Definition pow2 (x : float) : result float :=
  let y := fmul x x in
  if is_infinite y && negb (is_infinite x) then Raise OverflowError
  else Return y.

(** [round(x, ndigits)] for [0 <= ndigits]: the decimal with [ndigits]
    fractional digits nearest to the exact value of [x] (ties to even),
    converted back to the nearest binary64. *)
Definition round (x : float) (ndigits : Z) : float :=
  match x with
  | S754_finite s m e =>
      if 0 <=? e then x
      else
        let p := 10 ^ ndigits in
        let num := Zpos m * p in
        let den := 2 ^ (- e) in
        let q := num / den in
        let r := num mod den in
        let n := match 2 * r ?= den with
                 | Lt => q
                 | Gt => q + 1
                 | Eq => if Z.even q then q else q + 1
                 end in
        match n with
        | Zpos n' => SFdiv prec emax (S754_finite s n' 0)
                                     (S754_finite false (Z.to_pos p) 0)
        | _ => S754_zero s
        end
  | _ => x
  end.

End PyFloat.

(** ** Strings *)

Module PyStr.

(** [str.isspace] on one ASCII character. *)
Definition is_space (c : ascii) : bool :=
  let n := N_of_ascii c in
  ((9 <=? n) && (n <=? 13) || (28 <=? n) && (n <=? 32))%N.

Definition lower_char (c : ascii) : ascii :=
  let n := N_of_ascii c in
  if ((65 <=? n) && (n <=? 90))%N then ascii_of_N (n + 32) else c.

Fixpoint lower (s : string) : string :=
  match s with
  | EmptyString => EmptyString
  | String c s' => String (lower_char c) (lower s')
  end.

(** Dropping the leading, then the trailing, characters [p] accepts. *)
Fixpoint ldrop (p : ascii -> bool) (s : string) : string :=
  match s with
  | EmptyString => EmptyString
  | String c s' => if p c then ldrop p s' else s
  end.

Fixpoint rdrop (p : ascii -> bool) (s : string) : string :=
  match s with
  | EmptyString => EmptyString
  | String c s' =>
      match rdrop p s' with
      | EmptyString => if p c then EmptyString else String c EmptyString
      | r => String c r
      end
  end.

(** [s.strip()] *)
Definition strip (s : string) : string := rdrop is_space (ldrop is_space s).

(** [s.replace(a, b)] for one-character [a] and [b]. *)
Fixpoint replace (a b : ascii) (s : string) : string :=
  match s with
  | EmptyString => EmptyString
  | String c s' =>
      String (if Ascii.eqb c a then b else c) (replace a b s')
  end.

(** [s.split()]: the maximal runs of non-space characters. [cur] is the
    run being read, reversed. *)
Fixpoint split_go (cur : string) (s : string) : list string :=
  match s with
  | EmptyString =>
      match cur with EmptyString => [] | _ => [String.rev cur] end
  | String c s' =>
      if is_space c then
        match cur with
        | EmptyString => split_go EmptyString s'
        | _ => String.rev cur :: split_go EmptyString s'
        end
      else split_go (String c cur) s'
  end.

Definition split (s : string) : list string := split_go EmptyString s.

(** [sep.join(l)] *)
Fixpoint join (sep : string) (l : list string) : string :=
  match l with
  | [] => EmptyString
  | [x] => x
  | x :: l' => (x ++ sep ++ join sep l')%string
  end.

(** [s.endswith(suf)] *)
Definition endswith (s suf : string) : bool :=
  String.prefix (String.rev suf) (String.rev s).

(** [s[: -n]] for [0 < n] *)
Definition drop_last (n : nat) (s : string) : string :=
  String.substring 0 (String.length s - n)%nat s.

(** [sub in s] *)
Fixpoint contains (sub s : string) : bool :=
  String.prefix sub s ||
  match s with
  | EmptyString => false
  | String _ s' => contains sub s'
  end.

Definition upper_char (c : ascii) : ascii :=
  let n := N_of_ascii c in
  if ((97 <=? n) && (n <=? 122))%N then ascii_of_N (n - 32) else c.

(** [s.upper()] *)
Fixpoint upper (s : string) : string :=
  match s with
  | EmptyString => EmptyString
  | String c s' => String (upper_char c) (upper s')
  end.

(** [d.get(k, default)] for a dictionary literal, written as the list of its
    items (the keys of a literal are distinct). *)
Fixpoint dict_get {V : Type} (d : list (string * V)) (k : string) (default : V) : V :=
  match d with
  | [] => default
  | (k', v) :: d' => if String.eqb k' k then v else dict_get d' k default
  end.

(** [s or ""] *)
Definition or_empty (s : option string) : string :=
  match s with Some x => x | None => EmptyString end.

(** Truth value of a string: non-empty. *)
Definition truthy (s : string) : bool :=
  match s with EmptyString => false | _ => true end.

End PyStr.

(** ** An instance of [float()] on strings *)

(** [float(s)] for a plain decimal numeral [digits[.digits]] of at most
    fifteen digits; the strings of the examples below are of this form. The
    service itself is stated for any conversion. *)
Module Numeral.

Definition digit (c : ascii) : option Z :=
  let n := N_of_ascii c in
  if ((48 <=? n) && (n <=? 57))%N then Some (Z.of_N n - 48) else None.

(** Reads [s] with [mant] the digits read so far, [frac] the number of
    them after the point (when one was read), [seen] whether a digit was
    read. *)
Fixpoint read (s : string) (mant : Z) (frac : option Z) (seen : bool)
  : option (Z * Z) :=
  match s with
  | EmptyString => if seen then Some (mant, default 0 frac) else None
  | String c s' =>
      if Ascii.eqb c "." then
        match frac with
        | None => read s' mant (Some 0) seen
        | Some _ => None
        end
      else
        match digit c with
        | Some d => read s' (10 * mant + d) (Z.succ <$> frac) true
        | None => None
        end
  end.

Definition float_of_decimal (s : string) : option PyFloat.float :=
  match read s 0 None false with
  | Some (m, k) => Some (PyFloat.dec m (10 ^ k))
  | None => None
  end.

End Numeral.

(** ** Reference tables ([models/models.py]) *)

(** Rows of the tables the service reads. Foreign keys are nullable
    integer columns; [machine_hr_rate] is a nullable string column; names
    are non-null strings; every [id] is a primary key. *)

Module OperationType.
Record t : Type := { id : Z; operation_name : string }.
End OperationType.

Module Machine.
Record t : Type := { id : Z; name : string; op_id : option Z }.
End Machine.

Module Duty.
Record t : Type := { id : Z; name : string }.
End Duty.

Module MHR.
Record t : Type := {
  id : Z;
  op_type_id : option Z;
  duty_id : option Z;
  machine_id : option Z;
  machine_hr_rate : option string
}.

(** An MHR row with the rows its relationships [operation_type], [duty]
    and [machine] load. *)
Record joined : Type := {
  row : t;
  operation_type : OperationType.t;
  duty : Duty.t;
  machine : Machine.t
}.
End MHR.

(** The SQL functions of the filters: [trim] removes spaces at both ends,
    [lower] folds the ASCII letters. *)
Module Sql.
Definition is_blank (c : ascii) : bool := Ascii.eqb c " ".
Definition trim (s : string) : string :=
  PyStr.rdrop is_blank (PyStr.ldrop is_blank s).
Definition lower (s : string) : string := PyStr.lower s.
End Sql.

(** The queries the service issues. *)
Inductive query : Type :=
| QOperationTypeFirst
| QDutyAll
| QMhrFirst
| QMhrJoinAll.

(** A database session: the tables, each in the order the database returns
    its rows, and the queries that fail ([OperationalError]) when issued. *)
Record Session : Type := {
  operation_types : list OperationType.t;
  duties : list Duty.t;
  machines : list Machine.t;
  mhr : list MHR.t;
  fails : query -> bool
}.

Definition run {A : Type} (db : Session) (q : query) (rows : A) : result A :=
  if fails db q then Raise OperationalError else Return rows.

(** ** The service *)

Module CostCalculationService.
Import PyFloat.

(** *** Duty categories *)

Inductive duty : Type := light | medium | heavy.

#[global] Instance duty_eq_dec : EqDecision duty.
Proof. solve_decision. Defined.

(** [order = ["light", "medium", "heavy"]] *)
Definition order : list duty := [light; medium; heavy].

(** [order.index(d)]; every [duty] is in [order], so the [ValueError]
    branch of [_bump] is never taken. *)
Definition index (d : duty) : Z :=
  match d with light => 0 | medium => 1 | heavy => 2 end.

(** [d1 <= d2] in the ordering light < medium < heavy. *)
Definition duty_le (d1 d2 : duty) : Prop := index d1 <= index d2.

(** [order[min(len(order) - 1, max(0, idx + steps))]] *)
Definition _bump (d : duty) (steps : Z) : duty :=
  let idx := index d in
  nth (Z.to_nat (Z.min (Z.of_nat (length order) - 1) (Z.max 0 (idx + steps))))
      order light.

(** *** determine_duty_category *)

(** [dimensions[k]] *)
Definition getitem (dimensions : gmap string float) (k : string) : result float :=
  match dimensions !! k with
  | Some v => Return v
  | None => Raise (KeyError k)
  end.

(** [k in dimensions] *)
Definition has_key (dimensions : gmap string float) (k : string) : bool :=
  match dimensions !! k with Some _ => true | None => false end.

(** [all(k in dimensions for k in keys)] *)
Definition all_in (dimensions : gmap string float) (keys : list string) : bool :=
  forallb (has_key dimensions) keys.

(** [max(a, b, c)]: the first argument is kept until a later one is
    greater ([>]) than the current maximum. *)
Definition max3 (a b c : float) : float :=
  let m := if fgtb b a then b else a in
  if fgtb c m then c else m.

Definition rectangular_keys : list string := ["length"; "breadth"; "height"].
Definition round_keys : list string := ["diameter"; "length"].

(** The geometric thresholds: [None] when neither branch applies. *)
Definition geometric_base (shape : string) (dimensions : gmap string float)
  : result (option duty) :=
  if String.eqb shape "rectangular" && all_in dimensions rectangular_keys then
    length ← getitem dimensions "length";
    breadth ← getitem dimensions "breadth";
    height ← getitem dimensions "height";
    let max_dim := max3 length breadth height in
    if fleb max_dim (of_int 750) then Return (Some light)
    else if fleb max_dim (of_int 1500) then Return (Some medium)
    else Return (Some heavy)
  else if String.eqb shape "round" && all_in dimensions round_keys then
    diameter ← getitem dimensions "diameter";
    length ← getitem dimensions "length";
    if fleb diameter (of_int 100) && fleb length (of_int 300) then
      Return (Some light)
    else if fleb diameter (of_int 300) && fleb length (of_int 1200) then
      Return (Some medium)
    else Return (Some heavy)
  else Return None.

Definition material_factor (mat : string) : float :=
  if String.eqb mat "aluminium" then of_int 1
  else if String.eqb mat "steel" then of_int 3
  else if String.eqb mat "titanium" then dec 17 10
  else of_int 1.

Definition operation_factor (op : string) : float :=
  if String.eqb op "turning" then of_int 1
  else if String.eqb op "milling" then dec 15 10
  else if String.eqb op "drilling" then dec 8 10
  else if String.eqb op "grinding" then dec 12 10
  else if String.eqb op "boring" then dec 13 10
  else if String.eqb op "heat_treatment" then of_int 2
  else if String.eqb op "welding" then dec 18 10
  else if String.eqb op "surface_treatment" then of_int 1
  else of_int 1.

(** The volume read by the fallback: cylinder for ["round"], box
    otherwise; the fields are read in the order of the expression. *)
Definition fallback_volume (shape : string) (dimensions : gmap string float)
  : result float :=
  if String.eqb shape "round" then
    diameter ← getitem dimensions "diameter";
    sq ← pow2 (fdiv diameter (of_int 2));
    length ← getitem dimensions "length";
    Return (fmul (fmul (dec 314159 100000) sq) length)
  else
    length ← getitem dimensions "length";
    breadth ← getitem dimensions "breadth";
    height ← getitem dimensions "height";
    Return (fmul (fmul length breadth) height).

(** The volume-score heuristic of the [if base is None] block. *)
Definition fallback_base (shape : string) (dimensions : gmap string float)
    (mat op : string) : result duty :=
  volume ← fallback_volume shape dimensions;
  let score :=
    fmul (fmul (fdiv volume (of_int 1000000)) (material_factor mat))
         (operation_factor op) in
  if fltb score (of_int 5) then Return light
  else if fltb score (of_int 20) then Return medium
  else Return heavy.

(** [base] as it stands before the material adjustment. *)
Definition base_classification (shape : string) (dimensions : gmap string float)
    (mat op : string) : result duty :=
  base ← geometric_base shape dimensions;
  match base with
  | Some b => Return b
  | None => fallback_base shape dimensions mat op
  end.

(** The block [if mat in {"steel", "titanium"}: ...]. *)
Definition material_adjustment (mat : string) (base : duty) : duty :=
  if String.eqb mat "steel" || String.eqb mat "titanium" then
    let base := _bump base (if decide (base = light) then 1 else 0) in
    if String.eqb mat "titanium" && bool_decide (base = medium)
    then _bump base 1 else base
  else base.

(** The block [if op in {"heat_treatment", "welding"}: ...]. *)
Definition operation_adjustment (op : string) (base : duty) : duty :=
  if String.eqb op "heat_treatment" || String.eqb op "welding"
  then _bump base 1 else base.

Definition determine_duty_category (shape : string)
    (dimensions : gmap string float) (material operation : option string)
  : result duty :=
  let op := PyStr.lower (PyStr.strip (PyStr.or_empty operation)) in
  let mat := PyStr.lower (PyStr.strip (PyStr.or_empty material)) in
  base ← base_classification shape dimensions mat op;
  let base := material_adjustment mat base in
  let base := operation_adjustment op base in
  Return base.

(** *** determine_machine_category *)

Inductive machine_category : Type := conventional | cnc_3axis | cnc_5axis | spm.

Definition determine_machine_category (machine_name : string) : machine_category :=
  let name_lower := PyStr.lower machine_name in
  if PyStr.contains "cnc" name_lower || PyStr.contains "precision" name_lower then
    if PyStr.contains "5" name_lower || PyStr.contains "five" name_lower
       || PyStr.contains "5 axis" name_lower || PyStr.contains "5-axis" name_lower
    then cnc_5axis
    else cnc_3axis
  else if PyStr.contains "spm" name_lower || PyStr.contains "special" name_lower then
    spm
  else conventional.

(** *** calculate_costs *)

Record CostBreakdown : Type := {
  man_hours_per_unit : float;
  machine_hour_rate : float;
  wage_rate : float;
  basic_cost_per_unit : float;
  overheads_per_unit : float;
  profit_per_unit : float;
  packing_forwarding_per_unit : float;
  unit_cost : float;
  total_cost : float;
  outsourcing_mhr : float
}.

(** The unrounded intermediate values, as the body names them. *)
Definition basic_cost_of (man_hours machine_hour_rate wage_rate : float) : float :=
  fmul man_hours (fadd machine_hour_rate wage_rate).

Definition profit_of (basic_cost overheads : float) : float :=
  fmul (dec 10 100) (fadd basic_cost overheads).

Definition packing_forwarding_of (basic_cost : float) : float :=
  fmul (dec 2 100) basic_cost.

Definition unit_cost_of (man_hours machine_hour_rate wage_rate : float) : float :=
  let basic_cost := basic_cost_of man_hours machine_hour_rate wage_rate in
  let overheads := wage_rate in
  let profit := profit_of basic_cost overheads in
  let packing_forwarding := packing_forwarding_of basic_cost in
  fadd (fadd (fadd basic_cost overheads) profit) packing_forwarding.

(** [quantity] is an [int]: the product [unit_cost * quantity] converts it
    to a float first, which raises when it is out of range. *)
Definition calculate_costs (man_hours machine_hour_rate wage_rate : float)
    (quantity : Z) : result CostBreakdown :=
  let basic_cost := basic_cost_of man_hours machine_hour_rate wage_rate in
  let overheads := wage_rate in
  let profit := profit_of basic_cost overheads in
  let packing_forwarding := packing_forwarding_of basic_cost in
  let unit_cost := unit_cost_of man_hours machine_hour_rate wage_rate in
  q ← float_of_int quantity;
  let total_cost := fmul unit_cost q in
  let outsourcing_mhr := fadd machine_hour_rate (fmul (of_int 2) wage_rate) in
  Return {|
    man_hours_per_unit := round man_hours 4;
    machine_hour_rate := round machine_hour_rate 2;
    wage_rate := round wage_rate 2;
    basic_cost_per_unit := round basic_cost 2;
    overheads_per_unit := round overheads 2;
    profit_per_unit := round profit 2;
    packing_forwarding_per_unit := round packing_forwarding 2;
    unit_cost := round unit_cost 2;
    total_cost := round total_cost 2;
    outsourcing_mhr := round outsourcing_mhr 2
  |}.

(** *** get_machine_hour_rate *)

Definition not_configured : exn :=
  ValueError ("MHR not configured for the selected operation, duty, and machine. "
              ++ "Please add a matching row in the MHR configuration table.").

Definition _norm (s : option string) : string :=
  match s with
  | None => ""
  | Some s =>
      let out := PyStr.lower (PyStr.strip s) in
      let out := PyStr.replace "_" " " out in
      let out := PyStr.replace "-" " " out in
      let out := PyStr.join " " (PyStr.split out) in
      if PyStr.endswith out " duty"
      then PyStr.drop_last (String.length " duty") out
      else out
  end.

(** [db.query(OperationTypeModel).filter(lower(trim(operation_name)) == key).first()] *)
Definition query_operation_type_first (db : Session) (key : string)
  : result (option OperationType.t) :=
  run db QOperationTypeFirst
    (find (fun o => String.eqb (Sql.lower (Sql.trim (OperationType.operation_name o))) key)
          (operation_types db)).

(** [db.query(Duty).all()] *)
Definition query_duty_all (db : Session) : result (list Duty.t) :=
  run db QDutyAll (duties db).

(** [db.query(MHR).filter(op_type_id == o, duty_id == d, machine_id == m).first()] *)
Definition mhr_matches (o d m : Z) (r : MHR.t) : bool :=
  bool_decide (MHR.op_type_id r = Some o)
  && bool_decide (MHR.duty_id r = Some d)
  && bool_decide (MHR.machine_id r = Some m).

Definition query_mhr_first (db : Session) (o d m : Z) : result (option MHR.t) :=
  run db QMhrFirst (find (mhr_matches o d m) (mhr db)).

(** The three inner joins on the primary keys of the related tables. *)
Definition join_row (db : Session) (r : MHR.t) : option MHR.joined :=
  o ← MHR.op_type_id r;
  d ← MHR.duty_id r;
  m ← MHR.machine_id r;
  ot ← find (fun x => OperationType.id x =? o) (operation_types db);
  du ← find (fun x => Duty.id x =? d) (duties db);
  ma ← find (fun x => Machine.id x =? m) (machines db);
  Some {| MHR.row := r; MHR.operation_type := ot; MHR.duty := du; MHR.machine := ma |}.

Definition sql_operation_filter (key : string) (j : MHR.joined) : bool :=
  String.eqb (Sql.lower (Sql.trim (OperationType.operation_name (MHR.operation_type j)))) key.

(** [db.query(MHR).join(...).join(...).join(...).filter(...).all()] *)
Definition query_mhr_join_all (db : Session) (key : string)
  : result (list MHR.joined) :=
  run db QMhrJoinAll
    (filter (sql_operation_filter key) (omap (join_row db) (mhr db))).

(** [operation.strip().lower()]; [operation] may be [None]. *)
Definition strip_lower (operation : option string) : result string :=
  match operation with
  | Some o => Return (PyStr.lower (PyStr.strip o))
  | None => Raise AttributeError
  end.

(** The score of a stored machine name against the requested one:
    2 = exact, 1 = substring match, 0 = mismatch. *)
Definition machine_score (rec_machine machine_norm : string) : Z :=
  if String.eqb rec_machine machine_norm then 2
  else if PyStr.truthy rec_machine && PyStr.truthy machine_norm
          && (PyStr.contains rec_machine machine_norm
              || PyStr.contains machine_norm rec_machine)
  then 1
  else 0.

(** The test whose failure is the [continue] of the loop. *)
Definition same_operation_and_duty (op_norm duty_norm : string) (rec : MHR.joined) : bool :=
  String.eqb (_norm (Some (OperationType.operation_name (MHR.operation_type rec)))) op_norm
  && String.eqb (_norm (Some (Duty.name (MHR.duty rec)))) duty_norm.

Definition score_of (machine_norm : string) (rec : MHR.joined) : Z :=
  machine_score (_norm (Some (Machine.name (MHR.machine rec)))) machine_norm.

(** The [for rec in candidates] loop, from the state [(best, best_score)]. *)
Fixpoint scan (op_norm duty_norm machine_norm : string)
    (candidates : list MHR.joined) (best : option MHR.joined) (best_score : Z)
  : option MHR.joined :=
  match candidates with
  | [] => best
  | rec :: rest =>
      if negb (same_operation_and_duty op_norm duty_norm rec) then
        scan op_norm duty_norm machine_norm rest best best_score
      else
        let score := score_of machine_norm rec in
        let '(best, best_score) :=
          if best_score <? score then (Some rec, score) else (best, best_score) in
        if best_score =? 2 then best
        else scan op_norm duty_norm machine_norm rest best best_score
  end.

Section Resolver.
(** [float(s)] on a string: [None] stands for [ValueError]. *)
Variable float_of_str : string -> option float.

Definition to_float (s : string) : result float :=
  match float_of_str s with
  | Some v => Return v
  | None => Raise (ValueError "could not convert string to float")
  end.

Definition _resolve_duty_id (db : Session) (d : option string) : option Z :=
  let d_norm := _norm d in
  if negb (PyStr.truthy d_norm) then None
  else
    match query_duty_all db with
    | Raise _ => None
    | Return duties =>
        option_map Duty.id (find (fun du => String.eqb (_norm (Some (Duty.name du))) d_norm) duties)
    end.

(** [op_id] after the first block of the [try]. *)
Definition resolve_operation_id (operation : option string) (db : Session)
    (op_type_id : option Z) : result (option Z) :=
  match op_type_id with
  | Some i => Return (Some i)
  | None =>
      if PyStr.truthy (PyStr.or_empty operation) then
        key ← strip_lower operation;
        op_row ← query_operation_type_first db key;
        Return (option_map OperationType.id op_row)
      else Return None
  end.

(** [du_id = duty_id if duty_id is not None else _resolve_duty_id(duty)] *)
Definition resolve_duty (duty : option string) (db : Session)
    (duty_id : option Z) : option Z :=
  match duty_id with
  | Some i => Some i
  | None => _resolve_duty_id db duty
  end.

(** [return float(rec.machine_hr_rate)] under its guard
    [rec and rec.machine_hr_rate is not None]. *)
Definition rate_of (rec : option MHR.t) : result (option float) :=
  match rec with
  | Some r =>
      match MHR.machine_hr_rate r with
      | Some s => v ← to_float s; Return (Some v)
      | None => Return None
      end
  | None => Return None
  end.

(** The body of the first [try]: [Return (Some r)] is [return r],
    [Return None] is reaching the end of the block. *)
Definition deterministic_lookup (operation duty : option string) (db : Session)
    (machine_id op_type_id duty_id : option Z) : result (option float) :=
  op_id ← resolve_operation_id operation db op_type_id;
  let du_id := resolve_duty duty db duty_id in
  let m_id := machine_id in
  match op_id, du_id, m_id with
  | Some o, Some d, Some m =>
      rec ← query_mhr_first db o d m;
      rate_of rec
  | _, _, _ => Return None
  end.

(** The body of the second [try]. *)
Definition fuzzy_lookup (operation duty machine_name : option string)
    (db : Session) : result (option float) :=
  let op_norm := _norm operation in
  let duty_norm := _norm duty in
  let machine_norm := _norm machine_name in
  key ← strip_lower operation;
  candidates ← query_mhr_join_all db key;
  let best := scan op_norm duty_norm machine_norm candidates None (-1) in
  match best with
  | Some b =>
      match MHR.machine_hr_rate (MHR.row b) with
      | Some s =>
          match to_float s with
          | Return v => Return (Some v)
          | Raise _ => Return None
          end
      | None => Return None
      end
  | None => Return None
  end.

(** [try: body / except Exception: pass] *)
Definition except_pass {A : Type} (body : result (option A)) : option A :=
  match body with
  | Return r => r
  | Raise _ => None
  end.

Definition get_machine_hour_rate (operation duty machine_name : option string)
    (db : Session) (machine_id op_type_id duty_id : option Z) : result float :=
  match except_pass (deterministic_lookup operation duty db machine_id op_type_id duty_id) with
  | Some r => Return r
  | None =>
      match except_pass (fuzzy_lookup operation duty machine_name db) with
      | Some r => Return r
      | None => Raise not_configured
      end
  end.

End Resolver.

(** *** select_machine *)

(** The dictionary [machine_names]. *)
Definition machine_names : list (string * list (string * string)) :=
  [ ("turning",
     [ ("conventional", "Conventional Lathe");
       ("cnc_3axis", "CNC Lathe - 3 Axis");
       ("cnc_5axis", "CNC Lathe - 5 Axis");
       ("spm", "Special Purpose Lathe") ]);
    ("milling",
     [ ("conventional", "Conventional Milling Machine");
       ("cnc_3axis", "CNC Milling - 3 Axis");
       ("cnc_5axis", "CNC Milling - 5 Axis");
       ("spm", "Special Purpose Mill") ]);
    ("drilling",
     [ ("conventional", "Conventional Drill Press");
       ("cnc_3axis", "CNC Drilling Machine");
       ("cnc_5axis", "CNC Multi-Axis Drill");
       ("spm", "Special Purpose Drill") ]);
    ("grinding",
     [ ("conventional", "Conventional Grinder");
       ("cnc_3axis", "CNC Grinder");
       ("cnc_5axis", "CNC Precision Grinder");
       ("spm", "Special Purpose Grinder") ]);
    ("boring",
     [ ("conventional", "Conventional Boring Machine");
       ("cnc_3axis", "CNC Boring Machine");
       ("cnc_5axis", "CNC Horizontal Boring");
       ("spm", "Special Purpose Boring") ]) ].

(** The category chosen when none is supplied. *)
Definition auto_category (duty material : string) : string :=
  if String.eqb duty "heavy" || String.eqb material "titanium" then "cnc_5axis"
  else if String.eqb duty "medium" then "cnc_3axis"
  else "conventional".

(** Returns [(machine_name, category)]. *)
Definition select_machine (operation duty material : string)
    (machine_category : option string) : string * string :=
  let category :=
    if PyStr.truthy (PyStr.or_empty machine_category)
    then PyStr.or_empty machine_category
    else auto_category duty material in
  let machine_name :=
    PyStr.dict_get (PyStr.dict_get machine_names operation []) category
      (PyStr.upper category ++ " Machine") in
  (machine_name, category).

(** *** get_machine_details *)

(** The session as [get_machine_details] uses it: the tables and failing
    queries of [session], and whether the query on [Machine] by name
    fails. *)
Record Connection : Type := {
  session : Session;
  machine_query_fails : bool
}.

(** The dictionary [get_machine_details] returns. *)
Record MachineDetails : Type := {
  details_id : Z;
  details_name : string;
  details_operation_type_id : option Z
}.

Definition machine_not_found (machine_name : string) : exn :=
  ValueError ("Machine with name '" ++ machine_name ++ "' not found").

(** [db.query(Machine).filter(Machine.name == machine_name).first()], the
    comparison being exact. *)
Definition query_machine_first (db : Connection) (machine_name : string)
  : result (option Machine.t) :=
  if machine_query_fails db then Raise OperationalError
  else Return (find (fun m => String.eqb (Machine.name m) machine_name)
                    (machines (session db))).

Definition get_machine_details (machine_name : string) (db : Connection)
  : result MachineDetails :=
  machine ← query_machine_first db machine_name;
  match machine with
  | None => Raise (machine_not_found machine_name)
  | Some machine =>
      Return {| details_id := Machine.id machine;
                details_name := Machine.name machine;
                details_operation_type_id := Machine.op_id machine |}
  end.

(** *** get_wage_rate *)

Definition CONVENTIONAL_OPERATOR_MONTHLY_WAGE : float := of_int 15000.
Definition CNC_OPERATOR_MONTHLY_WAGE : float := of_int 20000.
Definition HOURS_PER_MONTH_FOR_WAGE : float := of_int 200.

Definition get_wage_rate (machine_name : string) : float :=
  let category := determine_machine_category machine_name in
  let monthly :=
    match category with
    | conventional => CONVENTIONAL_OPERATOR_MONTHLY_WAGE
    | _ => CNC_OPERATOR_MONTHLY_WAGE
    end in
  fdiv monthly HOURS_PER_MONTH_FOR_WAGE.

(** *** calculate_man_hours *)

Definition MAN_HOURS_MATRIX : list (string * list (string * float)) :=
  [ ("turning", [ ("light", dec 25 100); ("medium", dec 5 10); ("heavy", of_int 1) ]);
    ("milling", [ ("light", dec 5 10); ("medium", of_int 1); ("heavy", of_int 2) ]);
    ("drilling", [ ("light", dec 15 100); ("medium", dec 3 10); ("heavy", dec 6 10) ]);
    ("grinding", [ ("light", dec 3 10); ("medium", dec 6 10); ("heavy", dec 12 10) ]);
    ("boring", [ ("light", dec 4 10); ("medium", dec 8 10); ("heavy", dec 15 10) ]);
    ("heat_treatment", [ ("light", dec 5 10); ("medium", of_int 1); ("heavy", of_int 2) ]);
    ("welding", [ ("light", dec 3 10); ("medium", dec 6 10); ("heavy", dec 12 10) ]);
    ("surface_treatment", [ ("light", dec 2 10); ("medium", dec 4 10); ("heavy", dec 8 10) ]) ].

(** Truth value of a float: it is not a zero. *)
Definition float_truthy (x : float) : bool :=
  match x with S754_zero _ => false | _ => true end.

Definition calculate_man_hours (operation duty : string) (override : option float)
  : float :=
  let from_matrix :=
    PyStr.dict_get (PyStr.dict_get MAN_HOURS_MATRIX operation []) duty (dec 5 10) in
  match override with
  | Some x => if float_truthy x then x else from_matrix
  | None => from_matrix
  end.

End CostCalculationService.

(** ** The routes ([routes/cost_estimation.py]) *)

(** The two endpoints that call the service. The request and response
    schemas are not part of the sources: a request is the record of the
    fields the route reads, a response the record of the values the route
    hands to its response (the explanation strings of
    [calculation_steps], which format floats, are left out). *)

Module Dimensions.
Record t : Type := {
  diameter : option PyFloat.float;
  length : option PyFloat.float;
  breadth : option PyFloat.float;
  height : option PyFloat.float
}.
End Dimensions.

Module CostEstimationRequest.
(** [duty_category], [material] and [operation_type] hold the [.value] of
    the enumeration member; a member, when given, is true. *)
Record t : Type := {
  machine_name : string;
  dimensions : Dimensions.t;
  duty_category : option string;
  material : string;
  operation_type : string;
  man_hours_per_unit : PyFloat.float
}.
End CostEstimationRequest.

Module CostEstimationRoutes.
Import PyFloat CostCalculationService.

(** How a call of a route ends other than by its response. *)
Inductive error : Type :=
| HTTPException (status_code : Z) (detail : string)
| Uncaught (e : exn)
| TypeError.

Inductive outcome (A : Type) : Type :=
| Respond (a : A)
| Fail (e : error).

Arguments Respond {A} a.
Arguments Fail {A} e.

#[global] Instance outcome_ret : MRet outcome := fun _ a => Respond a.
#[global] Instance outcome_bind : MBind outcome := fun _ _ k m =>
  match m with
  | Respond a => k a
  | Fail e => Fail e
  end.

(** A service call outside any [try]. *)
Definition call {A : Type} (body : result A) : outcome A :=
  match body with
  | Return a => Respond a
  | Raise e => Fail (Uncaught e)
  end.

(** [try: body / except ValueError as e: raise HTTPException(status_code, detail=str(e))] *)
Definition http_on_value_error {A : Type} (status_code : Z) (body : result A)
  : outcome A :=
  match body with
  | Return a => Respond a
  | Raise (ValueError msg) => Fail (HTTPException status_code msg)
  | Raise e => Fail (Uncaught e)
  end.

(** A float operand of [*]: [None] raises [TypeError]. *)
Definition operand (x : option float) : outcome float :=
  match x with
  | Some v => Respond v
  | None => Fail TypeError
  end.

Definition duty_value (d : duty) : string :=
  match d with light => "light" | medium => "medium" | heavy => "heavy" end.

Definition invalid_dimensions : error :=
  HTTPException 400
    ("Invalid dimensions. Provide either (diameter + length) for round parts OR "
     ++ "(length + breadth + height) for rectangular parts").

(** The breakdown after [cost_breakdown.pop('total_cost', None)]. *)
Record PerUnitBreakdown : Type := {
  pu_man_hours_per_unit : float;
  pu_machine_hour_rate : float;
  pu_wage_rate : float;
  pu_basic_cost_per_unit : float;
  pu_overheads_per_unit : float;
  pu_profit_per_unit : float;
  pu_packing_forwarding_per_unit : float;
  pu_unit_cost : float;
  pu_outsourcing_mhr : float
}.

Definition pop_total_cost (b : CostBreakdown) : PerUnitBreakdown :=
  {| pu_man_hours_per_unit := man_hours_per_unit b;
     pu_machine_hour_rate := machine_hour_rate b;
     pu_wage_rate := wage_rate b;
     pu_basic_cost_per_unit := basic_cost_per_unit b;
     pu_overheads_per_unit := overheads_per_unit b;
     pu_profit_per_unit := profit_per_unit b;
     pu_packing_forwarding_per_unit := packing_forwarding_per_unit b;
     pu_unit_cost := unit_cost b;
     pu_outsourcing_mhr := outsourcing_mhr b |}.

Record CostEstimationResponse : Type := {
  resp_duty_category : string;
  resp_selected_machine : MachineDetails;
  resp_machine_category : machine_category;
  resp_shape : string;
  resp_dimensions : gmap string float;
  resp_volume : float;
  resp_cost_breakdown : PerUnitBreakdown;
  resp_material : string;
  resp_operation_type : string
}.

Record QuickEstimate : Type := {
  quick_machine : string;
  quick_duty : string;
  quick_quantity : Z;
  quick_unit_cost : float;
  quick_total_cost : float;
  quick_details : CostBreakdown
}.

(** The block "Detect shape and prepare dimensions dict": the shape, the
    dictionary and the volume. The dictionary is read only after the volume
    is computed, when every field it holds is a float. *)
Definition detect_shape (dims : Dimensions.t)
  : outcome (string * gmap string float * float) :=
  match Dimensions.diameter dims with
  | Some diameter =>
      sq ← call (pow2 (fdiv diameter (of_int 2)));
      length ← operand (Dimensions.length dims);
      let dimensions_dict : gmap string float :=
        <["diameter" := diameter]> (<["length" := length]> ∅) in
      Respond ("round", dimensions_dict, fmul (fmul (dec 314159 100000) sq) length)
  | None =>
      match Dimensions.breadth dims, Dimensions.height dims with
      | Some breadth, Some height =>
          length ← operand (Dimensions.length dims);
          let dimensions_dict : gmap string float :=
            <["length" := length]> (<["breadth" := breadth]> (<["height" := height]> ∅)) in
          Respond ("rectangular", dimensions_dict, fmul (fmul length breadth) height)
      | _, _ => Fail invalid_dimensions
      end
  end.

(** The block "Step 3: Determine duty category": the value of the request's
    member when one is given, the classification of the service otherwise. *)
Definition duty_step (request : CostEstimationRequest.t) (shape : string)
    (dimensions_dict : gmap string float) : outcome string :=
  match CostEstimationRequest.duty_category request with
  | Some value => Respond value
  | None =>
      d ← call (determine_duty_category shape dimensions_dict
                  (Some (CostEstimationRequest.material request))
                  (Some (CostEstimationRequest.operation_type request)));
      Respond (duty_value d)
  end.

Section Routes.
(** [float(s)] on a string, as in the service. *)
Variable float_of_str : string -> option float.

Definition calculate_cost_estimation (request : CostEstimationRequest.t)
    (db : Connection) : outcome CostEstimationResponse :=
  machine_details ←
    http_on_value_error 404
      (get_machine_details (CostEstimationRequest.machine_name request) db);
  let machine_name := details_name machine_details in
  let machine_category := determine_machine_category machine_name in
  '(shape, dimensions_dict, volume) ← detect_shape (CostEstimationRequest.dimensions request);
  duty ← duty_step request shape dimensions_dict;
  machine_hour_rate ←
    http_on_value_error 400
      (get_machine_hour_rate float_of_str
         (Some (CostEstimationRequest.operation_type request)) (Some duty)
         (Some machine_name) (session db)
         (Some (details_id machine_details))
         (details_operation_type_id machine_details) None);
  let wage_rate := get_wage_rate machine_name in
  let man_hours := CostEstimationRequest.man_hours_per_unit request in
  cost_breakdown ← call (calculate_costs man_hours machine_hour_rate wage_rate 1);
  Respond {|
    resp_duty_category := duty;
    resp_selected_machine := machine_details;
    resp_machine_category := machine_category;
    resp_shape := shape;
    resp_dimensions := dimensions_dict;
    resp_volume := round volume 2;
    resp_cost_breakdown := pop_total_cost cost_breakdown;
    resp_material := CostEstimationRequest.material request;
    resp_operation_type := CostEstimationRequest.operation_type request
  |}.

Definition quick_estimate (operation duty : string) (quantity : Z) (db : Connection)
  : outcome QuickEstimate :=
  let '(machine_name, machine_category) := select_machine operation duty "steel" None in
  machine_details ← http_on_value_error 404 (get_machine_details machine_name db);
  machine_hour_rate ←
    http_on_value_error 400
      (get_machine_hour_rate float_of_str (Some operation) (Some duty)
         (Some machine_name) (session db)
         (Some (details_id machine_details))
         (details_operation_type_id machine_details) None);
  let wage_rate := get_wage_rate machine_name in
  let man_hours := calculate_man_hours operation duty None in
  cost_breakdown ← call (calculate_costs man_hours machine_hour_rate wage_rate quantity);
  Respond {|
    quick_machine := machine_name;
    quick_duty := duty;
    quick_quantity := quantity;
    quick_unit_cost := unit_cost cost_breakdown;
    quick_total_cost := total_cost cost_breakdown;
    quick_details := cost_breakdown
  |}.

End Routes.

End CostEstimationRoutes.

(** ** Vocabulary of the properties *)

Import PyFloat CostCalculationService.

(** *** Order of floats *)

Definition is_nan (x : float) : bool :=
  match x with S754_nan => true | _ => false end.

(** [y] is [x] unchanged or increased. *)
Definition float_le (x y : float) : Prop := x = y \/ fleb x y = true.

(** Both dictionaries hold every field of [keys], and no field is smaller
    in [d2] than in [d1]. *)
Definition grown (keys : list string) (d1 d2 : gmap string float) : Prop :=
  Forall (fun k => exists x y, d1 !! k = Some x /\ d2 !! k = Some y /\ float_le x y) keys.

(** A key that orders the floats other than NaN as [SFcompare] does: by
    sign class, then exponent, then mantissa. *)
Definition order_key (x : float) : option (Z * Z * Z) :=
  match x with
  | S754_nan => None
  | S754_infinity true => Some (-2, 0, 0)
  | S754_infinity false => Some (2, 0, 0)
  | S754_zero _ => Some (0, 0, 0)
  | S754_finite true m e => Some (-1, - e, - Zpos m)
  | S754_finite false m e => Some (1, e, Zpos m)
  end.

Definition lex_le (a b : Z * Z * Z) : Prop :=
  let '(a1, a2, a3) := a in
  let '(b1, b2, b3) := b in
  a1 < b1 \/ (a1 = b1 /\ (a2 < b2 \/ (a2 = b2 /\ a3 <= b3))).

Definition lex_lt (a b : Z * Z * Z) : Prop :=
  let '(a1, a2, a3) := a in
  let '(b1, b2, b3) := b in
  a1 < b1 \/ (a1 = b1 /\ (a2 < b2 \/ (a2 = b2 /\ a3 < b3))).

(** *** Classifier *)

(** The thresholds of the two geometric branches on the fields read. *)
Definition rectangular_class (l b h : float) : duty :=
  if fleb (max3 l b h) (of_int 750) then light
  else if fleb (max3 l b h) (of_int 1500) then medium
  else heavy.

Definition round_class (d l : float) : duty :=
  if fleb d (of_int 100) && fleb l (of_int 300) then light
  else if fleb d (of_int 300) && fleb l (of_int 1200) then medium
  else heavy.

(** The dictionary of a rectangular part. *)
Definition rect_dims (l b h : float) : gmap string float :=
  <["length" := l]> (<["breadth" := b]> (<["height" := h]> ∅)).

(** The score of the fallback and its thresholds. *)
Definition volume_score (volume : float) (mat op : string) : float :=
  fmul (fmul (fdiv volume (of_int 1000000)) (material_factor mat)) (operation_factor op).

Definition score_class (score : float) : duty :=
  if fltb score (of_int 5) then light
  else if fltb score (of_int 20) then medium
  else heavy.

(** [m] is the largest of the three dimensions: it is one of them and none
    is above it. *)
Definition largest (m l b h : float) : Prop :=
  (m = l \/ m = b \/ m = h)
  /\ fleb l m = true /\ fleb b m = true /\ fleb h m = true.

(** The dictionary of a round part. *)
Definition round_dims (d l : float) : gmap string float :=
  <["diameter" := d]> (<["length" := l]> ∅).

(** The duty reported for the base class [c]: the material adjustment, then
    the operation adjustment, on the material and operation as the function
    compares them. *)
Definition adjusted (material operation : option string) (c : duty) : duty :=
  operation_adjustment (PyStr.lower (PyStr.strip (PyStr.or_empty operation)))
    (material_adjustment (PyStr.lower (PyStr.strip (PyStr.or_empty material))) c).

(** Neither adjustment applies to the material and the operation. *)
Definition plain (material operation : option string) : Prop :=
  let mat := PyStr.lower (PyStr.strip (PyStr.or_empty material)) in
  let op := PyStr.lower (PyStr.strip (PyStr.or_empty operation)) in
  mat <> "steel" /\ mat <> "titanium" /\ op <> "heat_treatment" /\ op <> "welding".

(** *** Strings *)

(** [sub] occurs in [s]. *)
Definition occurs_in (sub s : string) : Prop :=
  exists pre post, s = (pre ++ sub ++ post)%string.

(** *** Selection of the best row *)

(** [b], unless [o] holds a row with a strictly higher score. *)
Definition better {A : Type} (score : A -> Z) (b : A) (o : option A) : A :=
  match o with
  | Some y => if score b <? score y then y else b
  | None => b
  end.

(** The first row of [l] among those with the highest score. *)
Fixpoint first_best {A : Type} (score : A -> Z) (l : list A) : option A :=
  match l with
  | [] => None
  | x :: l' => Some (better score x (first_best score l'))
  end.

(** [r] occurs in [l] with a score that every earlier row is strictly below
    and no later row exceeds. *)
Definition is_first_best {A : Type} (score : A -> Z) (l : list A) (r : A) : Prop :=
  exists before after,
    l = (before ++ r :: after)%list
    /\ Forall (fun x => score x < score r) before
    /\ Forall (fun x => score x <= score r) after.

(** *** Resolver *)

(** The score the specification words give: 2 if equal, 1 if one name
    contains the other, 0 otherwise. *)
Definition spec_machine_score (rec_machine machine_norm : string) : Z :=
  if String.eqb rec_machine machine_norm then 2
  else if PyStr.contains rec_machine machine_norm
          || PyStr.contains machine_norm rec_machine
  then 1
  else 0.

(** The rows the loop scores: the candidates of the query that pass the
    test on the normalized operation and duty names. *)
Definition scored_rows (db : Session) (operation duty : option string) (key : string)
  : list MHR.joined :=
  filter (same_operation_and_duty (_norm operation) (_norm duty))
    (filter (sql_operation_filter key) (omap (join_row db) (mhr db))).

(** [r] is a row of the triple [(o, d, m)]. *)
Definition has_triple (o d m : Z) (r : MHR.t) : Prop :=
  MHR.op_type_id r = Some o /\ MHR.duty_id r = Some d /\ MHR.machine_id r = Some m.

(** What the call returns once the first tier resolved nothing. *)
Definition fuzzy_outcome (float_of_str : string -> option float)
    (operation duty machine_name : option string) (db : Session) : result float :=
  match except_pass (fuzzy_lookup float_of_str operation duty machine_name db) with
  | Some r => Return r
  | None => Raise not_configured
  end.

(** *** The two tiers on the tables *)

(** [x] is the first element of [l] that satisfies [P]. *)
Definition first_such {A : Type} (P : A -> Prop) (l : list A) (x : A) : Prop :=
  exists before after,
    l = (before ++ x :: after)%list /\ Forall (fun y => ~ P y) before /\ P x.

(** The row holds a rate, and the rate reads as the float [v]. *)
Definition holds_rate (float_of_str : string -> option float) (r : MHR.t) (v : float)
  : Prop :=
  exists s, MHR.machine_hr_rate r = Some s /\ float_of_str s = Some v.

(** The operation type id of a request is [o]: the id passed, or else the
    id of the first operation type whose name, trimmed and lower-cased, is
    the non-empty requested operation, stripped and lower-cased, read by a
    query that succeeds. *)
Definition operation_id_is (db : Session) (operation : option string)
    (op_type_id : option Z) (o : Z) : Prop :=
  op_type_id = Some o
  \/ (op_type_id = None
      /\ fails db QOperationTypeFirst = false
      /\ exists name ot,
          operation = Some name /\ name <> ""
          /\ first_such
               (fun x => Sql.lower (Sql.trim (OperationType.operation_name x))
                         = PyStr.lower (PyStr.strip name))
               (operation_types db) ot
          /\ OperationType.id ot = o).

(** The duty id of a request is [d]: the id passed, or else the id of the
    first duty whose normalized name is the non-empty normalized requested
    duty, read by a query that succeeds. *)
Definition duty_id_is (db : Session) (duty : option string) (duty_id : option Z)
    (d : Z) : Prop :=
  duty_id = Some d
  \/ (duty_id = None
      /\ fails db QDutyAll = false
      /\ _norm duty <> ""
      /\ exists du,
          first_such (fun x => _norm (Some (Duty.name x)) = _norm duty) (duties db) du
          /\ Duty.id du = d).

(** The deterministic tier resolves the rate [v]: the three ids are known,
    the query on MHR succeeds, and the first MHR row of the triple holds
    [v]. *)
Definition deterministic_match (float_of_str : string -> option float) (db : Session)
    (operation duty : option string) (machine_id op_type_id duty_id : option Z)
    (v : float) : Prop :=
  exists o d m r,
    operation_id_is db operation op_type_id o
    /\ duty_id_is db duty duty_id d
    /\ machine_id = Some m
    /\ fails db QMhrFirst = false
    /\ first_such (has_triple o d m) (mhr db) r
    /\ holds_rate float_of_str r v.

(** The fuzzy tier resolves the rate [v]: an operation is requested, the
    join query succeeds, and the first of the best scored rows holds [v]. *)
Definition fuzzy_match (float_of_str : string -> option float) (db : Session)
    (operation duty machine_name : option string) (v : float) : Prop :=
  exists name j,
    operation = Some name
    /\ fails db QMhrJoinAll = false
    /\ is_first_best (score_of (_norm machine_name))
         (scored_rows db operation duty (PyStr.lower (PyStr.strip name))) j
    /\ holds_rate float_of_str (MHR.row j) v.

(** A joined MHR row matches the requested operation and duty by name. *)
Definition matches_by_name (operation duty : option string) (j : MHR.joined) : Prop :=
  exists name,
    operation = Some name
    /\ Sql.lower (Sql.trim (OperationType.operation_name (MHR.operation_type j)))
       = PyStr.lower (PyStr.strip name)
    /\ _norm (Some (Duty.name (MHR.duty j))) = _norm duty.

(** Example tables. *)
Definition no_failure (q : query) : bool := false.
Definition every_failure (q : query) : bool := true.

Definition mhr_row (id o d m : Z) (rate : option string) : MHR.t :=
  {| MHR.id := id; MHR.op_type_id := Some o; MHR.duty_id := Some d;
     MHR.machine_id := Some m; MHR.machine_hr_rate := rate |}.

(** One operation type, duty and machine, and the MHR rows [rows]. *)
Definition small_db (operation_name duty_name machine_name : string)
    (rows : list MHR.t) (fails : query -> bool) : Session :=
  {| operation_types := [ {| OperationType.id := 1; OperationType.operation_name := operation_name |} ];
     duties := [ {| Duty.id := 1; Duty.name := duty_name |} ];
     machines := [ {| Machine.id := 1; Machine.name := machine_name; Machine.op_id := Some 1 |} ];
     mhr := rows;
     fails := fails |}.

(** Two machines of one operation and duty; the second has a name that
    normalizes to the empty string. *)
Definition blank_name_db : Session :=
  {| operation_types := [ {| OperationType.id := 1; OperationType.operation_name := "turning" |} ];
     duties := [ {| Duty.id := 1; Duty.name := "medium" |} ];
     machines := [ {| Machine.id := 1; Machine.name := "Drill"; Machine.op_id := Some 1 |};
                   {| Machine.id := 2; Machine.name := "-"; Machine.op_id := Some 1 |} ];
     mhr := [ mhr_row 1 1 1 1 (Some "100"); mhr_row 2 1 1 2 (Some "200") ];
     fails := no_failure |}.

Import CostEstimationRoutes.

(** *** Machine selection *)

(** The string of a machine category. *)
Definition category_value (c : machine_category) : string :=
  match c with
  | conventional => "conventional"
  | cnc_3axis => "cnc_3axis"
  | cnc_5axis => "cnc_5axis"
  | spm => "spm"
  end.

(** The lower-cased name mentions one of the keywords of
    [determine_machine_category]. *)
Definition mentions_keyword (machine_name : string) : Prop :=
  let name_lower := PyStr.lower machine_name in
  occurs_in "cnc" name_lower \/ occurs_in "precision" name_lower
  \/ occurs_in "spm" name_lower \/ occurs_in "special" name_lower.

(** The operations whose 5-axis machine has a name without a "5". *)
Definition unnumbered_5axis (operation : string) : Prop :=
  operation = "drilling" \/ operation = "grinding" \/ operation = "boring".

(** *** Man-hours *)

(** The man-hours of the matrix, or its default. *)
Definition matrix_hours (operation duty : string) : float :=
  calculate_man_hours operation duty None.

(** *** Machines by name *)

(** The dictionary [get_machine_details] builds from a row. *)
Definition details_of (m : Machine.t) : MachineDetails :=
  {| details_id := Machine.id m;
     details_name := Machine.name m;
     details_operation_type_id := Machine.op_id m |}.

(** *** Materials and dimensions *)

(** The material as [determine_duty_category] compares it. *)
Definition normal_material (material : option string) : string :=
  PyStr.lower (PyStr.strip (PyStr.or_empty material)).

(** The operation as [determine_duty_category] compares it. *)
Definition normal_operation (operation : option string) : string :=
  PyStr.lower (PyStr.strip (PyStr.or_empty operation)).

(** The dictionary holds every field of [keys]. *)
Definition has_fields (keys : list string) (dims : gmap string float) : Prop :=
  Forall (fun k => is_Some (dims !! k)) keys.

(** *** Strings *)

(** Every character of [s] satisfies [p]. *)
Fixpoint blank_string (p : ascii -> bool) (s : string) : bool :=
  match s with
  | EmptyString => true
  | String c s' => p c && blank_string p s'
  end.

(** *** The routes *)

(** [str(e)] of an exception raised with one message. *)
Definition detail (e : exn) : string :=
  match e with ValueError msg => msg | _ => "" end.

(** The class of the geometric thresholds for the fields of a request:
    the round part when a diameter is given. *)
Definition geometric_class (dims : Dimensions.t) : option duty :=
  match Dimensions.diameter dims with
  | Some d => option_map (round_class d) (Dimensions.length dims)
  | None =>
      match Dimensions.length dims, Dimensions.breadth dims, Dimensions.height dims with
      | Some l, Some b, Some h => Some (rectangular_class l b h)
      | _, _, _ => None
      end
  end.

(** Neither shape can be read off the fields. *)
Definition no_shape (dims : Dimensions.t) : Prop :=
  Dimensions.diameter dims = None
  /\ (Dimensions.breadth dims = None \/ Dimensions.height dims = None).

(** A connection whose query on machines succeeds. *)
Definition connect (s : Session) : Connection :=
  {| session := s; machine_query_fails := false |}.

(** Example requests and tables. *)
Definition round_part (d l : float) : Dimensions.t :=
  {| Dimensions.diameter := Some d; Dimensions.length := Some l;
     Dimensions.breadth := None; Dimensions.height := None |}.

Definition sample_request (machine_name : string) (dims : Dimensions.t)
    (duty_category : option string) : CostEstimationRequest.t :=
  {| CostEstimationRequest.machine_name := machine_name;
     CostEstimationRequest.dimensions := dims;
     CostEstimationRequest.duty_category := duty_category;
     CostEstimationRequest.material := "steel";
     CostEstimationRequest.operation_type := "turning";
     CostEstimationRequest.man_hours_per_unit := dec 5 10 |}.

(** The wage rate of the route's responses, by the name of the machine. *)
Definition wage_of_name (machine_name : string) : float :=
  match determine_machine_category machine_name with
  | conventional => of_int 75
  | _ => of_int 100
  end.

(** The machine [quick_estimate] asks for. *)
Definition quick_machine_name (operation duty : string) : string :=
  fst (select_machine operation duty "steel" None).

(** One turning machine named [machine_name] with a rate for medium duty. *)
Definition turning_db (machine_name : string) : Connection :=
  connect (small_db "turning" "medium" machine_name
             [mhr_row 1 1 1 1 (Some "250.5")] no_failure).

(** ** Properties *)

Module FloatOrder.

Ltac key_yes := split; [intros _; do 2 eexists; repeat split; simpl; lia | reflexivity].
Ltac key_no :=
  split; [discriminate
         | intros (ka & kb & Hka & Hkb & Hlex); try discriminate;
           inversion Hka; inversion Hkb; subst; simpl in Hlex; lia].

Lemma fleb_key x y :
  fleb x y = true <-> exists a b, order_key x = Some a /\ order_key y = Some b /\ lex_le a b.
Proof.
  unfold fleb, SFleb.
  destruct x as [[]|[]| |[] mx ex], y as [[]|[]| |[] my ey]; simpl;
    try key_yes; try key_no.
  - destruct (Z.compare_spec ex ey); simpl; [subst | key_no | key_yes].
    rewrite Pos.compare_cont_spec; simpl.
    destruct (Pos.compare_spec mx my); simpl; [key_yes | key_no | key_yes].
  - destruct (Z.compare_spec ex ey); simpl; [subst | key_yes | key_no].
    rewrite Pos.compare_cont_spec; simpl.
    destruct (Pos.compare_spec mx my); simpl; [key_yes | key_yes | key_no].
Qed.

Lemma fltb_key x y :
  fltb x y = true <-> exists a b, order_key x = Some a /\ order_key y = Some b /\ lex_lt a b.
Proof.
  unfold fltb, SFltb.
  destruct x as [[]|[]| |[] mx ex], y as [[]|[]| |[] my ey]; simpl;
    try key_yes; try key_no.
  - destruct (Z.compare_spec ex ey); simpl; [subst | key_no | key_yes].
    rewrite Pos.compare_cont_spec; simpl.
    destruct (Pos.compare_spec mx my); simpl; [key_no | key_no | key_yes].
  - destruct (Z.compare_spec ex ey); simpl; [subst | key_yes | key_no].
    rewrite Pos.compare_cont_spec; simpl.
    destruct (Pos.compare_spec mx my); simpl; [key_no | key_yes | key_no].
Qed.

Lemma order_key_nan x : order_key x = None <-> is_nan x = true.
Proof. destruct x as [[]|[]| |[] m e]; simpl; split; congruence. Qed.

Lemma fleb_trans x y z : fleb x y = true -> fleb y z = true -> fleb x z = true.
Proof.
  rewrite !fleb_key.
  intros (a & b & Ha & Hb & Hab) (b' & c & Hb' & Hc & Hbc).
  rewrite Hb in Hb'. inversion Hb'; subst b'.
  exists a, c. repeat split; try assumption.
  destruct a as [[a1 a2] a3], b as [[b1 b2] b3], c as [[c1 c2] c3]; simpl in *. lia.
Qed.

Lemma fleb_not_nan x y : fleb x y = true -> is_nan x = false /\ is_nan y = false.
Proof.
  rewrite fleb_key. intros (a & b & Ha & Hb & _).
  split; apply not_true_is_false; rewrite <- order_key_nan; congruence.
Qed.

(** [not (y > x)] between numbers is [y <= x]. *)
Lemma not_fgtb_fleb x y :
  fgtb y x = false -> is_nan x = false -> is_nan y = false -> fleb y x = true.
Proof.
  unfold fgtb. intros Hgt Hx Hy.
  destruct (order_key x) as [a|] eqn:Ha; [| apply order_key_nan in Ha; congruence].
  destruct (order_key y) as [b|] eqn:Hb; [| apply order_key_nan in Hb; congruence].
  apply fleb_key. exists b, a. repeat split; try assumption.
  assert (Hn : ~ lex_lt a b).
  { intros Hlt. assert (fltb x y = true) by (apply fltb_key; eauto). unfold fltb in *. congruence. }
  destruct a as [[a1 a2] a3], b as [[b1 b2] b3]; simpl in *. lia.
Qed.

Lemma fgtb_fleb x y : fgtb y x = true -> fleb x y = true.
Proof.
  unfold fgtb. intros H. apply fltb_key in H. destruct H as (a & b & Ha & Hb & H).
  apply fleb_key. exists a, b. repeat split; try assumption.
  destruct a as [[a1 a2] a3], b as [[b1 b2] b3]; simpl in *. lia.
Qed.

Lemma fgtb_nan_r x y : is_nan x = true -> fgtb y x = false.
Proof. destruct x; try discriminate. intros _. destruct y; reflexivity. Qed.

Lemma fgtb_nan_l x y : is_nan y = true -> fgtb y x = false.
Proof. destruct y; try discriminate. intros _. destruct x as [| | |[] ? ?]; reflexivity. Qed.

Lemma fleb_nan_l x t : is_nan x = true -> fleb x t = false.
Proof. destruct x; try discriminate. reflexivity. Qed.

(** The larger of two numbers, as [max] computes it, is below [t] exactly when
    both are. *)
Lemma fleb_max2 a b t :
  is_nan a = false ->
  fleb (if fgtb b a then b else a) t = fleb a t && (is_nan b || fleb b t).
Proof.
  intros Ha. destruct (is_nan b) eqn:Hb.
  - rewrite (fgtb_nan_l a b Hb). simpl. now rewrite andb_true_r.
  - simpl. destruct (fgtb b a) eqn:Hgt.
    + destruct (fleb b t) eqn:Hbt.
      * rewrite andb_true_r. symmetry. eapply fleb_trans; [apply fgtb_fleb; eassumption | assumption].
      * now rewrite andb_false_r.
    + destruct (fleb a t) eqn:Hat; simpl; [| reflexivity].
      symmetry. eapply fleb_trans; [apply not_fgtb_fleb; eassumption | assumption].
Qed.

Lemma max2_not_nan a b : is_nan a = false -> is_nan (if fgtb b a then b else a) = false.
Proof.
  intros Ha. destruct (fgtb b a) eqn:Hgt; [| assumption].
  apply fgtb_fleb in Hgt. now apply fleb_not_nan in Hgt.
Qed.

Lemma fleb_max3 l b h t :
  fleb (max3 l b h) t = fleb l t && (is_nan b || fleb b t) && (is_nan h || fleb h t).
Proof.
  unfold max3. destruct (is_nan l) eqn:Hl.
  - rewrite (fgtb_nan_r l b Hl). rewrite (fgtb_nan_r l h Hl).
    now rewrite (fleb_nan_l l t Hl).
  - rewrite fleb_max2 by (now apply max2_not_nan).
    now rewrite fleb_max2 by assumption.
Qed.

Lemma float_le_below x y t : float_le x y -> fleb y t = true -> fleb x t = true.
Proof. intros [-> | H] Hy; [assumption | eapply fleb_trans; eassumption]. Qed.

Lemma float_le_below_or_nan x y t :
  float_le x y -> is_nan y || fleb y t = true -> is_nan x || fleb x t = true.
Proof.
  intros [-> | H] Hy; [assumption |].
  destruct (fleb_not_nan _ _ H) as [Hx Hy']. rewrite Hy' in Hy. rewrite Hx. simpl in *.
  eapply fleb_trans; eassumption.
Qed.

End FloatOrder.

Module Classifier.
Import FloatOrder.

#[local] Arguments of_int : simpl never.
#[local] Arguments dec : simpl never.
#[local] Arguments max3 : simpl never.

Lemma bump_one d : _bump d 1 = match d with light => medium | _ => heavy end.
Proof. now destruct d. Qed.

Lemma bump_zero d : _bump d 0 = d.
Proof. now destruct d. Qed.

Lemma material_adjustment_steel b :
  material_adjustment "steel" b = match b with light => medium | _ => b end.
Proof. now destruct b. Qed.

Lemma material_adjustment_titanium b : material_adjustment "titanium" b = heavy.
Proof. now destruct b. Qed.

Lemma material_adjustment_other mat b :
  mat <> "steel" -> mat <> "titanium" -> material_adjustment mat b = b.
Proof.
  intros Hs Ht. unfold material_adjustment.
  apply String.eqb_neq in Hs, Ht. now rewrite Hs, Ht.
Qed.

Lemma material_adjustment_mono mat b1 b2 :
  duty_le b1 b2 -> duty_le (material_adjustment mat b1) (material_adjustment mat b2).
Proof.
  unfold material_adjustment, duty_le.
  destruct (String.eqb mat "steel"), (String.eqb mat "titanium"), b1, b2;
    simpl; intros H; try lia; try (vm_compute; discriminate).
Qed.

Lemma operation_adjustment_mono op b1 b2 :
  duty_le b1 b2 -> duty_le (operation_adjustment op b1) (operation_adjustment op b2).
Proof.
  unfold operation_adjustment, duty_le.
  destruct (String.eqb op "heat_treatment" || String.eqb op "welding"), b1, b2;
    simpl; intros H; try lia; try (vm_compute; discriminate).
Qed.

Lemma geometric_rectangular dims l b h :
  dims !! "length" = Some l -> dims !! "breadth" = Some b -> dims !! "height" = Some h ->
  geometric_base "rectangular" dims = Return (Some (rectangular_class l b h)).
Proof.
  intros Hl Hb Hh. unfold geometric_base, all_in, rectangular_keys, has_key, getitem.
  simpl forallb. rewrite Hl, Hb, Hh. simpl.
  unfold rectangular_class.
  destruct (fleb (max3 l b h) (of_int 750)); [reflexivity |].
  now destruct (fleb (max3 l b h) (of_int 1500)).
Qed.

Lemma geometric_round dims d l :
  dims !! "diameter" = Some d -> dims !! "length" = Some l ->
  geometric_base "round" dims = Return (Some (round_class d l)).
Proof.
  intros Hd Hl. unfold geometric_base, all_in, round_keys, has_key, getitem.
  simpl forallb. rewrite Hd, Hl. simpl.
  unfold round_class.
  destruct (fleb d (of_int 100) && fleb l (of_int 300)); [reflexivity |].
  now destruct (fleb d (of_int 300) && fleb l (of_int 1200)).
Qed.

Lemma rectangular_class_mono l1 b1 h1 l2 b2 h2 :
  float_le l1 l2 -> float_le b1 b2 -> float_le h1 h2 ->
  duty_le (rectangular_class l1 b1 h1) (rectangular_class l2 b2 h2).
Proof.
  intros Hl Hb Hh.
  assert (Hthr : forall t, fleb (max3 l2 b2 h2) t = true -> fleb (max3 l1 b1 h1) t = true).
  { intros t. rewrite !fleb_max3, !andb_true_iff. intros [[H1 H2] H3].
    repeat split; eauto using float_le_below, float_le_below_or_nan. }
  unfold rectangular_class, duty_le.
  destruct (fleb (max3 l2 b2 h2) (of_int 750)) eqn:E2.
  - rewrite (Hthr _ E2). simpl. lia.
  - destruct (fleb (max3 l2 b2 h2) (of_int 1500)) eqn:E3.
    + rewrite (Hthr _ E3). destruct (fleb (max3 l1 b1 h1) (of_int 750)); simpl; lia.
    + destruct (fleb (max3 l1 b1 h1) (of_int 750)); [simpl; lia |].
      destruct (fleb (max3 l1 b1 h1) (of_int 1500)); simpl; lia.
Qed.

Lemma round_class_mono d1 l1 d2 l2 :
  float_le d1 d2 -> float_le l1 l2 ->
  duty_le (round_class d1 l1) (round_class d2 l2).
Proof.
  intros Hd Hl.
  assert (Hthr : forall t u, fleb d2 t && fleb l2 u = true -> fleb d1 t && fleb l1 u = true).
  { intros t u. rewrite !andb_true_iff. intros [H1 H2]. split; eauto using float_le_below. }
  unfold round_class, duty_le.
  destruct (fleb d2 (of_int 100) && fleb l2 (of_int 300)) eqn:E2.
  - rewrite (Hthr _ _ E2). simpl. lia.
  - destruct (fleb d2 (of_int 300) && fleb l2 (of_int 1200)) eqn:E3.
    + rewrite (Hthr _ _ E3). destruct (fleb d1 (of_int 100) && fleb l1 (of_int 300)); simpl; lia.
    + destruct (fleb d1 (of_int 100) && fleb l1 (of_int 300)); [simpl; lia |].
      destruct (fleb d1 (of_int 300) && fleb l1 (of_int 1200)); simpl; lia.
Qed.

Lemma determine_of_base shape dims material operation b :
  base_classification shape dims (PyStr.lower (PyStr.strip (PyStr.or_empty material)))
    (PyStr.lower (PyStr.strip (PyStr.or_empty operation))) = Return b ->
  determine_duty_category shape dims material operation =
  Return (operation_adjustment (PyStr.lower (PyStr.strip (PyStr.or_empty operation)))
            (material_adjustment (PyStr.lower (PyStr.strip (PyStr.or_empty material))) b)).
Proof. intros H. unfold determine_duty_category. now rewrite H. Qed.

Lemma base_of_geometric shape dims mat op b :
  geometric_base shape dims = Return (Some b) ->
  base_classification shape dims mat op = Return b.
Proof. intros H. unfold base_classification. now rewrite H. Qed.

Lemma geometric_none shape dims :
  all_in dims rectangular_keys = false -> all_in dims round_keys = false ->
  geometric_base shape dims = Return None.
Proof.
  intros Hr Ho. unfold geometric_base. rewrite Hr, Ho.
  now rewrite !andb_false_r.
Qed.

Lemma geometric_none_shape shape dims :
  shape <> "rectangular" -> shape <> "round" -> geometric_base shape dims = Return None.
Proof.
  intros Hr Ho. unfold geometric_base.
  apply String.eqb_neq in Hr, Ho. now rewrite Hr, Ho.
Qed.

Lemma fallback_volume_raises shape dims :
  all_in dims rectangular_keys = false -> all_in dims round_keys = false ->
  exists e, fallback_volume shape dims = Raise e.
Proof.
  unfold all_in, rectangular_keys, round_keys, has_key, fallback_volume, getitem.
  simpl forallb. intros Hr Ho.
  destruct (String.eqb shape "round").
  - destruct (dims !! "diameter") as [d|]; simpl; [| eauto].
    destruct (pow2 (fdiv d (of_int 2))) as [sq|e]; simpl; [| eauto].
    destruct (dims !! "length"); simpl; [discriminate | eauto].
  - destruct (dims !! "length"); simpl; [| eauto].
    destruct (dims !! "breadth"); simpl; [| eauto].
    destruct (dims !! "height"); simpl; [discriminate | eauto].
Qed.

Lemma missing_fields_raise shape dims material operation :
  all_in dims rectangular_keys = false -> all_in dims round_keys = false ->
  exists e, determine_duty_category shape dims material operation = Raise e.
Proof.
  intros Hr Ho. unfold determine_duty_category, base_classification, fallback_base.
  rewrite (geometric_none _ _ Hr Ho).
  destruct (fallback_volume_raises shape dims Hr Ho) as [e He].
  exists e. simpl. now rewrite He.
Qed.

Lemma fallback_box shape dims mat op l b h :
  shape <> "rectangular" -> shape <> "round" ->
  dims !! "length" = Some l -> dims !! "breadth" = Some b -> dims !! "height" = Some h ->
  base_classification shape dims mat op =
  Return (score_class (volume_score (fmul (fmul l b) h) mat op)).
Proof.
  intros Hr Ho Hl Hb Hh. unfold base_classification.
  rewrite (geometric_none_shape _ dims Hr Ho). simpl.
  unfold fallback_base, fallback_volume, getitem.
  apply String.eqb_neq in Ho. rewrite Ho, Hl, Hb, Hh. simpl.
  unfold score_class, volume_score.
  destruct (fltb _ (of_int 5)); [reflexivity |].
  now destruct (fltb _ (of_int 20)).
Qed.

Lemma geometric_none_inv shape dims :
  geometric_base shape dims = Return None ->
  String.eqb shape "rectangular" && all_in dims rectangular_keys = false
  /\ String.eqb shape "round" && all_in dims round_keys = false.
Proof.
  unfold geometric_base.
  destruct (String.eqb shape "rectangular" && all_in dims rectangular_keys) eqn:E1.
  - apply andb_true_iff in E1 as [_ E1]. revert E1.
    unfold all_in, rectangular_keys, has_key, getitem. simpl forallb.
    destruct (dims !! "length"); [| discriminate].
    destruct (dims !! "breadth"); [| discriminate].
    destruct (dims !! "height"); [| discriminate].
    intros _. simpl.
    destruct (fleb _ (of_int 750)); [discriminate |].
    destruct (fleb _ (of_int 1500)); discriminate.
  - destruct (String.eqb shape "round" && all_in dims round_keys) eqn:E2; [| now split].
    apply andb_true_iff in E2 as [_ E2]. revert E2.
    unfold all_in, round_keys, has_key, getitem. simpl forallb.
    destruct (dims !! "diameter"); [| discriminate].
    destruct (dims !! "length"); [| discriminate].
    intros _. simpl.
    destruct (fleb _ (of_int 100) && fleb _ (of_int 300)); [discriminate |].
    destruct (fleb _ (of_int 300) && fleb _ (of_int 1200)); discriminate.
Qed.

(** The fallback returns only for the box formula with its three fields. *)
Lemma fallback_returns_only_for_boxes shape dims material operation c :
  geometric_base shape dims = Return None ->
  determine_duty_category shape dims material operation = Return c ->
  shape <> "rectangular" /\ shape <> "round" /\ all_in dims rectangular_keys = true.
Proof.
  intros Hg Hc. destruct (geometric_none_inv _ _ Hg) as [E1 E2].
  revert Hc. unfold determine_duty_category, base_classification. rewrite Hg.
  cbn [mbind result_bind]. unfold fallback_base, fallback_volume, getitem.
  revert E1 E2. unfold all_in, rectangular_keys, round_keys, has_key. simpl forallb.
  destruct (String.eqb_spec shape "round") as [-> | Hround].
  - simpl. destruct (dims !! "diameter"); [| discriminate].
    simpl. destruct (pow2 _); [| discriminate].
    simpl. destruct (dims !! "length"); discriminate.
  - destruct (dims !! "length"); [| discriminate].
    destruct (dims !! "breadth"); [| discriminate].
    destruct (dims !! "height"); [| discriminate].
    destruct (String.eqb_spec shape "rectangular") as [-> | Hrect]; [discriminate |].
    now intros _ _ _.
Qed.

(** C8 (as amended): a call in which neither shape's required fields are
    present returns no duty: reading the volume raises. The volume-score
    heuristic yields a category only for a shape other than "rectangular"
    and "round" whose dimensions hold length, breadth and height: the box
    volume divided by 1,000,000, times the material and operation factors,
    is light below 5, medium below 20, heavy otherwise, and then passes the
    material and operation adjustments. *)
Theorem fallback_needs_its_fields shape dims material operation :
  let mat := PyStr.lower (PyStr.strip (PyStr.or_empty material)) in
  let op := PyStr.lower (PyStr.strip (PyStr.or_empty operation)) in
  (all_in dims rectangular_keys = false -> all_in dims round_keys = false ->
   exists e, determine_duty_category shape dims material operation = Raise e)
  /\ (shape <> "rectangular" -> shape <> "round" ->
      forall l b h,
        dims !! "length" = Some l -> dims !! "breadth" = Some b -> dims !! "height" = Some h ->
        determine_duty_category shape dims material operation =
        Return (operation_adjustment op (material_adjustment mat
                  (score_class (volume_score (fmul (fmul l b) h) mat op)))))
  /\ (forall c,
      geometric_base shape dims = Return None ->
      determine_duty_category shape dims material operation = Return c ->
      shape <> "rectangular" /\ shape <> "round"
      /\ all_in dims rectangular_keys = true).
Proof.
  intros mat op. split; [| split].
  - apply missing_fields_raise.
  - intros Hr Ho l b h Hl Hb Hh. apply determine_of_base.
    now apply fallback_box.
  - intros c Hg Hc. now apply (fallback_returns_only_for_boxes shape dims material operation c).
Qed.

Lemma fallback_needs_its_fields_witness :
  (exists e, determine_duty_category "round" {[ "length" := of_int 10 ]}
               (Some "steel") (Some "turning") = Raise e)
  /\ determine_duty_category "hexagonal"
       (rect_dims (of_int 1000) (of_int 1000) (of_int 10)) (Some "Steel") (Some "Milling")
     = Return heavy.
Proof.
  destruct (fallback_needs_its_fields "round" {[ "length" := of_int 10 ]}
              (Some "steel") (Some "turning")) as [Hraise _].
  destruct (fallback_needs_its_fields "hexagonal"
              (rect_dims (of_int 1000) (of_int 1000) (of_int 10))
              (Some "Steel") (Some "Milling")) as [_ [Hbox _]].
  split.
  - apply Hraise; reflexivity.
  - rewrite (Hbox ltac:(discriminate) ltac:(discriminate)
               (of_int 1000) (of_int 1000) (of_int 10) eq_refl eq_refl eq_refl).
    reflexivity.
Defined.

Lemma fallback_raises_on_missing_fields :
  all_in ({[ "length" := of_int 10 ]} : gmap string float) rectangular_keys = false
  /\ all_in ({[ "length" := of_int 10 ]} : gmap string float) round_keys = false
  /\ determine_duty_category "round" {[ "length" := of_int 10 ]}
       (Some "steel") (Some "turning") = Raise (KeyError "diameter")
  /\ determine_duty_category "rectangular" ∅ (Some "steel") (Some "milling")
     = Raise (KeyError "length").
Proof. repeat split. Qed.

(** C1 (as amended): after the base classification, the material
    (trimmed and lower-cased) adjusts the duty as follows: for steel or
    titanium a light base becomes medium, while a medium or heavy base is
    left as it is by the first step; for titanium a duty that is then medium
    becomes heavy, so titanium always ends heavy; any other material leaves
    the base unchanged. For a medium base and steel the duty after the
    material adjustment is medium. The result of the function is this duty
    after the operation adjustment. *)
Theorem material_adjustment_bumps_light_only shape dims material operation b :
  let mat := PyStr.lower (PyStr.strip (PyStr.or_empty material)) in
  let op := PyStr.lower (PyStr.strip (PyStr.or_empty operation)) in
  base_classification shape dims mat op = Return b ->
  exists d,
    d = material_adjustment mat b
    /\ determine_duty_category shape dims material operation
       = Return (operation_adjustment op d)
    /\ (mat = "steel" -> d = match b with light => medium | medium => medium | heavy => heavy end)
    /\ (mat = "titanium" -> d = heavy)
    /\ (mat <> "steel" -> mat <> "titanium" -> d = b).
Proof.
  intros mat op Hb. exists (material_adjustment mat b).
  split; [reflexivity |]. split; [now apply determine_of_base |].
  split; [| split].
  - intros ->. rewrite material_adjustment_steel. now destruct b.
  - intros ->. apply material_adjustment_titanium.
  - apply material_adjustment_other.
Qed.

Lemma material_adjustment_bumps_light_only_witness :
  exists d,
    d = material_adjustment "steel" medium
    /\ determine_duty_category "rectangular"
         (rect_dims (of_int 1000) (of_int 10) (of_int 10)) (Some " Steel ") (Some "milling")
       = Return (operation_adjustment "milling" d)
    /\ ("steel" = "steel" -> d = medium)
    /\ ("steel" = "titanium" -> d = heavy)
    /\ ("steel" <> "steel" -> "steel" <> "titanium" -> d = medium).
Proof.
  apply (material_adjustment_bumps_light_only "rectangular"
           (rect_dims (of_int 1000) (of_int 10) (of_int 10))
           (Some " Steel ") (Some "milling") medium).
  reflexivity.
Defined.

Lemma steel_leaves_medium_unchanged :
  base_classification "rectangular" (rect_dims (of_int 1000) (of_int 10) (of_int 10))
    "steel" "milling" = Return medium
  /\ material_adjustment "steel" medium = medium
  /\ material_adjustment "steel" medium <> heavy
  /\ determine_duty_category "rectangular"
       (rect_dims (of_int 1000) (of_int 10) (of_int 10)) (Some "steel") (Some "milling")
     = Return medium.
Proof. repeat split. discriminate. Qed.

Lemma grown_rectangular d1 d2 :
  grown rectangular_keys d1 d2 ->
  exists l1 b1 h1 l2 b2 h2,
    (d1 !! "length" = Some l1 /\ d1 !! "breadth" = Some b1 /\ d1 !! "height" = Some h1)
    /\ (d2 !! "length" = Some l2 /\ d2 !! "breadth" = Some b2 /\ d2 !! "height" = Some h2)
    /\ float_le l1 l2 /\ float_le b1 b2 /\ float_le h1 h2.
Proof.
  unfold grown, rectangular_keys. intros H.
  apply Forall_cons in H as [(l1 & l2 & L1 & L2 & Hl) H].
  apply Forall_cons in H as [(b1 & b2 & B1 & B2 & Hb) H].
  apply Forall_cons in H as [(h1 & h2 & H1 & H2 & Hh) _].
  exists l1, b1, h1, l2, b2, h2. tauto.
Qed.

Lemma grown_round d1 d2 :
  grown round_keys d1 d2 ->
  exists a1 l1 a2 l2,
    (d1 !! "diameter" = Some a1 /\ d1 !! "length" = Some l1)
    /\ (d2 !! "diameter" = Some a2 /\ d2 !! "length" = Some l2)
    /\ float_le a1 a2 /\ float_le l1 l2.
Proof.
  unfold grown, round_keys. intros H.
  apply Forall_cons in H as [(a1 & a2 & A1 & A2 & Ha) H].
  apply Forall_cons in H as [(l1 & l2 & L1 & L2 & Hl) _].
  exists a1, l1, a2, l2. tauto.
Qed.

Lemma adjustments_mono material operation b1 b2 :
  duty_le b1 b2 ->
  duty_le (operation_adjustment operation (material_adjustment material b1))
          (operation_adjustment operation (material_adjustment material b2)).
Proof. intros H. now apply operation_adjustment_mono, material_adjustment_mono. Qed.

(** The class of a rectangular part by its largest dimension [m]: the
    thresholds compare [m]. *)
Lemma rectangular_class_largest m l b h :
  largest m l b h ->
  rectangular_class l b h
  = if fleb m (of_int 750) then light
    else if fleb m (of_int 1500) then medium
    else heavy.
Proof.
  intros (Hm & Hl & Hb & Hh).
  assert (Hthr : forall t, fleb (max3 l b h) t = fleb m t).
  { intros t. rewrite fleb_max3.
    destruct (fleb m t) eqn:Emt.
    - rewrite (fleb_trans _ _ _ Hl Emt), (fleb_trans _ _ _ Hb Emt),
        (fleb_trans _ _ _ Hh Emt). now rewrite !orb_true_r.
    - destruct (fleb_not_nan _ _ Hb) as [Nb _]. destruct (fleb_not_nan _ _ Hh) as [Nh _].
      rewrite Nb, Nh. cbn [orb].
      destruct Hm as [-> | [-> | ->]]; rewrite Emt;
        now rewrite ?andb_false_r, ?andb_false_l. }
  unfold rectangular_class. now rewrite !Hthr.
Qed.

Lemma operation_adjustment_other op b :
  op <> "heat_treatment" -> op <> "welding" -> operation_adjustment op b = b.
Proof.
  intros H1 H2. unfold operation_adjustment.
  apply String.eqb_neq in H1, H2. now rewrite H1, H2.
Qed.

Lemma adjusted_plain material operation c :
  plain material operation -> adjusted material operation c = c.
Proof.
  intros (Hs & Ht & Hh & Hw). unfold adjusted.
  rewrite (material_adjustment_other _ _ Hs Ht). now apply operation_adjustment_other.
Qed.

Lemma determine_rectangular dims l b h material operation :
  dims !! "length" = Some l -> dims !! "breadth" = Some b -> dims !! "height" = Some h ->
  determine_duty_category "rectangular" dims material operation
  = Return (adjusted material operation (rectangular_class l b h)).
Proof.
  intros Hl Hb Hh. apply determine_of_base, base_of_geometric.
  now apply geometric_rectangular.
Qed.

Lemma determine_round dims d l material operation :
  dims !! "diameter" = Some d -> dims !! "length" = Some l ->
  determine_duty_category "round" dims material operation
  = Return (adjusted material operation (round_class d l)).
Proof.
  intros Hd Hl. apply determine_of_base, base_of_geometric.
  now apply geometric_round.
Qed.

(** C7: for a fixed material and operation, [determine_duty_category] is
    monotone in the part's size: when every required field of a rectangular
    part (length, breadth, height), or of a round part (diameter, length),
    is unchanged or increased, both calls return and the larger part's duty
    is not lower (light < medium < heavy). Boundaries, for a part with its
    three fields: when the largest of length, breadth and height is exactly
    750 the function returns the duty of base light, for 750.01 that of base
    medium, for 1500 that of base medium, for 1500.01 that of base heavy;
    a round part of diameter 100 and length 300 gets the duty of base light,
    one of diameter 101 and length 300 that of base medium. The duty of a
    base is the base moved by the material and operation adjustments, and
    is the base itself when the material is neither steel nor titanium and
    the operation neither heat treatment nor welding. *)
Theorem duty_monotone_in_size :
  (forall shape keys d1 d2 material operation,
      (shape = "rectangular" /\ keys = rectangular_keys)
      \/ (shape = "round" /\ keys = round_keys) ->
      grown keys d1 d2 ->
      exists c1 c2,
        determine_duty_category shape d1 material operation = Return c1
        /\ determine_duty_category shape d2 material operation = Return c2
        /\ duty_le c1 c2)
  /\ (forall dims l b h material operation,
      dims !! "length" = Some l -> dims !! "breadth" = Some b -> dims !! "height" = Some h ->
      (largest (of_int 750) l b h ->
       determine_duty_category "rectangular" dims material operation
       = Return (adjusted material operation light))
      /\ (largest (dec 75001 100) l b h ->
          determine_duty_category "rectangular" dims material operation
          = Return (adjusted material operation medium))
      /\ (largest (of_int 1500) l b h ->
          determine_duty_category "rectangular" dims material operation
          = Return (adjusted material operation medium))
      /\ (largest (dec 150001 100) l b h ->
          determine_duty_category "rectangular" dims material operation
          = Return (adjusted material operation heavy)))
  /\ (forall dims material operation,
      dims !! "length" = Some (of_int 300) ->
      (dims !! "diameter" = Some (of_int 100) ->
       determine_duty_category "round" dims material operation
       = Return (adjusted material operation light))
      /\ (dims !! "diameter" = Some (of_int 101) ->
          determine_duty_category "round" dims material operation
          = Return (adjusted material operation medium)))
  /\ (forall material operation c,
      plain material operation -> adjusted material operation c = c).
Proof.
  split; [| split; [| split]].
  - intros shape keys d1 d2 material operation [[-> ->] | [-> ->]] Hg.
    + destruct (grown_rectangular _ _ Hg)
        as (l1 & b1 & h1 & l2 & b2 & h2 & (A1 & A2 & A3) & (B1 & B2 & B3) & Hl & Hb & Hh).
      eexists _, _. split; [| split].
      * apply determine_of_base, base_of_geometric, (geometric_rectangular _ _ _ _ A1 A2 A3).
      * apply determine_of_base, base_of_geometric, (geometric_rectangular _ _ _ _ B1 B2 B3).
      * now apply adjustments_mono, rectangular_class_mono.
    + destruct (grown_round _ _ Hg)
        as (a1 & l1 & a2 & l2 & (A1 & A2) & (B1 & B2) & Ha & Hl).
      eexists _, _. split; [| split].
      * apply determine_of_base, base_of_geometric, (geometric_round _ _ _ A1 A2).
      * apply determine_of_base, base_of_geometric, (geometric_round _ _ _ B1 B2).
      * now apply adjustments_mono, round_class_mono.
  - intros dims l b h material operation Hl Hb Hh.
    rewrite (determine_rectangular _ _ _ _ material operation Hl Hb Hh).
    repeat split; intros Hm; rewrite (rectangular_class_largest _ _ _ _ Hm); reflexivity.
  - intros dims material operation Hl.
    split; intros Hd; rewrite (determine_round _ _ _ material operation Hd Hl); reflexivity.
  - apply adjusted_plain.
Qed.

Lemma duty_monotone_in_size_witness :
  (exists c1 c2,
     determine_duty_category "rectangular"
       (rect_dims (of_int 700) (of_int 10) (of_int 10)) (Some "steel") (Some "milling")
     = Return c1
     /\ determine_duty_category "rectangular"
          (rect_dims (of_int 1600) (of_int 10) (of_int 10)) (Some "steel") (Some "milling")
        = Return c2
     /\ duty_le c1 c2)
  /\ determine_duty_category "rectangular"
       (rect_dims (of_int 10) (dec 75001 100) (of_int 20)) (Some "aluminium") (Some "milling")
     = Return medium
  /\ determine_duty_category "round"
       (round_dims (of_int 101) (of_int 300)) (Some "aluminium") (Some "turning")
     = Return medium.
Proof.
  destruct duty_monotone_in_size as (Hmono & Hrect & Hround & Hplain).
  split; [| split].
  - apply (Hmono "rectangular" rectangular_keys).
    + left. split; reflexivity.
    + repeat constructor; eexists _, _; (split; [reflexivity | split; [reflexivity |]]);
        (right; reflexivity) || (left; reflexivity).
  - assert (Hm : largest (dec 75001 100) (of_int 10) (dec 75001 100) (of_int 20)).
    { split; [right; left; reflexivity |]. repeat split. }
    rewrite (proj1 (proj2 (Hrect (rect_dims (of_int 10) (dec 75001 100) (of_int 20))
                             (of_int 10) (dec 75001 100) (of_int 20)
                             (Some "aluminium") (Some "milling") eq_refl eq_refl eq_refl)) Hm).
    f_equal; apply Hplain; repeat split; discriminate.
  - rewrite (proj2 (Hround (round_dims (of_int 101) (of_int 300))
                      (Some "aluminium") (Some "turning") eq_refl) eq_refl).
    f_equal; apply Hplain; repeat split; discriminate.
Defined.

End Classifier.

Module Strings.

Lemma prefix_spec sub s :
  String.prefix sub s = true <-> exists post, s = (sub ++ post)%string.
Proof.
  revert s. induction sub as [| c sub IH]; intros s; simpl.
  - split; [intros _; now exists s | now destruct s].
  - destruct s as [| c' s]; simpl.
    + split; [discriminate | intros [post H]; discriminate].
    + destruct (ascii_dec c c') as [-> | Hne].
      * rewrite IH. split; intros [post H]; exists post; [now rewrite H | now inversion H].
      * split; [discriminate | intros [post H]; inversion H; congruence].
Qed.

Lemma contains_spec sub s : PyStr.contains sub s = true <-> occurs_in sub s.
Proof.
  unfold occurs_in. induction s as [| c s IH].
  - change (PyStr.contains sub "") with (String.prefix sub "" || false).
    rewrite orb_false_r, prefix_spec. split.
    + intros [post H]. now exists "", post.
    + intros (pre & post & H). destruct pre; [now exists post |]. discriminate.
  - change (PyStr.contains sub (String c s))
      with (String.prefix sub (String c s) || PyStr.contains sub s).
    rewrite orb_true_iff, prefix_spec, IH. split.
    + intros [[post H] | (pre & post & H)].
      * now exists "", post.
      * exists (String c pre), post. simpl. now rewrite H.
    + intros (pre & post & H). destruct pre as [| c' pre]; simpl in H.
      * left. now exists post.
      * right. inversion H. now exists pre, post.
Qed.

Lemma contains_false sub s : PyStr.contains sub s = false <-> ~ occurs_in sub s.
Proof. rewrite <- contains_spec. now destruct (PyStr.contains sub s). Qed.

Section Drop.
Variables p q : ascii -> bool.

Lemma rdrop_cons c s :
  PyStr.rdrop q (String c s)
  = match PyStr.rdrop q s with
    | EmptyString => if q c then EmptyString else String c EmptyString
    | r => String c r
    end.
Proof. reflexivity. Qed.

(** Dropping on the left and on the right commute. *)
Lemma ldrop_rdrop s : PyStr.ldrop p (PyStr.rdrop q s) = PyStr.rdrop q (PyStr.ldrop p s).
Proof.
  induction s as [| c s IH]; [reflexivity |].
  rewrite rdrop_cons. cbn [PyStr.ldrop].
  destruct (PyStr.rdrop q s) as [| c' r] eqn:E.
  - destruct (p c) eqn:Hp.
    + rewrite <- IH. now destruct (q c); cbn [PyStr.ldrop]; rewrite ?Hp.
    + rewrite rdrop_cons, E. destruct (q c); cbn [PyStr.ldrop]; now rewrite ?Hp.
  - cbn [PyStr.ldrop]. destruct (p c) eqn:Hp.
    + now rewrite <- IH.
    + now rewrite rdrop_cons, E.
Qed.

Hypothesis q_in_p : forall c, q c = true -> p c = true.

Lemma ldrop_ldrop s : PyStr.ldrop p (PyStr.ldrop q s) = PyStr.ldrop p s.
Proof.
  induction s as [| c s IH]; [reflexivity |].
  cbn [PyStr.ldrop]. destruct (q c) eqn:Hq.
  - now rewrite (q_in_p c Hq).
  - reflexivity.
Qed.

Lemma rdrop_rdrop s : PyStr.rdrop p (PyStr.rdrop q s) = PyStr.rdrop p s.
Proof.
  induction s as [| c s IH]; [reflexivity |].
  rewrite (rdrop_cons c s).
  destruct (PyStr.rdrop q s) as [| c' r] eqn:E.
  - cbn [PyStr.rdrop]. rewrite <- IH. cbn [PyStr.rdrop].
    destruct (q c) eqn:Hq.
    + now rewrite (q_in_p c Hq).
    + reflexivity.
  - cbn [PyStr.rdrop]. rewrite <- IH. reflexivity.
Qed.

(** Dropping [q] at both ends first changes nothing for the larger [p]. *)
Lemma drop_both_absorbs s :
  PyStr.rdrop p (PyStr.ldrop p (PyStr.rdrop q (PyStr.ldrop q s)))
  = PyStr.rdrop p (PyStr.ldrop p s).
Proof. now rewrite ldrop_rdrop, rdrop_rdrop, ldrop_ldrop. Qed.

End Drop.

Lemma lower_char_space c : PyStr.is_space (PyStr.lower_char c) = PyStr.is_space c.
Proof.
  destruct c as [[] [] [] [] [] [] [] []]; reflexivity.
Qed.

Lemma lower_char_blank c : Sql.is_blank (PyStr.lower_char c) = Sql.is_blank c.
Proof.
  destruct c as [[] [] [] [] [] [] [] []]; reflexivity.
Qed.

Lemma blank_is_space c : Sql.is_blank c = true -> PyStr.is_space c = true.
Proof.
  destruct c as [[] [] [] [] [] [] [] []]; try discriminate; reflexivity.
Qed.

Section Lower.
Variable p : ascii -> bool.
Hypothesis p_lower : forall c, p (PyStr.lower_char c) = p c.

Lemma lower_ldrop s : PyStr.lower (PyStr.ldrop p s) = PyStr.ldrop p (PyStr.lower s).
Proof.
  induction s as [| c s IH]; [reflexivity |].
  cbn [PyStr.ldrop PyStr.lower]. rewrite p_lower. now destruct (p c).
Qed.

Lemma lower_rdrop s : PyStr.lower (PyStr.rdrop p s) = PyStr.rdrop p (PyStr.lower s).
Proof.
  induction s as [| c s IH]; [reflexivity |].
  cbn [PyStr.rdrop PyStr.lower]. rewrite <- IH, p_lower.
  destruct (PyStr.rdrop p s); [now destruct (p c) | reflexivity].
Qed.

End Lower.

Lemma lower_strip s : PyStr.lower (PyStr.strip s) = PyStr.strip (PyStr.lower s).
Proof.
  unfold PyStr.strip.
  now rewrite (lower_rdrop _ lower_char_space), (lower_ldrop _ lower_char_space).
Qed.

Lemma lower_trim s : Sql.lower (Sql.trim s) = Sql.trim (PyStr.lower s).
Proof.
  unfold Sql.lower, Sql.trim.
  now rewrite (lower_rdrop _ lower_char_blank), (lower_ldrop _ lower_char_blank).
Qed.

Lemma strip_trim s : PyStr.strip (Sql.trim s) = PyStr.strip s.
Proof. apply drop_both_absorbs, blank_is_space. Qed.

Lemma strip_strip s : PyStr.strip (PyStr.strip s) = PyStr.strip s.
Proof. apply drop_both_absorbs. auto. Qed.

(** A stored name that passes the SQL filter has the request's stripped,
    lower-cased form, hence its normal form. *)
Lemma sql_filter_strip_lower name o :
  Sql.lower (Sql.trim name) = PyStr.lower (PyStr.strip o) ->
  PyStr.lower (PyStr.strip name) = PyStr.lower (PyStr.strip o).
Proof.
  intros H. rewrite lower_strip, <- strip_trim, <- lower_trim, H.
  now rewrite <- lower_strip, strip_strip.
Qed.

Lemma sql_filter_norm name o :
  Sql.lower (Sql.trim name) = PyStr.lower (PyStr.strip o) ->
  _norm (Some name) = _norm (Some o).
Proof. intros H. unfold _norm. now rewrite (sql_filter_strip_lower _ _ H). Qed.

End Strings.

Module MachineCategory.
Import Strings.

(** C9: for every machine name, with the name lower-cased,
    [determine_machine_category] is cnc_5axis exactly when the name contains
    "cnc" or "precision" and also one of "5", "five", "5 axis", "5-axis";
    cnc_3axis exactly when it contains "cnc" or "precision" and none of
    those; spm exactly when it contains neither "cnc" nor "precision" but
    "spm" or "special"; conventional otherwise. "CNC Lathe - 5 Axis" is
    cnc_5axis, "Conventional Drill Press" conventional, "Special Purpose
    Mill" spm. *)
Theorem determine_machine_category_by_keywords :
  (forall machine_name,
      let name_lower := PyStr.lower machine_name in
      let cnc := occurs_in "cnc" name_lower \/ occurs_in "precision" name_lower in
      let five := occurs_in "5" name_lower \/ occurs_in "five" name_lower
                  \/ occurs_in "5 axis" name_lower \/ occurs_in "5-axis" name_lower in
      let special := occurs_in "spm" name_lower \/ occurs_in "special" name_lower in
      (determine_machine_category machine_name = cnc_5axis <-> cnc /\ five)
      /\ (determine_machine_category machine_name = cnc_3axis <-> cnc /\ ~ five)
      /\ (determine_machine_category machine_name = spm <-> ~ cnc /\ special)
      /\ (determine_machine_category machine_name = conventional <-> ~ cnc /\ ~ special))
  /\ determine_machine_category "CNC Lathe - 5 Axis" = cnc_5axis
  /\ determine_machine_category "Conventional Drill Press" = conventional
  /\ determine_machine_category "Special Purpose Mill" = spm.
Proof.
  split; [| repeat split].
  intros machine_name name_lower cnc five special.
  unfold determine_machine_category. fold name_lower.
  assert (Hcnc : PyStr.contains "cnc" name_lower || PyStr.contains "precision" name_lower = true <-> cnc).
  { unfold cnc. now rewrite orb_true_iff, !contains_spec. }
  assert (Hfive : PyStr.contains "5" name_lower || PyStr.contains "five" name_lower
                  || PyStr.contains "5 axis" name_lower || PyStr.contains "5-axis" name_lower = true
                  <-> five).
  { unfold five. rewrite !orb_true_iff, !contains_spec. tauto. }
  assert (Hspecial : PyStr.contains "spm" name_lower || PyStr.contains "special" name_lower = true
                     <-> special).
  { unfold special. now rewrite orb_true_iff, !contains_spec. }
  destruct (PyStr.contains "cnc" name_lower || PyStr.contains "precision" name_lower);
    [destruct (PyStr.contains "5" name_lower || PyStr.contains "five" name_lower
               || PyStr.contains "5 axis" name_lower || PyStr.contains "5-axis" name_lower)
    | destruct (PyStr.contains "spm" name_lower || PyStr.contains "special" name_lower)];
    intuition (try discriminate; try congruence).
Qed.

End MachineCategory.

Module Calculator.

(** C2 (as amended): for all A, B, C and every quantity q that converts to
    a float, [calculate_costs] returns D = A*(B+C), OH = C,
    Profit = 0.10*(D+OH), PF = 0.02*D, UnitCost = D+OH+Profit+PF,
    TotalCost = UnitCost*q, OutsourcingMHR = B+2*C, the monetary fields
    rounded to 2 decimal places and the man-hours to 4; for a quantity too
    large for a float the call raises OverflowError. For A = 0.5, B = 100,
    C = 100, q = 1 it returns D = 100.0, OH = 100.0, Profit = 20.0,
    PF = 2.0, UnitCost = 222.0, OutsourcingMHR = 300.0. *)
Theorem calculate_costs_formula :
  (forall A B C q fq,
      float_of_int q = Return fq ->
      let D := fmul A (fadd B C) in
      let OH := C in
      let Profit := fmul (dec 10 100) (fadd D OH) in
      let PF := fmul (dec 2 100) D in
      let UnitCost := fadd (fadd (fadd D OH) Profit) PF in
      let TotalCost := fmul UnitCost fq in
      let OutsourcingMHR := fadd B (fmul (of_int 2) C) in
      calculate_costs A B C q =
      Return {| man_hours_per_unit := round A 4;
                machine_hour_rate := round B 2;
                wage_rate := round C 2;
                basic_cost_per_unit := round D 2;
                overheads_per_unit := round OH 2;
                profit_per_unit := round Profit 2;
                packing_forwarding_per_unit := round PF 2;
                unit_cost := round UnitCost 2;
                total_cost := round TotalCost 2;
                outsourcing_mhr := round OutsourcingMHR 2 |})
  /\ (forall A B C q e,
      float_of_int q = Raise e -> calculate_costs A B C q = Raise OverflowError)
  /\ calculate_costs (dec 5 10) (of_int 100) (of_int 100) 1 =
     Return {| man_hours_per_unit := dec 5 10;
               machine_hour_rate := of_int 100;
               wage_rate := of_int 100;
               basic_cost_per_unit := of_int 100;
               overheads_per_unit := of_int 100;
               profit_per_unit := of_int 20;
               packing_forwarding_per_unit := of_int 2;
               unit_cost := of_int 222;
               total_cost := of_int 222;
               outsourcing_mhr := of_int 300 |}.
Proof.
  split; [| split].
  - intros A B C q fq Hq. cbv zeta. unfold calculate_costs. now rewrite Hq.
  - intros A B C q e Hq. unfold calculate_costs.
    unfold float_of_int in *. destruct (is_infinite (of_int q)); [reflexivity | discriminate].
  - vm_compute. reflexivity.
Qed.

Lemma calculate_costs_formula_witness :
  exists b, calculate_costs (dec 125 100) (dec 2505 10) (of_int 75) 3 = Return b
            /\ total_cost b = round (fmul (unit_cost_of (dec 125 100) (dec 2505 10) (of_int 75)) (of_int 3)) 2.
Proof.
  eexists. split.
  - apply (proj1 calculate_costs_formula (dec 125 100) (dec 2505 10) (of_int 75) 3 (of_int 3)).
    reflexivity.
  - reflexivity.
Defined.

Lemma calculate_costs_overflows :
  calculate_costs (dec 5 10) (of_int 100) (of_int 100) (10 ^ 400) = Raise OverflowError.
Proof. vm_compute. reflexivity. Qed.

(** C10: two breakdowns that [calculate_costs] returns for the same
    man-hours, machine hour rate and wage rate and any two quantities agree
    on every field except [total_cost]; the total cost is the unrounded unit
    cost times the quantity (as a float), rounded to 2 decimal places. *)
Theorem quantity_changes_total_cost_only A B C q1 q2 b1 b2 :
  calculate_costs A B C q1 = Return b1 ->
  calculate_costs A B C q2 = Return b2 ->
  (man_hours_per_unit b1 = man_hours_per_unit b2
   /\ machine_hour_rate b1 = machine_hour_rate b2
   /\ wage_rate b1 = wage_rate b2
   /\ basic_cost_per_unit b1 = basic_cost_per_unit b2
   /\ overheads_per_unit b1 = overheads_per_unit b2
   /\ profit_per_unit b1 = profit_per_unit b2
   /\ packing_forwarding_per_unit b1 = packing_forwarding_per_unit b2
   /\ unit_cost b1 = unit_cost b2
   /\ outsourcing_mhr b1 = outsourcing_mhr b2)
  /\ (exists f1, float_of_int q1 = Return f1
                 /\ total_cost b1 = round (fmul (unit_cost_of A B C) f1) 2)
  /\ (exists f2, float_of_int q2 = Return f2
                 /\ total_cost b2 = round (fmul (unit_cost_of A B C) f2) 2).
Proof.
  unfold calculate_costs. intros H1 H2.
  destruct (float_of_int q1) as [f1|] eqn:E1; [| discriminate].
  destruct (float_of_int q2) as [f2|] eqn:E2; [| discriminate].
  cbn [mbind result_bind] in H1, H2.
  injection H1 as <-. injection H2 as <-.
  cbn [man_hours_per_unit machine_hour_rate wage_rate basic_cost_per_unit
       overheads_per_unit profit_per_unit packing_forwarding_per_unit
       unit_cost total_cost outsourcing_mhr].
  repeat split; eexists; split; reflexivity.
Qed.

Lemma quantity_changes_total_cost_only_witness :
  exists b1 b2,
    calculate_costs (dec 5 10) (of_int 100) (of_int 100) 1 = Return b1
    /\ calculate_costs (dec 5 10) (of_int 100) (of_int 100) 3 = Return b2
    /\ unit_cost b1 = unit_cost b2
    /\ total_cost b1 = of_int 222
    /\ total_cost b2 = of_int 666.
Proof.
  destruct (calculate_costs (dec 5 10) (of_int 100) (of_int 100) 1) as [b1|] eqn:E1;
    [| vm_compute in E1; discriminate].
  destruct (calculate_costs (dec 5 10) (of_int 100) (of_int 100) 3) as [b2|] eqn:E2;
    [| vm_compute in E2; discriminate].
  exists b1, b2.
  destruct (quantity_changes_total_cost_only _ _ _ _ _ _ _ E1 E2)
    as ((_ & _ & _ & _ & _ & _ & _ & Hu & _) & _ & _).
  repeat split; try assumption.
  - vm_compute in E1. now inversion E1.
  - vm_compute in E2. now inversion E2.
Defined.

End Calculator.

Module Selection.
Import Strings.

Section FirstBest.
Context {A : Type} (score : A -> Z).

Lemma better_score_ge b o : score b <= score (better score b o).
Proof. destruct o as [y|]; simpl; [| lia]. destruct (Z.ltb_spec (score b) (score y)); lia. Qed.

Lemma first_best_in l r : first_best score l = Some r -> In r l.
Proof.
  revert r. induction l as [| x l IH]; intros r H; [discriminate |].
  simpl in H. injection H as <-.
  destruct (first_best score l) as [y|]; simpl; [| now left].
  destruct (score x <? score y); [right; now apply IH | now left].
Qed.

Lemma first_best_bound l r :
  first_best score l = Some r -> Forall (fun x => score x <= score r) l.
Proof.
  revert r. induction l as [| x l IH]; intros r H; [constructor |].
  simpl in H. injection H as <-.
  destruct (first_best score l) as [y|] eqn:E; simpl.
  - specialize (IH y eq_refl).
    destruct (Z.ltb_spec (score x) (score y)).
    + constructor; [lia | assumption].
    + constructor; [lia |]. eapply Forall_impl; [exact IH | simpl; intros; lia].
  - destruct l; [| discriminate]. constructor; [lia | constructor].
Qed.

Lemma first_best_none l : first_best score l = None <-> l = [].
Proof. destruct l; simpl; split; congruence. Qed.

Lemma first_best_spec l r : first_best score l = Some r <-> is_first_best score l r.
Proof.
  split.
  - revert r. induction l as [| x l IH]; intros r H; [discriminate |].
    simpl in H. injection H as <-.
    destruct (first_best score l) as [y|] eqn:E; simpl.
    + destruct (Z.ltb_spec (score x) (score y)).
      * destruct (IH y eq_refl) as (before & after & -> & Hb & Ha).
        exists (x :: before), after. repeat split; [| assumption].
        constructor; assumption.
      * exists [], l. repeat split; [constructor |].
        eapply Forall_impl; [exact (first_best_bound l y E) | simpl; intros; lia].
    + apply first_best_none in E. subst l. exists [], []. repeat split; constructor.
  - intros (before & after & -> & Hb & Ha).
    induction before as [| x before IH].
    + simpl. f_equal. destruct (first_best score after) as [y|] eqn:E; simpl; [| reflexivity].
      apply first_best_in in E. rewrite Forall_forall in Ha. specialize (Ha y).
      rewrite <- list_elem_of_In in E. specialize (Ha E).
      destruct (Z.ltb_spec (score r) (score y)); [lia | reflexivity].
    + apply Forall_cons in Hb as [Hx Hb]. simpl. rewrite (IH Hb). simpl.
      destruct (Z.ltb_spec (score x) (score r)); [reflexivity | lia].
Qed.

End FirstBest.

Lemma machine_score_range a b : 0 <= machine_score a b <= 2.
Proof.
  unfold machine_score. destruct (String.eqb a b); [lia |].
  match goal with |- context [if ?c then _ else _] => destruct c end; lia.
Qed.

Lemma truthy_spec s : PyStr.truthy s = true <-> s <> "".
Proof. destruct s; simpl; split; congruence. Qed.

Lemma machine_score_spec a b :
  (machine_score a b = 2 <-> a = b)
  /\ (machine_score a b = 1 <->
      a <> b /\ a <> "" /\ b <> "" /\ (occurs_in a b \/ occurs_in b a))
  /\ (machine_score a b = 0 <->
      a <> b /\ ~ (a <> "" /\ b <> "" /\ (occurs_in a b \/ occurs_in b a))).
Proof.
  unfold machine_score.
  destruct (String.eqb_spec a b) as [-> | Hne].
  - repeat split; intros; try lia; try tauto; try reflexivity.
  - assert (Hc : PyStr.truthy a && PyStr.truthy b
                 && (PyStr.contains a b || PyStr.contains b a) = true
                 <-> a <> "" /\ b <> "" /\ (occurs_in a b \/ occurs_in b a)).
    { rewrite !andb_true_iff, orb_true_iff, !truthy_spec, !contains_spec. tauto. }
    destruct (PyStr.truthy a && PyStr.truthy b && (PyStr.contains a b || PyStr.contains b a)).
    + assert (Hy : a <> "" /\ b <> "" /\ (occurs_in a b \/ occurs_in b a)) by now apply Hc.
      split; [| split]; split; intros; try lia; try tauto; try reflexivity.
    + assert (Hn : ~ (a <> "" /\ b <> "" /\ (occurs_in a b \/ occurs_in b a))).
      { intros Hx. apply Hc in Hx. discriminate. }
      split; [| split]; split; intros; try lia; try tauto; try reflexivity.
Qed.

Section Scan.
Variables op_norm duty_norm machine_norm : string.

Lemma score_of_range r : 0 <= score_of machine_norm r <= 2.
Proof. apply machine_score_range. Qed.

Lemma scan_filter l best bs :
  scan op_norm duty_norm machine_norm l best bs
  = scan op_norm duty_norm machine_norm
      (filter (same_operation_and_duty op_norm duty_norm) l) best bs.
Proof.
  revert best bs. induction l as [| r l IH]; intros best bs; [reflexivity |].
  destruct (same_operation_and_duty op_norm duty_norm r) eqn:E.
  - rewrite filter_cons_True by (now apply Is_true_true).
    cbn [scan]. rewrite E. cbn [negb].
    destruct (bs <? score_of machine_norm r);
      match goal with |- context [if ?c then _ else _] => destruct c end;
      try reflexivity; apply IH.
  - rewrite filter_cons_False by (now apply Is_true_false).
    cbn [scan]. rewrite E. cbn [negb]. apply IH.
Qed.

(** The break: a matching row with a perfect score ends the loop. *)
Lemma scan_break r rest best bs :
  same_operation_and_duty op_norm duty_norm r = true ->
  score_of machine_norm r = 2 -> bs < 2 ->
  scan op_norm duty_norm machine_norm (r :: rest) best bs = Some r.
Proof.
  intros E Hs Hbs. cbn [scan]. rewrite E, Hs. cbn [negb].
  destruct (Z.ltb_spec bs 2); [reflexivity | lia].
Qed.

Lemma scan_from_best l b :
  Forall (fun r => same_operation_and_duty op_norm duty_norm r = true) l ->
  score_of machine_norm b < 2 ->
  scan op_norm duty_norm machine_norm l (Some b) (score_of machine_norm b)
  = Some (better (score_of machine_norm) b (first_best (score_of machine_norm) l)).
Proof.
  intros Hl. revert b. induction Hl as [| r l Hr Hl IH]; intros b Hb; [reflexivity |].
  cbn [scan first_best]. rewrite Hr. cbn [negb].
  pose proof (score_of_range r) as Hrange.
  pose proof (better_score_ge (score_of machine_norm) r
                (first_best (score_of machine_norm) l)) as Hge.
  destruct (Z.ltb_spec (score_of machine_norm b) (score_of machine_norm r)) as [Hlt | Hle].
  - destruct (Z.eqb_spec (score_of machine_norm r) 2) as [H2 | Hn2].
    + f_equal. unfold better at 1.
      assert (Hbest : better (score_of machine_norm) r (first_best (score_of machine_norm) l) = r).
      { unfold better. destruct (first_best (score_of machine_norm) l) as [y|]; [| reflexivity].
        pose proof (score_of_range y).
        destruct (Z.ltb_spec (score_of machine_norm r) (score_of machine_norm y)); [lia | reflexivity]. }
      rewrite Hbest.
      destruct (Z.ltb_spec (score_of machine_norm b) (score_of machine_norm r)); [reflexivity | lia].
    + rewrite IH by lia. f_equal. unfold better at 2.
      destruct (Z.ltb_spec (score_of machine_norm b)
                  (score_of machine_norm (better (score_of machine_norm) r
                     (first_best (score_of machine_norm) l)))); [reflexivity | lia].
  - destruct (Z.eqb_spec (score_of machine_norm b) 2) as [H2 | Hn2]; [lia |].
    rewrite IH by assumption. f_equal.
    destruct (first_best (score_of machine_norm) l) as [y|] eqn:Ey; cbn [better].
    + destruct (Z.ltb_spec (score_of machine_norm r) (score_of machine_norm y)) as [Hry | Hry].
      * reflexivity.
      * destruct (Z.ltb_spec (score_of machine_norm b) (score_of machine_norm y));
          destruct (Z.ltb_spec (score_of machine_norm b) (score_of machine_norm r));
          try reflexivity; lia.
    + destruct (Z.ltb_spec (score_of machine_norm b) (score_of machine_norm r));
        [lia | reflexivity].
Qed.

Lemma scan_first_best l :
  Forall (fun r => same_operation_and_duty op_norm duty_norm r = true) l ->
  scan op_norm duty_norm machine_norm l None (-1) = first_best (score_of machine_norm) l.
Proof.
  intros Hl. destruct Hl as [| r l Hr Hl]; [reflexivity |].
  cbn [scan first_best]. rewrite Hr. cbn [negb].
  pose proof (score_of_range r) as Hrange.
  destruct (Z.ltb_spec (-1) (score_of machine_norm r)) as [_ | Hle]; [| lia].
  destruct (Z.eqb_spec (score_of machine_norm r) 2) as [H2 | Hn2].
  - f_equal. unfold better. destruct (first_best (score_of machine_norm) l) as [y|]; [| reflexivity].
    pose proof (score_of_range y).
    destruct (Z.ltb_spec (score_of machine_norm r) (score_of machine_norm y)); [lia | reflexivity].
  - apply scan_from_best; [assumption | lia].
Qed.

Lemma filter_all_match l :
  Forall (fun r => same_operation_and_duty op_norm duty_norm r = true)
         (filter (same_operation_and_duty op_norm duty_norm) l).
Proof.
  apply Forall_forall. intros r Hr. apply list_elem_of_filter in Hr as [Hr _].
  now apply Is_true_true.
Qed.

(** The loop returns the first of the best matching rows. *)
Lemma scan_spec l :
  scan op_norm duty_norm machine_norm l None (-1)
  = first_best (score_of machine_norm)
      (filter (same_operation_and_duty op_norm duty_norm) l).
Proof. rewrite scan_filter. apply scan_first_best, filter_all_match. Qed.

End Scan.
End Selection.

Module Resolver.
Import Strings Selection.

Section Tiers.
Variable float_of_str : string -> option float.

Lemma run_ok {A : Type} db q (rows : A) : fails db q = false -> run db q rows = Return rows.
Proof. unfold run. now intros ->. Qed.

Lemma run_fails {A : Type} db q (rows : A) :
  fails db q = true -> run db q rows = Raise OperationalError.
Proof. unfold run. now intros ->. Qed.

Lemma mhr_matches_spec o d m r : mhr_matches o d m r = true <-> has_triple o d m r.
Proof.
  unfold mhr_matches, has_triple.
  rewrite !andb_true_iff, !bool_decide_eq_true. tauto.
Qed.

Lemma find_first {A : Type} (f : A -> bool) (before after : list A) (r : A) :
  Forall (fun x => f x = false) before -> f r = true ->
  find f (before ++ r :: after) = Some r.
Proof.
  intros Hb Hr. induction Hb as [| x before Hx Hb IH]; simpl.
  - now rewrite Hr.
  - now rewrite Hx.
Qed.

End Tiers.

(** C4 (as amended): the fuzzy tier scores a stored machine name against
    the requested one, both normalized, 2 when they are equal, 1 when both
    are non-empty and one contains the other, 0 otherwise. The loop returns
    the first of the highest-scoring rows among those whose normalized
    operation and duty match, and none when there is no such row; a matching
    row with score 2 ends the loop at once. With one MHR row for (turning,
    medium, "CNC Lathe"), a request for "CNC Lathe - 3 Axis" that the
    deterministic tier does not resolve scores 1 and returns that row's
    rate. *)
Theorem fuzzy_selects_first_best :
  (forall a b,
      (machine_score a b = 2 <-> a = b)
      /\ (machine_score a b = 1 <->
          a <> b /\ a <> "" /\ b <> "" /\ (occurs_in a b \/ occurs_in b a))
      /\ (machine_score a b = 0 <->
          a <> b /\ ~ (a <> "" /\ b <> "" /\ (occurs_in a b \/ occurs_in b a))))
  /\ (forall op_norm duty_norm machine_norm candidates,
      let matching := filter (same_operation_and_duty op_norm duty_norm) candidates in
      let best := scan op_norm duty_norm machine_norm candidates None (-1) in
      (forall r, best = Some r <-> is_first_best (score_of machine_norm) matching r)
      /\ (best = None <-> matching = []))
  /\ (forall op_norm duty_norm machine_norm r rest best best_score,
      same_operation_and_duty op_norm duty_norm r = true ->
      score_of machine_norm r = 2 -> best_score < 2 ->
      scan op_norm duty_norm machine_norm (r :: rest) best best_score = Some r)
  /\ (forall float_of_str rate v machine_id op_type_id duty_id,
      let db := small_db "turning" "medium" "CNC Lathe"
                  [mhr_row 1 1 1 1 (Some rate)] no_failure in
      float_of_str rate = Some v ->
      except_pass (deterministic_lookup float_of_str (Some "turning") (Some "medium") db
                     machine_id op_type_id duty_id) = None ->
      machine_score (_norm (Some "CNC Lathe")) (_norm (Some "CNC Lathe - 3 Axis")) = 1
      /\ get_machine_hour_rate float_of_str
           (Some "turning") (Some "medium") (Some "CNC Lathe - 3 Axis") db
           machine_id op_type_id duty_id
         = Return v).
Proof.
  split; [| split; [| split]].
  - apply machine_score_spec.
  - intros op_norm duty_norm machine_norm candidates matching best.
    subst best. rewrite scan_spec. fold matching. split.
    + intros r. apply first_best_spec.
    + apply first_best_none.
  - intros. now apply scan_break.
  - intros float_of_str rate v machine_id op_type_id duty_id db Hv Htier1.
    split; [reflexivity |].
    unfold get_machine_hour_rate. rewrite Htier1.
    vm_compute. rewrite Hv. reflexivity.
Qed.

Lemma fuzzy_selects_first_best_witness :
  get_machine_hour_rate Numeral.float_of_decimal
    (Some "turning") (Some "medium") (Some "CNC Lathe - 3 Axis")
    (small_db "turning" "medium" "CNC Lathe" [mhr_row 1 1 1 1 (Some "250.5")] no_failure)
    (Some 2) (Some 1) None
  = Return (dec 2505 10).
Proof.
  apply (proj2 (proj2 (proj2 fuzzy_selects_first_best))
           Numeral.float_of_decimal "250.5" (dec 2505 10) (Some 2) (Some 1) None);
    reflexivity.
Defined.

Lemma blank_name_is_not_a_substring_match :
  machine_score (_norm (Some "-")) (_norm (Some "Lathe")) = 0
  /\ spec_machine_score (_norm (Some "-")) (_norm (Some "Lathe")) = 1
  /\ spec_machine_score (_norm (Some "Drill")) (_norm (Some "Lathe")) = 0
  /\ get_machine_hour_rate Numeral.float_of_decimal
       (Some "turning") (Some "medium") (Some "Lathe") blank_name_db None None None
     = Return (of_int 100).
Proof. repeat split. Qed.

Section Candidates.
Variable float_of_str : string -> option float.

Lemma strip_lower_some o : strip_lower (Some o) = Return (PyStr.lower (PyStr.strip o)).
Proof. reflexivity. Qed.

Lemma fuzzy_lookup_first_best o duty machine_name db :
  fails db QMhrJoinAll = false ->
  fuzzy_lookup float_of_str (Some o) duty machine_name db
  = Return (b ← first_best (score_of (_norm machine_name))
                   (scored_rows db (Some o) duty (PyStr.lower (PyStr.strip o)));
            s ← MHR.machine_hr_rate (MHR.row b);
            float_of_str s).
Proof.
  intros Hf. unfold fuzzy_lookup, query_mhr_join_all. rewrite strip_lower_some. cbn [mbind result_bind].
  rewrite run_ok by assumption. cbn [mbind result_bind].
  rewrite scan_spec. fold (scored_rows db (Some o) duty (PyStr.lower (PyStr.strip o))).
  destruct (first_best _ _) as [b|]; [| reflexivity]. cbn [mbind option_bind].
  destruct (MHR.machine_hr_rate (MHR.row b)) as [s|]; [| reflexivity]. cbn [mbind option_bind].
  unfold to_float. now destruct (float_of_str s).
Qed.

(** The test on the normalized operation name never rejects a candidate of
    the query: the SQL filter is the stricter one. *)
Lemma scored_rows_spec db o duty j :
  j ∈ scored_rows db (Some o) duty (PyStr.lower (PyStr.strip o)) <->
  (exists r, r ∈ mhr db /\ join_row db r = Some j)
  /\ Sql.lower (Sql.trim (OperationType.operation_name (MHR.operation_type j)))
     = PyStr.lower (PyStr.strip o)
  /\ _norm (Some (Duty.name (MHR.duty j))) = _norm duty.
Proof.
  unfold scored_rows. rewrite !list_elem_of_filter, list_elem_of_omap.
  unfold same_operation_and_duty, sql_operation_filter.
  rewrite !Is_true_true, andb_true_iff, !String.eqb_eq.
  split; [tauto |]. intros (Hj & Hsql & Hduty).
  repeat split; try assumption. now apply sql_filter_norm.
Qed.

(** C5 (as amended): when the join query succeeds, a joined MHR row is
    scored exactly when its operation name, trimmed and lower-cased as the
    SQL filter does, equals the request's operation stripped and
    lower-cased, and its normalized duty name equals the normalized request
    duty (such a row's normalized operation name equals the request's as
    well). The rate of the first best scored row is what the tier returns;
    without a scored row it returns nothing. *)
Theorem fuzzy_candidates_pass_the_sql_filter o operation duty machine_name db :
  operation = Some o ->
  fails db QMhrJoinAll = false ->
  let key := PyStr.lower (PyStr.strip o) in
  let scored := scored_rows db operation duty key in
  (forall j,
      j ∈ scored <->
      (exists r, r ∈ mhr db /\ join_row db r = Some j)
      /\ Sql.lower (Sql.trim (OperationType.operation_name (MHR.operation_type j))) = key
      /\ _norm (Some (Duty.name (MHR.duty j))) = _norm duty)
  /\ (forall j s v,
      is_first_best (score_of (_norm machine_name)) scored j ->
      MHR.machine_hr_rate (MHR.row j) = Some s ->
      float_of_str s = Some v ->
      fuzzy_lookup float_of_str operation duty machine_name db = Return (Some v))
  /\ (scored = [] ->
      fuzzy_lookup float_of_str operation duty machine_name db = Return None).
Proof.
  intros -> Hf key scored. split; [| split].
  - intros j. apply scored_rows_spec.
  - intros j s v Hbest Hs Hv. rewrite fuzzy_lookup_first_best by assumption.
    apply first_best_spec in Hbest. fold key. fold scored. rewrite Hbest.
    cbn [mbind option_bind]. rewrite Hs. cbn [mbind option_bind]. now rewrite Hv.
  - intros Hnil. rewrite fuzzy_lookup_first_best by assumption.
    fold key. fold scored. now rewrite Hnil.
Qed.

(** C6 (as amended): when the operation type id, the duty id and the
    machine id all resolve, the MHR query succeeds and [r] is the first row
    of the triple (later duplicates are not looked at), the call returns
    [r]'s rate when [r] has one that converts to a float; otherwise the
    deterministic tier returns nothing and the outcome is the fuzzy tier's. *)
Theorem deterministic_takes_first_match
    operation duty machine_name db machine_id op_type_id duty_id
    o d m before r after :
  resolve_operation_id operation db op_type_id = Return (Some o) ->
  resolve_duty duty db duty_id = Some d ->
  machine_id = Some m ->
  fails db QMhrFirst = false ->
  mhr db = (before ++ r :: after)%list ->
  Forall (fun x => ~ has_triple o d m x) before ->
  has_triple o d m r ->
  get_machine_hour_rate float_of_str operation duty machine_name db
    machine_id op_type_id duty_id
  = match s ← MHR.machine_hr_rate r; float_of_str s with
    | Some v => Return v
    | None => fuzzy_outcome float_of_str operation duty machine_name db
    end.
Proof.
  intros Ho Hd -> Hf Hrows Hbefore Hr.
  unfold get_machine_hour_rate, deterministic_lookup, fuzzy_outcome.
  rewrite Ho. cbn [mbind result_bind]. rewrite Hd.
  unfold query_mhr_first. rewrite run_ok by assumption. cbn [mbind result_bind].
  rewrite Hrows, (find_first (mhr_matches o d m) before after r).
  - unfold rate_of. destruct (MHR.machine_hr_rate r) as [s|]; [| reflexivity].
    cbn [mbind option_bind]. unfold to_float.
    destruct (float_of_str s); reflexivity.
  - eapply Forall_impl; [exact Hbefore |]. intros x Hx. cbv beta in Hx.
    rewrite <- mhr_matches_spec in Hx. now destruct (mhr_matches o d m x).
  - now apply mhr_matches_spec.
Qed.

End Candidates.

Lemma fuzzy_candidates_pass_the_sql_filter_witness :
  fuzzy_lookup Numeral.float_of_decimal (Some "heat_treatment") (Some "heavy") (Some "Furnace")
    (small_db " HEAT_TREATMENT" "Heavy duty" "Furnace" [mhr_row 1 1 1 1 (Some "500")] no_failure)
  = Return (Some (of_int 500)).
Proof.
  pose (db := small_db " HEAT_TREATMENT" "Heavy duty" "Furnace"
                [mhr_row 1 1 1 1 (Some "500")] no_failure).
  pose (j := {| MHR.row := mhr_row 1 1 1 1 (Some "500");
                MHR.operation_type := {| OperationType.id := 1;
                                         OperationType.operation_name := " HEAT_TREATMENT" |};
                MHR.duty := {| Duty.id := 1; Duty.name := "Heavy duty" |};
                MHR.machine := {| Machine.id := 1; Machine.name := "Furnace";
                                  Machine.op_id := Some 1 |} |}).
  apply (proj1 (proj2 (fuzzy_candidates_pass_the_sql_filter Numeral.float_of_decimal
                         "heat_treatment" (Some "heat_treatment") (Some "heavy")
                         (Some "Furnace") db eq_refl eq_refl)) j "500" (of_int 500)).
  - exists [], []. repeat split; constructor.
  - reflexivity.
  - reflexivity.
Defined.

Lemma underscore_request_misses_spaced_name :
  _norm (Some "Heat Treatment") = _norm (Some "heat_treatment")
  /\ _norm (Some "heavy") = _norm (Some "heavy")
  /\ get_machine_hour_rate Numeral.float_of_decimal
       (Some "heat_treatment") (Some "heavy") (Some "Furnace")
       (small_db "Heat Treatment" "heavy" "Furnace" [mhr_row 1 1 1 1 (Some "500")] no_failure)
       None None None
     = Raise not_configured.
Proof. repeat split. Qed.

Lemma deterministic_takes_first_match_witness :
  get_machine_hour_rate Numeral.float_of_decimal
    (Some "turning") (Some "medium") (Some "CNC Lathe")
    (small_db "turning" "medium" "CNC Lathe"
       [mhr_row 1 2 1 1 (Some "90"); mhr_row 2 1 1 1 (Some "250.5"); mhr_row 3 1 1 1 (Some "300")]
       no_failure)
    (Some 1) (Some 1) None
  = Return (dec 2505 10).
Proof.
  apply (deterministic_takes_first_match Numeral.float_of_decimal
           (Some "turning") (Some "medium") (Some "CNC Lathe")
           (small_db "turning" "medium" "CNC Lathe"
              [mhr_row 1 2 1 1 (Some "90"); mhr_row 2 1 1 1 (Some "250.5");
               mhr_row 3 1 1 1 (Some "300")] no_failure)
           (Some 1) (Some 1) None 1 1 1
           [mhr_row 1 2 1 1 (Some "90")] (mhr_row 2 1 1 1 (Some "250.5"))
           [mhr_row 3 1 1 1 (Some "300")]); try reflexivity.
  - repeat constructor. intros (H & _). discriminate.
  - repeat split.
Defined.

Lemma first_match_without_rate_is_not_returned :
  has_triple 1 1 1 (mhr_row 1 1 1 1 None)
  /\ get_machine_hour_rate Numeral.float_of_decimal
       (Some "turning") (Some "medium") (Some "CNC Lathe")
       (small_db "turning" "medium" "CNC Lathe"
          [mhr_row 1 1 1 1 None; mhr_row 2 1 1 1 (Some "300")] no_failure)
       (Some 1) (Some 1) (Some 1)
     = Raise not_configured.
Proof. repeat split. Qed.

Section Matches.
Variable float_of_str : string -> option float.

Lemma find_first_such {A : Type} (f : A -> bool) (P : A -> Prop) (l : list A) (x : A) :
  (forall y, f y = true <-> P y) ->
  find f l = Some x <-> first_such P l x.
Proof.
  intros Hf. split.
  - induction l as [| a l IH]; [discriminate |]. cbn [find].
    destruct (f a) eqn:E.
    + intros [= <-]. exists [], l. split; [reflexivity |]. split; [constructor | now apply Hf].
    + intros H. destruct (IH H) as (before & after & -> & Hb & Hx).
      exists (a :: before), after. split; [reflexivity |]. split; [| exact Hx].
      constructor; [| exact Hb]. intros Ha. apply Hf in Ha. congruence.
  - intros (before & after & -> & Hb & Hx). apply find_first; [| now apply Hf].
    eapply Forall_impl; [exact Hb |]. intros y Hy. cbv beta in Hy.
    destruct (f y) eqn:E; [| reflexivity]. exfalso. now apply Hy, Hf.
Qed.

Lemma first_such_in {A : Type} (P : A -> Prop) (l : list A) (x : A) :
  first_such P l x -> x ∈ l /\ P x.
Proof.
  intros (before & after & -> & _ & Hx). split; [| exact Hx].
  apply elem_of_app. right. apply elem_of_cons. now left.
Qed.

Lemma resolve_operation_id_spec operation db op_type_id o :
  resolve_operation_id operation db op_type_id = Return (Some o)
  <-> operation_id_is db operation op_type_id o.
Proof.
  unfold resolve_operation_id, operation_id_is.
  destruct op_type_id as [i|].
  - split; [intros [= ->]; now left | intros [[= ->] | [? _]]; [reflexivity | discriminate]].
  - destruct operation as [name|]; cbn [PyStr.or_empty].
    2: { split; [discriminate | intros [? | (_ & _ & n & ot & ? & _)]; discriminate]. }
    destruct name as [| c name]; cbn [PyStr.truthy].
    { split; [discriminate |].
      intros [? | (_ & _ & n & ot & [= <-] & Hn & _)]; [discriminate | now contradiction Hn]. }
    rewrite strip_lower_some. cbn [mbind result_bind].
    unfold query_operation_type_first, run.
    destruct (fails db QOperationTypeFirst).
    { split; [discriminate | intros [? | (_ & ? & _)]; discriminate]. }
    cbn [mbind result_bind].
    split.
    + destruct (find _ _) as [ot|] eqn:E; [| discriminate]. intros [= <-].
      right. split; [reflexivity |]. split; [reflexivity |].
      exists (String c name), ot. split; [reflexivity |]. split; [discriminate |].
      split; [| reflexivity].
      apply (find_first_such _ _ _ _ (fun y => String.eqb_eq _ _)) in E. exact E.
    + intros [? | (_ & _ & n & ot & [= <-] & _ & Hfirst & <-)]; [discriminate |].
      apply (find_first_such _ _ _ _ (fun y => String.eqb_eq _ _)) in Hfirst.
      now rewrite Hfirst.
Qed.

Lemma resolve_duty_spec duty db duty_id d :
  resolve_duty duty db duty_id = Some d <-> duty_id_is db duty duty_id d.
Proof.
  unfold resolve_duty, duty_id_is, _resolve_duty_id, query_duty_all, run.
  destruct duty_id as [i|].
  - split; [intros [= ->]; now left | intros [[= ->] | [? _]]; [reflexivity | discriminate]].
  - destruct (_norm duty) as [| c n] eqn:En; cbn [PyStr.truthy negb].
    { split; [discriminate | intros [? | (_ & _ & Hn & _)]; [discriminate | now contradiction Hn]]. }
    destruct (fails db QDutyAll).
    { split; [discriminate | intros [? | (_ & ? & _)]; discriminate]. }
    split.
    + destruct (find _ _) as [du|] eqn:E; [| discriminate]. intros [= <-].
      right. split; [reflexivity |]. split; [reflexivity |]. split; [discriminate |].
      exists du. split; [| reflexivity].
      apply (find_first_such _ _ _ _ (fun y => String.eqb_eq _ _)) in E. exact E.
    + intros [? | (_ & _ & _ & du & Hfirst & <-)]; [discriminate |].
      apply (find_first_such _ _ _ _ (fun y => String.eqb_eq _ _)) in Hfirst.
      now rewrite Hfirst.
Qed.

Lemma rate_of_spec rec v :
  except_pass (rate_of float_of_str rec) = Some v
  <-> exists r, rec = Some r /\ holds_rate float_of_str r v.
Proof.
  unfold rate_of, holds_rate, to_float. destruct rec as [r|].
  - destruct (MHR.machine_hr_rate r) as [s|] eqn:Es.
    + destruct (float_of_str s) as [w|] eqn:E; cbn [mbind result_bind except_pass].
      * split.
        -- intros [= <-]. exists r. split; [reflexivity |]. exists s. now split.
        -- intros (r' & [= <-] & s' & Hs' & Hs). congruence.
      * split; [discriminate |]. intros (r' & [= <-] & s' & Hs' & Hs). congruence.
    + split; [discriminate |]. intros (r' & [= <-] & s' & Hs & _). congruence.
  - split; [discriminate |]. intros (r' & Hr & _). discriminate.
Qed.

(** The deterministic tier returns a rate exactly when it resolves one on
    the tables. *)
Lemma deterministic_lookup_match operation duty db machine_id op_type_id duty_id v :
  except_pass (deterministic_lookup float_of_str operation duty db
                 machine_id op_type_id duty_id) = Some v
  <-> deterministic_match float_of_str db operation duty machine_id op_type_id duty_id v.
Proof.
  unfold deterministic_match. split.
  - unfold deterministic_lookup.
    destruct (resolve_operation_id operation db op_type_id) as [[o|]|] eqn:Eo;
      cbn [mbind result_bind]; try discriminate.
    destruct (resolve_duty duty db duty_id) as [d|] eqn:Ed; [| discriminate].
    destruct machine_id as [m|]; [| discriminate].
    unfold query_mhr_first, run.
    destruct (fails db QMhrFirst) eqn:Ef; [discriminate |]. cbn [mbind result_bind].
    intros H. apply rate_of_spec in H as (r & Hr & Hv).
    exists o, d, m, r.
    split; [now apply resolve_operation_id_spec |].
    split; [now apply resolve_duty_spec |].
    split; [reflexivity |]. split; [reflexivity |]. split; [| exact Hv].
    now apply (find_first_such _ _ _ _ (mhr_matches_spec o d m)) in Hr.
  - intros (o & d & m & r & Ho & Hd & -> & Hf & Hr & Hv).
    apply resolve_operation_id_spec in Ho. apply resolve_duty_spec in Hd.
    apply (find_first_such _ _ _ _ (mhr_matches_spec o d m)) in Hr.
    unfold deterministic_lookup. rewrite Ho. cbn [mbind result_bind]. rewrite Hd.
    unfold query_mhr_first, run. rewrite Hf. cbn [mbind result_bind].
    apply rate_of_spec. now exists r.
Qed.

(** So does the fuzzy tier. *)
Lemma fuzzy_lookup_match operation duty machine_name db v :
  except_pass (fuzzy_lookup float_of_str operation duty machine_name db) = Some v
  <-> fuzzy_match float_of_str db operation duty machine_name v.
Proof.
  unfold fuzzy_match, holds_rate. destruct operation as [name|].
  2: { split; [discriminate | intros (n & j & ? & _); discriminate]. }
  destruct (fails db QMhrJoinAll) eqn:Ef.
  { split; [| intros (n & j & _ & ? & _); discriminate].
    unfold fuzzy_lookup, query_mhr_join_all, run. rewrite strip_lower_some, Ef. discriminate. }
  rewrite (fuzzy_lookup_first_best float_of_str name duty machine_name db Ef).
  cbn [except_pass]. split.
  - destruct (first_best _ _) as [j|] eqn:E; [| discriminate]. cbn [mbind option_bind].
    destruct (MHR.machine_hr_rate (MHR.row j)) as [s|] eqn:Es; [| discriminate].
    cbn [mbind option_bind]. intros Hv.
    exists name, j. split; [reflexivity |]. split; [reflexivity |].
    split; [now apply first_best_spec |]. now exists s.
  - intros (n & j & [= <-] & _ & Hbest & s & Hs & Hv).
    apply first_best_spec in Hbest. rewrite Hbest. cbn [mbind option_bind].
    rewrite Hs. cbn [mbind option_bind]. exact Hv.
Qed.

Lemma tier_misses {A : Type} (o : option A) (P : A -> Prop) :
  (forall v, o = Some v <-> P v) -> (o = None <-> forall v, ~ P v).
Proof.
  intros H. split.
  - intros -> v Hv. apply H in Hv. discriminate.
  - intros Hn. destruct o as [v|]; [| reflexivity]. exfalso. apply (Hn v), H. reflexivity.
Qed.

(** C3: [get_machine_hour_rate] raises the not-configured error exactly
    when neither tier resolves a rate on the tables, and raises nothing
    else. The deterministic tier resolves [v] when the operation type id,
    the duty id and the machine id are known (passed, or found by name by a
    query that succeeds), the query on MHR succeeds and the first MHR row of
    the triple holds a rate that reads as [v]; the fuzzy tier resolves [v]
    when an operation is requested, the join query succeeds and the first of
    the best scored rows holds a rate that reads as [v]. The call returns
    [v] exactly when the deterministic tier resolves [v], or resolves
    nothing while the fuzzy tier resolves [v]: never a default. A failing
    query leaves its tier without a match: after a failure in the
    deterministic tier the outcome is the fuzzy tier's, after a failing join
    query it is the deterministic tier's, and when every query fails the
    call ends in the not-configured error. It ends so as well when no MHR
    row has the triple of ids and no joined MHR row matches the operation
    and duty by name, and when no MHR row holds a rate. *)
Theorem not_configured_iff_both_tiers_miss
    operation duty machine_name db machine_id op_type_id duty_id :
  let outcome :=
    get_machine_hour_rate float_of_str operation duty machine_name db
      machine_id op_type_id duty_id in
  let tier1 :=
    deterministic_match float_of_str db operation duty machine_id op_type_id duty_id in
  let tier2 := fuzzy_match float_of_str db operation duty machine_name in
  (outcome = Raise not_configured <-> (forall v, ~ tier1 v) /\ (forall v, ~ tier2 v))
  /\ (forall e, outcome = Raise e -> e = not_configured)
  /\ (forall v, outcome = Return v <-> tier1 v \/ ((forall v', ~ tier1 v') /\ tier2 v))
  /\ (fails db QMhrFirst = true
      \/ (op_type_id = None /\ fails db QOperationTypeFirst = true)
      \/ (duty_id = None /\ fails db QDutyAll = true) ->
      (forall v, outcome = Return v <-> tier2 v)
      /\ (outcome = Raise not_configured <-> forall v, ~ tier2 v))
  /\ (fails db QMhrJoinAll = true ->
      (forall v, outcome = Return v <-> tier1 v)
      /\ (outcome = Raise not_configured <-> forall v, ~ tier1 v))
  /\ ((forall q, fails db q = true) -> outcome = Raise not_configured)
  /\ ((forall o d m r,
          operation_id_is db operation op_type_id o -> duty_id_is db duty duty_id d ->
          machine_id = Some m -> r ∈ mhr db -> ~ has_triple o d m r) ->
      (forall r j, r ∈ mhr db -> join_row db r = Some j -> ~ matches_by_name operation duty j) ->
      outcome = Raise not_configured)
  /\ ((forall r, r ∈ mhr db -> MHR.machine_hr_rate r = None) ->
      outcome = Raise not_configured).
Proof.
  intros outcome tier1 tier2.
  pose proof (deterministic_lookup_match operation duty db machine_id op_type_id duty_id) as H1.
  pose proof (fuzzy_lookup_match operation duty machine_name db) as H2.
  fold tier1 in H1. fold tier2 in H2.
  pose proof (tier_misses _ _ H1) as N1. pose proof (tier_misses _ _ H2) as N2.
  assert (Hout : outcome
                 = match except_pass (deterministic_lookup float_of_str operation duty db
                                        machine_id op_type_id duty_id) with
                   | Some r => Return r
                   | None =>
                       match except_pass (fuzzy_lookup float_of_str operation duty
                                            machine_name db) with
                       | Some r => Return r
                       | None => Raise not_configured
                       end
                   end) by reflexivity.
  assert (Hraise : outcome = Raise not_configured
                   <-> (forall v, ~ tier1 v) /\ (forall v, ~ tier2 v)).
  { rewrite <- N1, <- N2, Hout.
    destruct (except_pass (deterministic_lookup _ _ _ _ _ _ _));
      [split; [discriminate | intros [? _]; discriminate] |].
    destruct (except_pass (fuzzy_lookup _ _ _ _ _));
      [split; [discriminate | intros [_ ?]; discriminate] |].
    split; [now split | reflexivity]. }
  assert (Hreturn : forall v, outcome = Return v
                              <-> tier1 v \/ ((forall v', ~ tier1 v') /\ tier2 v)).
  { intros v. rewrite <- N1, <- H1, <- H2, Hout.
    destruct (except_pass (deterministic_lookup _ _ _ _ _ _ _)) as [r1|].
    - split; [intros [= ->]; now left | intros [[= ->] | [? _]]; [reflexivity | discriminate]].
    - destruct (except_pass (fuzzy_lookup _ _ _ _ _)) as [r2|].
      + split; [intros [= ->]; now right | intros [? | [_ [= ->]]]; [discriminate | reflexivity]].
      + split; [discriminate | intros [? | [_ ?]]; discriminate]. }
  assert (Hno1 : fails db QMhrFirst = true
                 \/ (op_type_id = None /\ fails db QOperationTypeFirst = true)
                 \/ (duty_id = None /\ fails db QDutyAll = true) ->
                 forall v, ~ tier1 v).
  { intros Hf v (o & d & m & r & Ho & Hd & _ & Hq & _).
    destruct Hf as [Hf | [[Hn Hf] | [Hn Hf]]].
    - congruence.
    - destruct Ho as [Ho | (_ & Ho & _)]; congruence.
    - destruct Hd as [Hd | (_ & Hd & _)]; congruence. }
  assert (Hno2 : fails db QMhrJoinAll = true -> forall v, ~ tier2 v).
  { intros Hf v (n & j & _ & Hq & _). congruence. }
  split; [exact Hraise |]. split; [| split; [exact Hreturn |]].
  { intros e. rewrite Hout.
    destruct (except_pass (deterministic_lookup _ _ _ _ _ _ _)); [discriminate |].
    destruct (except_pass (fuzzy_lookup _ _ _ _ _)); [discriminate |]. congruence. }
  split; [| split; [| split; [| split]]].
  - intros Hf. specialize (Hno1 Hf). split.
    + intros v. rewrite Hreturn. split; [intros [H | [_ H]]; [now apply Hno1 in H | exact H] |].
      intros H. right. now split.
    + rewrite Hraise. split; [now intros [_ H] | now split].
  - intros Hf. specialize (Hno2 Hf). split.
    + intros v. rewrite Hreturn. split; [intros [H | [_ H]]; [exact H | now apply Hno2 in H] |].
      intros H. now left.
    + rewrite Hraise. split; [now intros [H _] | now split].
  - intros Hf. apply Hraise. split.
    + apply Hno1. left. apply Hf.
    + apply Hno2, Hf.
  - intros Hids Hnames. apply Hraise. split.
    + intros v (o & d & m & r & Ho & Hd & Hm & _ & Hr & _).
      apply first_such_in in Hr as [Hin Hr]. exact (Hids o d m r Ho Hd Hm Hin Hr).
    + intros v (n & j & Hop & _ & (before & after & Hl & _) & _). subst operation.
      assert (Hj : j ∈ scored_rows db (Some n) duty (PyStr.lower (PyStr.strip n))).
      { rewrite Hl. apply elem_of_app. right. apply elem_of_cons. now left. }
      apply (scored_rows_spec float_of_str) in Hj as ((r & Hin & Hjoin) & Hsql & Hduty).
      apply (Hnames r j Hin Hjoin). exists n. split; [reflexivity |]. split; assumption.
  - intros Hnone. apply Hraise. split.
    + intros v (o & d & m & r & _ & _ & _ & _ & Hr & s & Hs & _).
      apply first_such_in in Hr as [Hin _]. rewrite (Hnone r Hin) in Hs. discriminate.
    + intros v (n & j & Hop & _ & (before & after & Hl & _) & s & Hs & _). subst operation.
      assert (Hj : j ∈ scored_rows db (Some n) duty (PyStr.lower (PyStr.strip n))).
      { rewrite Hl. apply elem_of_app. right. apply elem_of_cons. now left. }
      apply (scored_rows_spec float_of_str) in Hj as ((r & Hin & Hjoin) & _).
      assert (MHR.row j = r) as Hrow.
      { unfold join_row in Hjoin.
        destruct (MHR.op_type_id r); [| discriminate]. cbn [mbind option_bind] in Hjoin.
        destruct (MHR.duty_id r); [| discriminate]. cbn [mbind option_bind] in Hjoin.
        destruct (MHR.machine_id r); [| discriminate]. cbn [mbind option_bind] in Hjoin.
        destruct (find _ (operation_types db)); [| discriminate]. cbn [mbind option_bind] in Hjoin.
        destruct (find _ (duties db)); [| discriminate]. cbn [mbind option_bind] in Hjoin.
        destruct (find _ (machines db)); [| discriminate]. cbn [mbind option_bind] in Hjoin.
        injection Hjoin as <-. reflexivity. }
      rewrite Hrow, (Hnone r Hin) in Hs. discriminate.
Qed.

End Matches.

Lemma not_configured_iff_both_tiers_miss_witness :
  get_machine_hour_rate Numeral.float_of_decimal (Some "turning") (Some "medium")
    (Some "CNC Lathe")
    (small_db "turning" "medium" "CNC Lathe" [mhr_row 1 1 1 1 (Some "250.5")] no_failure)
    (Some 1) (Some 1) (Some 1)
  = Return (dec 2505 10)
  /\ get_machine_hour_rate Numeral.float_of_decimal (Some "turning") (Some "medium")
       (Some "CNC Lathe")
       (small_db "turning" "medium" "CNC Lathe" [mhr_row 1 2 2 2 (Some "250.5")] no_failure)
       (Some 1) (Some 1) (Some 1)
     = Raise not_configured
  /\ get_machine_hour_rate Numeral.float_of_decimal (Some "turning") (Some "medium")
       (Some "CNC Lathe")
       (small_db "turning" "medium" "CNC Lathe" [mhr_row 1 1 1 1 (Some "250.5")] every_failure)
       (Some 1) (Some 1) (Some 1)
     = Raise not_configured.
Proof.
  split; [| split].
  - apply (proj1 (proj2 (proj2 (not_configured_iff_both_tiers_miss Numeral.float_of_decimal
             (Some "turning") (Some "medium") (Some "CNC Lathe")
             (small_db "turning" "medium" "CNC Lathe" [mhr_row 1 1 1 1 (Some "250.5")] no_failure)
             (Some 1) (Some 1) (Some 1))))).
    left. exists 1, 1, 1, (mhr_row 1 1 1 1 (Some "250.5")).
    split; [now left |]. split; [now left |]. split; [reflexivity |]. split; [reflexivity |].
    split.
    + exists [], []. split; [reflexivity |]. split; [constructor | repeat split].
    + exists "250.5". split; reflexivity.
  - apply (proj1 (proj2 (proj2 (proj2 (proj2 (proj2 (proj2
             (not_configured_iff_both_tiers_miss Numeral.float_of_decimal
                (Some "turning") (Some "medium") (Some "CNC Lathe")
                (small_db "turning" "medium" "CNC Lathe" [mhr_row 1 2 2 2 (Some "250.5")]
                   no_failure)
                (Some 1) (Some 1) (Some 1))))))))).
    + intros o d m r [[= <-] | [? _]] _ _ Hr; [| discriminate].
      apply elem_of_cons in Hr as [-> | Hr]; [| now apply elem_of_nil in Hr].
      intros (H & _). discriminate.
    + intros r j Hr. apply elem_of_cons in Hr as [-> | Hr]; [| now apply elem_of_nil in Hr].
      discriminate.
  - apply (proj1 (proj2 (proj2 (proj2 (proj2 (proj2
             (not_configured_iff_both_tiers_miss Numeral.float_of_decimal
                (Some "turning") (Some "medium") (Some "CNC Lathe")
                (small_db "turning" "medium" "CNC Lathe" [mhr_row 1 1 1 1 (Some "250.5")]
                   every_failure)
                (Some 1) (Some 1) (Some 1)))))))).
    reflexivity.
Defined.

End Resolver.

Module MachineSelection.
Import Strings.

#[local] Arguments of_int : simpl never.
#[local] Arguments dec : simpl never.
#[local] Arguments max3 : simpl never.

(** Splits on every comparison of a key of a dictionary literal with [k]. *)
Ltac split_keys k :=
  repeat match goal with
         | |- context [String.eqb ?a k] =>
             destruct (String.eqb_spec a k); [subst k |]
         end.

Lemma wage_rate_of_category machine_name :
  get_wage_rate machine_name
  = match determine_machine_category machine_name with
    | conventional => of_int 75
    | _ => of_int 100
    end.
Proof.
  unfold get_wage_rate. destruct (determine_machine_category machine_name);
    vm_compute; reflexivity.
Qed.

Lemma conventional_iff machine_name :
  determine_machine_category machine_name = conventional <-> ~ mentions_keyword machine_name.
Proof.
  unfold determine_machine_category, mentions_keyword. cbv zeta.
  set (n := PyStr.lower machine_name).
  assert (Hk : (PyStr.contains "cnc" n || PyStr.contains "precision" n)
               || (PyStr.contains "spm" n || PyStr.contains "special" n) = true
               <-> occurs_in "cnc" n \/ occurs_in "precision" n
                   \/ occurs_in "spm" n \/ occurs_in "special" n).
  { rewrite !orb_true_iff, !contains_spec. tauto. }
  rewrite <- Hk.
  destruct (PyStr.contains "cnc" n || PyStr.contains "precision" n); cbn [orb].
  - destruct (PyStr.contains "5" n || PyStr.contains "five" n
              || PyStr.contains "5 axis" n || PyStr.contains "5-axis" n);
      split; try discriminate; intros H; exfalso; now apply H.
  - destruct (PyStr.contains "spm" n || PyStr.contains "special" n);
      split; try discriminate; try reflexivity; intros H; try (exfalso; now apply H).
Qed.

(** X1: [get_wage_rate] has two values: 100 (20000 / 200) when the
    lower-cased machine name contains "cnc", "precision", "spm" or
    "special", and 75 (15000 / 200) otherwise; special purpose machines are
    paid the CNC wage. *)
Theorem wage_rate_by_keyword machine_name :
  (mentions_keyword machine_name -> get_wage_rate machine_name = of_int 100)
  /\ (~ mentions_keyword machine_name -> get_wage_rate machine_name = of_int 75)
  /\ of_int 75 <> of_int 100.
Proof.
  rewrite wage_rate_of_category. split; [| split].
  - intros H. destruct (determine_machine_category machine_name) eqn:E; try reflexivity.
    apply conventional_iff in E. contradiction.
  - intros H. apply conventional_iff in H. now rewrite H.
  - discriminate.
Qed.

Lemma wage_rate_by_keyword_witness :
  get_wage_rate "Special Purpose Mill" = of_int 100
  /\ get_wage_rate "Conventional Lathe" = of_int 75.
Proof.
  split.
  - apply (proj1 (wage_rate_by_keyword "Special Purpose Mill")).
    unfold mentions_keyword. cbv zeta. rewrite <- !contains_spec.
    right. right. right. reflexivity.
  - apply (proj1 (proj2 (wage_rate_by_keyword "Conventional Lathe"))).
    unfold mentions_keyword. cbv zeta. rewrite <- !contains_spec.
    intros [H | [H | [H | H]]]; discriminate.
Defined.

(** X2: with an explicit category, [select_machine] returns that
    category, and [determine_machine_category] reads it back from the
    selected name for every operation, with one exception: the 5-axis
    machines of drilling, grinding and boring have names without a "5" and
    are read back as [cnc_3axis]. *)
Theorem selected_name_tells_its_category operation duty material c :
  let selected := select_machine operation duty material (Some (category_value c)) in
  snd selected = category_value c
  /\ (c = cnc_5axis /\ unnumbered_5axis operation ->
      determine_machine_category (fst selected) = cnc_3axis)
  /\ (~ (c = cnc_5axis /\ unnumbered_5axis operation) ->
      determine_machine_category (fst selected) = c).
Proof.
  unfold unnumbered_5axis, select_machine.
  destruct c; cbn [category_value PyStr.or_empty PyStr.truthy fst snd];
    (split; [reflexivity |]);
    unfold machine_names; cbn [PyStr.dict_get];
    split_keys operation;
    (split; [intros [Hc Hop]; try discriminate Hc;
             try reflexivity;
             destruct Hop as [Hop | [Hop | Hop]]; try discriminate Hop; congruence
            | intros Hn; try reflexivity; exfalso; apply Hn; auto]).
Qed.

Lemma selected_name_tells_its_category_witness :
  determine_machine_category
    (fst (select_machine "grinding" "light" "steel" (Some "cnc_5axis"))) = cnc_3axis
  /\ determine_machine_category
       (fst (select_machine "milling" "light" "steel" (Some "cnc_5axis"))) = cnc_5axis.
Proof.
  split.
  - apply (proj1 (proj2 (selected_name_tells_its_category "grinding" "light" "steel" cnc_5axis))).
    split; [reflexivity |]. right. left. reflexivity.
  - apply (proj2 (proj2 (selected_name_tells_its_category "milling" "light" "steel" cnc_5axis))).
    intros [_ [H | [H | H]]]; discriminate.
Defined.

(** X3: when no category is given ([None] or the empty string),
    [select_machine] chooses cnc_5axis exactly for duty "heavy" or material
    "titanium", cnc_3axis exactly for duty "medium" with another material,
    and conventional in every other case; the wage rate of the selected
    name is 75 for conventional and 100 otherwise, whatever the operation. *)
Theorem auto_selection_and_wage operation duty material machine_category :
  machine_category = None \/ machine_category = Some "" ->
  let selected := select_machine operation duty material machine_category in
  (snd selected = "cnc_5axis" <-> duty = "heavy" \/ material = "titanium")
  /\ (snd selected = "cnc_3axis" <->
      duty = "medium" /\ material <> "titanium")
  /\ (snd selected = "conventional" <->
      duty <> "heavy" /\ duty <> "medium" /\ material <> "titanium")
  /\ get_wage_rate (fst selected)
     = (if String.eqb (snd selected) "conventional" then of_int 75 else of_int 100).
Proof.
  intros Hmc selected.
  assert (Hsel : selected
                 = (PyStr.dict_get (PyStr.dict_get machine_names operation [])
                      (auto_category duty material)
                      (PyStr.upper (auto_category duty material) ++ " Machine"),
                    auto_category duty material)).
  { subst selected. destruct Hmc as [-> | ->]; reflexivity. }
  rewrite Hsel. clear Hsel selected Hmc. cbn [fst snd].
  unfold auto_category.
  destruct (String.eqb_spec duty "heavy") as [Hh | Hh];
    destruct (String.eqb_spec material "titanium") as [Ht | Ht];
    destruct (String.eqb_spec duty "medium") as [Hm | Hm]; cbn [orb];
    try (exfalso; congruence);
    (split; [| split; [| split]]);
    try (split; intros; try discriminate; try tauto; intuition congruence);
    rewrite wage_rate_of_category;
    unfold machine_names; cbn [PyStr.dict_get];
    split_keys operation; reflexivity.
Qed.

Lemma auto_selection_and_wage_witness :
  snd (select_machine "boring" "heavy" "steel" (Some "")) = "cnc_5axis"
  /\ get_wage_rate (fst (select_machine "boring" "heavy" "steel" (Some ""))) = of_int 100.
Proof.
  destruct (auto_selection_and_wage "boring" "heavy" "steel" (Some "") (or_intror eq_refl))
    as (H5 & _ & _ & Hw).
  split.
  - apply H5. now left.
  - exact Hw.
Defined.

Lemma append_not_empty s c t : (s ++ String c t)%string <> "".
Proof. now destruct s. Qed.

(** X4: [select_machine] never returns an empty machine name or an
    empty category, whatever its arguments (an unknown operation or
    category gives the name built from the upper-cased category). *)
Theorem selected_machine_is_named operation duty material machine_category :
  fst (select_machine operation duty material machine_category) <> ""
  /\ snd (select_machine operation duty material machine_category) <> "".
Proof.
  unfold select_machine. cbn [fst snd].
  set (category := if PyStr.truthy (PyStr.or_empty machine_category)
                   then PyStr.or_empty machine_category
                   else auto_category duty material).
  split.
  - clearbody category. unfold machine_names. cbn [PyStr.dict_get].
    split_keys operation; cbn [PyStr.dict_get]; split_keys category;
      try discriminate; apply append_not_empty.
  - subst category. destruct (PyStr.or_empty machine_category) eqn:E; cbn [PyStr.truthy].
    + unfold auto_category.
      destruct (_ || _); [discriminate |]. destruct (String.eqb duty "medium"); discriminate.
    + discriminate.
Qed.

End MachineSelection.

Module ManHours.
Import FloatOrder MachineSelection.

#[local] Arguments of_int : simpl never.
#[local] Arguments dec : simpl never.
#[local] Arguments max3 : simpl never.

(** X5: [calculate_man_hours] never returns a zero: a zero override
    (0.0 or -0.0) is treated as no override and replaced by the value of
    the matrix, and every value of the matrix and its default are
    non-zero. *)
Theorem man_hours_are_never_zero operation duty override :
  float_truthy (calculate_man_hours operation duty override) = true
  /\ (forall x, override = Some x -> float_truthy x = false ->
      calculate_man_hours operation duty override = calculate_man_hours operation duty None).
Proof.
  assert (Hm : float_truthy (calculate_man_hours operation duty None) = true).
  { unfold calculate_man_hours, MAN_HOURS_MATRIX. cbn [PyStr.dict_get].
    split_keys operation; cbn [PyStr.dict_get]; split_keys duty; reflexivity. }
  split.
  - destruct override as [x|]; [| exact Hm].
    unfold calculate_man_hours in *. destruct (float_truthy x) eqn:E; [exact E | exact Hm].
  - intros x -> Hx. unfold calculate_man_hours. now rewrite Hx.
Qed.

Lemma man_hours_are_never_zero_witness :
  calculate_man_hours "turning" "heavy" (Some (of_int 0))
  = calculate_man_hours "turning" "heavy" None.
Proof.
  apply (proj2 (man_hours_are_never_zero "turning" "heavy" (Some (of_int 0))) (of_int 0));
    reflexivity.
Defined.

(** X6: without override, the man-hours lie between 0.15 and 2 for
    every operation and duty string, and for every operation they do not
    decrease from "light" to "medium" to "heavy". *)
Theorem matrix_hours_grow_with_duty operation :
  (forall duty,
      fleb (dec 15 100) (matrix_hours operation duty) = true
      /\ fleb (matrix_hours operation duty) (of_int 2) = true)
  /\ fleb (matrix_hours operation "light") (matrix_hours operation "medium") = true
  /\ fleb (matrix_hours operation "medium") (matrix_hours operation "heavy") = true.
Proof.
  unfold matrix_hours, calculate_man_hours, MAN_HOURS_MATRIX. cbn [PyStr.dict_get].
  split; [| split].
  - intros duty. split_keys operation; cbn [PyStr.dict_get]; split_keys duty;
      split; reflexivity.
  - split_keys operation; reflexivity.
  - split_keys operation; reflexivity.
Qed.

(** X7: two breakdowns of [calculate_costs] for the same machine hour
    rate, wage rate and quantity and any two man-hours agree on the machine
    hour rate, the wage rate, the overheads and the outsourcing rate; the
    overheads are the wage rate itself, not a multiple of the man-hours. *)
Theorem man_hours_leave_wage_fields_alone A1 A2 B C q b1 b2 :
  calculate_costs A1 B C q = Return b1 ->
  calculate_costs A2 B C q = Return b2 ->
  machine_hour_rate b1 = machine_hour_rate b2
  /\ wage_rate b1 = wage_rate b2
  /\ overheads_per_unit b1 = overheads_per_unit b2
  /\ outsourcing_mhr b1 = outsourcing_mhr b2
  /\ overheads_per_unit b1 = wage_rate b1.
Proof.
  unfold calculate_costs. intros H1 H2.
  destruct (float_of_int q) as [f|]; [| discriminate].
  cbn [mbind result_bind] in H1, H2.
  injection H1 as <-. injection H2 as <-.
  cbn [machine_hour_rate wage_rate overheads_per_unit outsourcing_mhr].
  repeat split.
Qed.

Lemma man_hours_leave_wage_fields_alone_witness :
  exists b1 b2,
    calculate_costs (dec 5 10) (of_int 100) (of_int 75) 1 = Return b1
    /\ calculate_costs (of_int 3) (of_int 100) (of_int 75) 1 = Return b2
    /\ overheads_per_unit b1 = overheads_per_unit b2
    /\ overheads_per_unit b1 = wage_rate b1.
Proof.
  destruct (calculate_costs (dec 5 10) (of_int 100) (of_int 75) 1) as [b1|] eqn:E1;
    [| vm_compute in E1; discriminate].
  destruct (calculate_costs (of_int 3) (of_int 100) (of_int 75) 1) as [b2|] eqn:E2;
    [| vm_compute in E2; discriminate].
  exists b1, b2.
  destruct (man_hours_leave_wage_fields_alone _ _ _ _ _ _ _ E1 E2) as (_ & _ & Ho & _ & Hw).
  split; [reflexivity |]. split; [reflexivity |]. split; assumption.
Defined.

End ManHours.

Module MachineLookup.
Import Resolver.

Lemma find_none_iff {A : Type} (f : A -> bool) (l : list A) :
  find f l = None <-> forall x, x ∈ l -> f x = false.
Proof.
  induction l as [| a l IH]; simpl.
  - split; [intros _ x Hx; now apply elem_of_nil in Hx | reflexivity].
  - destruct (f a) eqn:E.
    + split; [discriminate |]. intros H.
      assert (f a = false) by (apply H, elem_of_cons; now left). congruence.
    + rewrite IH. split.
      * intros H x Hx. apply elem_of_cons in Hx as [-> | Hx]; auto.
      * intros H x Hx. apply H, elem_of_cons. now right.
Qed.

Lemma find_some_holds {A : Type} (f : A -> bool) (l : list A) (x : A) :
  find f l = Some x -> x ∈ l /\ f x = true.
Proof.
  intros H. apply find_some in H as [H1 H2]. split; [now apply list_elem_of_In | exact H2].
Qed.

(** X8: [get_machine_details] looks the machine up by exact name. A
    failing query is passed on; when the query succeeds, the "not found"
    [ValueError] is raised exactly when no machine has the name, the first
    machine with the name gives the dictionary, and a returned dictionary
    carries the requested name and the fields of a row of the table. *)
Theorem machine_details_by_exact_name machine_name db :
  (machine_query_fails db = true ->
   get_machine_details machine_name db = Raise OperationalError)
  /\ (machine_query_fails db = false ->
      (get_machine_details machine_name db = Raise (machine_not_found machine_name)
       <-> forall m, m ∈ machines (session db) -> Machine.name m <> machine_name)
      /\ (forall before m after,
          machines (session db) = (before ++ m :: after)%list ->
          Forall (fun x => Machine.name x <> machine_name) before ->
          Machine.name m = machine_name ->
          get_machine_details machine_name db = Return (details_of m))
      /\ (forall d,
          get_machine_details machine_name db = Return d ->
          details_name d = machine_name
          /\ exists m, m ∈ machines (session db) /\ d = details_of m)).
Proof.
  unfold get_machine_details, query_machine_first. split.
  - now intros ->.
  - intros ->. cbn [mbind result_bind]. split; [| split].
    + destruct (find _ _) as [m|] eqn:E.
      * apply find_some_holds in E as [Hin Hname]. apply String.eqb_eq in Hname.
        split; [discriminate |]. intros H. now specialize (H m Hin).
      * split; [| reflexivity]. intros _ m Hm.
        pose proof (proj1 (find_none_iff _ _) E m Hm) as Hf. now apply String.eqb_neq.
    + intros before m after -> Hb Hm.
      rewrite (find_first _ before after m); [reflexivity | | now apply String.eqb_eq].
      eapply Forall_impl; [exact Hb |]. intros x Hx. now apply String.eqb_neq.
    + intros d. destruct (find _ _) as [m|] eqn:E; [| discriminate].
      intros [= <-]. apply find_some_holds in E as [Hin Hname]. apply String.eqb_eq in Hname.
      split; [exact Hname |]. now exists m.
Qed.

Lemma machine_details_by_exact_name_witness :
  get_machine_details "CNC Lathe"
    {| session := small_db "turning" "medium" "CNC Lathe" [] no_failure;
       machine_query_fails := false |}
  = Return {| details_id := 1; details_name := "CNC Lathe";
              details_operation_type_id := Some 1 |}.
Proof.
  apply (proj1 (proj2 (proj2 (machine_details_by_exact_name "CNC Lathe"
           {| session := small_db "turning" "medium" "CNC Lathe" [] no_failure;
              machine_query_fails := false |}) eq_refl))
           [] {| Machine.id := 1; Machine.name := "CNC Lathe"; Machine.op_id := Some 1 |} []);
    [reflexivity | constructor | reflexivity].
Defined.

End MachineLookup.

Module Materials.
Import FloatOrder Classifier.

#[local] Arguments of_int : simpl never.
#[local] Arguments dec : simpl never.
#[local] Arguments max3 : simpl never.

Lemma material_adjustment_ge mat b : duty_le b (material_adjustment mat b).
Proof.
  unfold material_adjustment, duty_le.
  destruct (String.eqb mat "steel"), (String.eqb mat "titanium"), b;
    vm_compute; discriminate.
Qed.

Lemma material_adjustment_le_heavy mat b : duty_le (material_adjustment mat b) heavy.
Proof. unfold duty_le. destruct (material_adjustment mat b); vm_compute; discriminate. Qed.

(** X9: whenever [determine_duty_category] returns, titanium (after
    stripping and lower-casing) gives heavy, steel never gives light, and
    heat treatment and welding never give light, whatever the shape and the
    dimensions. *)
Theorem hard_material_and_operation_floor shape dims material operation c :
  determine_duty_category shape dims material operation = Return c ->
  (normal_material material = "titanium" -> c = heavy)
  /\ (normal_material material = "steel" -> c <> light)
  /\ (normal_operation operation = "heat_treatment"
      \/ normal_operation operation = "welding" -> c <> light).
Proof.
  unfold determine_duty_category, normal_material, normal_operation.
  destruct (base_classification _ _ _ _) as [b|]; [| discriminate].
  cbn [mbind result_bind]. intros [= <-]. split; [| split].
  - intros ->. rewrite material_adjustment_titanium.
    unfold operation_adjustment. destruct (_ || _); reflexivity.
  - intros ->. rewrite material_adjustment_steel.
    unfold operation_adjustment. destruct (_ || _), b; discriminate.
  - intros H. unfold operation_adjustment.
    assert (String.eqb (PyStr.lower (PyStr.strip (PyStr.or_empty operation))) "heat_treatment"
            || String.eqb (PyStr.lower (PyStr.strip (PyStr.or_empty operation))) "welding"
            = true) as ->.
    { apply orb_true_iff. destruct H as [H | H]; [left | right]; now apply String.eqb_eq. }
    destruct (material_adjustment _ b); discriminate.
Qed.

Lemma hard_material_and_operation_floor_witness :
  determine_duty_category "round" (<["diameter" := of_int 10]> (<["length" := of_int 10]> ∅))
    (Some " Titanium") (Some "turning") = Return heavy.
Proof.
  destruct (determine_duty_category "round"
              (<["diameter" := of_int 10]> (<["length" := of_int 10]> ∅))
              (Some " Titanium") (Some "turning")) as [c|] eqn:E;
    [| vm_compute in E; discriminate].
  f_equal.
  now apply (proj1 (hard_material_and_operation_floor _ _ _ _ c E)).
Defined.

Lemma has_fields_geometric shape keys dims :
  (shape = "rectangular" /\ keys = rectangular_keys)
  \/ (shape = "round" /\ keys = round_keys) ->
  has_fields keys dims ->
  exists b, geometric_base shape dims = Return (Some b).
Proof.
  unfold has_fields. intros [[-> ->] | [-> ->]] H.
  - apply Forall_cons in H as [[l Hl] H]. apply Forall_cons in H as [[b Hb] H].
    apply Forall_cons in H as [[h Hh] _].
    eexists. apply (geometric_rectangular _ _ _ _ Hl Hb Hh).
  - apply Forall_cons in H as [[d Hd] H]. apply Forall_cons in H as [[l Hl] _].
    eexists. apply (geometric_round _ _ _ Hd Hl).
Qed.

(** X10: for a rectangular or round part with its fields and a fixed
    operation, [determine_duty_category] returns for both materials, and
    the duty for a material that is neither steel nor titanium is at most
    the duty for any other material, which is at most the duty for
    titanium. *)
Theorem harder_material_never_lowers_duty shape keys dims m1 m2 operation :
  (shape = "rectangular" /\ keys = rectangular_keys)
  \/ (shape = "round" /\ keys = round_keys) ->
  has_fields keys dims ->
  (normal_material m1 <> "steel" /\ normal_material m1 <> "titanium")
  \/ normal_material m2 = "titanium" ->
  exists c1 c2,
    determine_duty_category shape dims m1 operation = Return c1
    /\ determine_duty_category shape dims m2 operation = Return c2
    /\ duty_le c1 c2.
Proof.
  intros Hshape Hfields Hm.
  destruct (has_fields_geometric _ _ _ Hshape Hfields) as [b Hb].
  eexists _, _. split; [| split].
  - apply determine_of_base, base_of_geometric, Hb.
  - apply determine_of_base, base_of_geometric, Hb.
  - apply operation_adjustment_mono. fold (normal_material m1) (normal_material m2).
    destruct Hm as [[Hs Ht] | ->].
    + rewrite (material_adjustment_other _ _ Hs Ht). apply material_adjustment_ge.
    + rewrite material_adjustment_titanium. apply material_adjustment_le_heavy.
Qed.

Lemma harder_material_never_lowers_duty_witness :
  exists c1 c2,
    determine_duty_category "rectangular"
      (rect_dims (of_int 700) (of_int 10) (of_int 10)) (Some "Aluminium") (Some "milling")
    = Return c1
    /\ determine_duty_category "rectangular"
         (rect_dims (of_int 700) (of_int 10) (of_int 10)) (Some "steel") (Some "milling")
       = Return c2
    /\ duty_le c1 c2.
Proof.
  apply (harder_material_never_lowers_duty "rectangular" rectangular_keys).
  - left. split; reflexivity.
  - repeat constructor; eexists; reflexivity.
  - left. split; discriminate.
Defined.

End Materials.

Module Normalization.
Import Strings Selection Resolver MachineLookup.

#[local] Arguments of_int : simpl never.
#[local] Arguments dec : simpl never.
#[local] Arguments max3 : simpl never.

Lemma lower_char_idem c : PyStr.lower_char (PyStr.lower_char c) = PyStr.lower_char c.
Proof. destruct c as [[] [] [] [] [] [] [] []]; reflexivity. Qed.

Lemma lower_idem s : PyStr.lower (PyStr.lower s) = PyStr.lower s.
Proof.
  induction s as [| c s IH]; [reflexivity |].
  cbn [PyStr.lower]. now rewrite lower_char_idem, IH.
Qed.

Lemma upper_lower_char c : PyStr.lower_char (PyStr.upper_char c) = PyStr.lower_char c.
Proof. destruct c as [[] [] [] [] [] [] [] []]; reflexivity. Qed.

Lemma lower_upper s : PyStr.lower (PyStr.upper s) = PyStr.lower s.
Proof.
  induction s as [| c s IH]; [reflexivity |].
  cbn [PyStr.lower PyStr.upper]. now rewrite upper_lower_char, IH.
Qed.

Lemma norm_lower s : _norm (Some (PyStr.lower s)) = _norm (Some s).
Proof. unfold _norm. now rewrite (lower_strip (PyStr.lower s)), lower_idem, <- lower_strip. Qed.

Lemma norm_strip s : _norm (Some (PyStr.strip s)) = _norm (Some s).
Proof. unfold _norm. now rewrite strip_strip. Qed.

Section Padding.
Variable p : ascii -> bool.

Lemma ldrop_blank_app a s : blank_string p a = true -> PyStr.ldrop p (a ++ s) = PyStr.ldrop p s.
Proof.
  induction a as [| c a IH]; [reflexivity |].
  simpl. intros [Hc H]%andb_true_iff. rewrite Hc. auto.
Qed.

Lemma rdrop_blank a : blank_string p a = true -> PyStr.rdrop p a = "".
Proof.
  induction a as [| c a IH]; [reflexivity |].
  simpl. intros [Hc H]%andb_true_iff. now rewrite Hc, IH.
Qed.

Lemma rdrop_app_blank s b : blank_string p b = true -> PyStr.rdrop p (s ++ b) = PyStr.rdrop p s.
Proof.
  intros H. induction s as [| c s IH]; [now apply rdrop_blank |].
  simpl. now rewrite IH.
Qed.

End Padding.

Lemma strip_padded a s b :
  blank_string PyStr.is_space a = true -> blank_string PyStr.is_space b = true ->
  PyStr.strip (a ++ s ++ b) = PyStr.strip s.
Proof.
  intros Ha Hb. unfold PyStr.strip.
  rewrite (ldrop_blank_app _ _ _ Ha), <- !ldrop_rdrop.
  now rewrite (rdrop_app_blank _ _ _ Hb).
Qed.

(** X11: [_norm] does not see the case of letters nor white space
    around the string: lower-casing, upper-casing or stripping the string,
    or padding it with white space on either side, leaves its normal form
    unchanged. *)
Theorem norm_ignores_case_and_outer_space s :
  _norm (Some (PyStr.lower s)) = _norm (Some s)
  /\ _norm (Some (PyStr.upper s)) = _norm (Some s)
  /\ _norm (Some (PyStr.strip s)) = _norm (Some s)
  /\ (forall a b,
      blank_string PyStr.is_space a = true -> blank_string PyStr.is_space b = true ->
      _norm (Some (a ++ s ++ b)) = _norm (Some s)).
Proof.
  split; [apply norm_lower |]. split; [| split; [apply norm_strip |]].
  - unfold _norm. now rewrite (lower_strip (PyStr.upper s)), lower_upper, <- lower_strip.
  - intros a b Ha Hb. unfold _norm. now rewrite (strip_padded _ _ _ Ha Hb).
Qed.

Lemma norm_ignores_case_and_outer_space_witness :
  _norm (Some ("  " ++ "Heavy Duty" ++ " ")) = _norm (Some "Heavy Duty").
Proof.
  apply (proj2 (proj2 (proj2 (norm_ignores_case_and_outer_space "Heavy Duty")))); reflexivity.
Defined.

(** X12: [_resolve_duty_id] returns [None] when the duty normalizes
    to the empty string and when the query on duties fails; an id it
    returns is the id of a row whose name has the normal form of the
    request; and when the query succeeds it is the id of the first such
    row. *)
Theorem duty_id_by_normalized_name db d :
  (_norm d = "" -> _resolve_duty_id db d = None)
  /\ (fails db QDutyAll = true -> _resolve_duty_id db d = None)
  /\ (forall i,
      _resolve_duty_id db d = Some i ->
      _norm d <> ""
      /\ exists du, du ∈ duties db /\ Duty.id du = i
                    /\ _norm (Some (Duty.name du)) = _norm d)
  /\ (fails db QDutyAll = false -> _norm d <> "" ->
      forall before du after,
        duties db = (before ++ du :: after)%list ->
        Forall (fun x => _norm (Some (Duty.name x)) <> _norm d) before ->
        _norm (Some (Duty.name du)) = _norm d ->
        _resolve_duty_id db d = Some (Duty.id du)).
Proof.
  unfold _resolve_duty_id, query_duty_all, run. split; [| split; [| split]].
  - now intros ->.
  - intros ->. now destruct (negb _).
  - intros i. destruct (_norm d) as [| c n] eqn:En; [discriminate |]. cbn [PyStr.truthy negb].
    destruct (fails db QDutyAll); [discriminate |].
    destruct (find _ _) as [du|] eqn:E; [| discriminate].
    intros [= <-]. apply find_some_holds in E as [Hin Hname]. apply String.eqb_eq in Hname.
    split; [discriminate |]. now exists du.
  - intros -> Hne before du after -> Hb Hdu.
    destruct (_norm d) as [| c n] eqn:En; [contradiction |]. cbn [PyStr.truthy negb].
    rewrite (find_first _ before after du); [reflexivity | | now apply String.eqb_eq].
    eapply Forall_impl; [exact Hb |]. intros x Hx. now apply String.eqb_neq.
Qed.

Lemma duty_id_by_normalized_name_witness :
  _resolve_duty_id
    (small_db "turning" "Medium duty" "CNC Lathe" [] no_failure) (Some " MEDIUM_DUTY ")
  = Some 1.
Proof.
  apply (proj2 (proj2 (proj2 (duty_id_by_normalized_name
           (small_db "turning" "Medium duty" "CNC Lathe" [] no_failure)
           (Some " MEDIUM_DUTY "))))
           eq_refl ltac:(discriminate) [] {| Duty.id := 1; Duty.name := "Medium duty" |} []);
    [reflexivity | constructor | reflexivity].
Defined.

Section WithConversion.
Variable float_of_str : string -> option float.

(** X13: [get_machine_hour_rate] reads the duty and the machine
    name only through [_norm]: two calls whose duties have the same normal
    form and whose machine names have the same normal form, with the other
    arguments equal, have the same result. *)
Theorem only_normal_forms_of_duty_and_machine_matter
    operation duty duty' machine_name machine_name' db machine_id op_type_id duty_id :
  _norm duty = _norm duty' ->
  _norm machine_name = _norm machine_name' ->
  get_machine_hour_rate float_of_str operation duty machine_name db
    machine_id op_type_id duty_id
  = get_machine_hour_rate float_of_str operation duty' machine_name' db
      machine_id op_type_id duty_id.
Proof.
  intros Hd Hm.
  unfold get_machine_hour_rate, deterministic_lookup, fuzzy_lookup, resolve_duty,
    _resolve_duty_id. cbv zeta.
  now rewrite Hd, Hm.
Qed.

(** X14: the machine name only ranks the rows of the fuzzy tier, it
    never excludes one. When the join query succeeds, some row passes the
    tests on operation and duty, and every such row has a rate that
    converts to a float, [get_machine_hour_rate] returns a rate for every
    machine name and every combination of ids. *)
Theorem machine_name_never_blocks_a_rate
    o duty machine_name db machine_id op_type_id duty_id :
  fails db QMhrJoinAll = false ->
  let scored := scored_rows db (Some o) duty (PyStr.lower (PyStr.strip o)) in
  scored <> [] ->
  (forall j, j ∈ scored ->
             exists s v, MHR.machine_hr_rate (MHR.row j) = Some s /\ float_of_str s = Some v) ->
  exists v,
    get_machine_hour_rate float_of_str (Some o) duty machine_name db
      machine_id op_type_id duty_id = Return v.
Proof.
  intros Hf scored Hne Hrates. unfold get_machine_hour_rate.
  destruct (except_pass (deterministic_lookup _ _ _ _ _ _ _)) as [r|]; [now exists r |].
  rewrite (fuzzy_lookup_first_best float_of_str o duty machine_name db Hf).
  fold scored.
  destruct (first_best (score_of (_norm machine_name)) scored) as [b|] eqn:E.
  - apply first_best_in in E. apply list_elem_of_In in E.
    destruct (Hrates b E) as (s & v & Hs & Hv).
    exists v. cbn [mbind option_bind except_pass]. rewrite Hs. cbn [mbind option_bind].
    now rewrite Hv.
  - apply first_best_none in E. contradiction.
Qed.

End WithConversion.

Lemma only_normal_forms_of_duty_and_machine_matter_witness :
  get_machine_hour_rate Numeral.float_of_decimal (Some "turning") (Some "Medium Duty")
    (Some "cnc-lathe")
    (small_db "turning" "medium" "CNC Lathe" [mhr_row 1 1 1 1 (Some "250.5")] no_failure)
    None None None
  = get_machine_hour_rate Numeral.float_of_decimal (Some "turning") (Some "medium")
      (Some "CNC Lathe")
      (small_db "turning" "medium" "CNC Lathe" [mhr_row 1 1 1 1 (Some "250.5")] no_failure)
      None None None.
Proof.
  apply (only_normal_forms_of_duty_and_machine_matter Numeral.float_of_decimal);
    reflexivity.
Defined.

Lemma machine_name_never_blocks_a_rate_witness :
  exists v,
    get_machine_hour_rate Numeral.float_of_decimal (Some "turning") (Some "medium")
      (Some "Hydraulic Press")
      (small_db "turning" "medium" "CNC Lathe" [mhr_row 1 1 1 1 (Some "250.5")] no_failure)
      None None None = Return v.
Proof.
  apply (machine_name_never_blocks_a_rate Numeral.float_of_decimal "turning"
           (Some "medium") (Some "Hydraulic Press")
           (small_db "turning" "medium" "CNC Lathe" [mhr_row 1 1 1 1 (Some "250.5")] no_failure)
           None None None eq_refl).
  - discriminate.
  - intros j Hj. vm_compute in Hj. apply elem_of_cons in Hj as [-> | Hj]; [| now apply elem_of_nil in Hj].
    exists "250.5", (dec 2505 10). split; reflexivity.
Defined.

End Normalization.

Module Endpoints.
Import Strings FloatOrder Classifier Resolver MachineSelection MachineLookup Materials.

#[local] Arguments of_int : simpl never.
#[local] Arguments dec : simpl never.
#[local] Arguments max3 : simpl never.

Lemma get_machine_details_cases machine_name db :
  (machine_query_fails db = true
   /\ get_machine_details machine_name db = Raise OperationalError)
  \/ (machine_query_fails db = false
      /\ (forall m, m ∈ machines (session db) -> Machine.name m <> machine_name)
      /\ get_machine_details machine_name db = Raise (machine_not_found machine_name))
  \/ (machine_query_fails db = false
      /\ exists m, m ∈ machines (session db) /\ Machine.name m = machine_name
                   /\ get_machine_details machine_name db = Return (details_of m)).
Proof.
  unfold get_machine_details, query_machine_first.
  destruct (machine_query_fails db); [left; now split | right].
  cbn [mbind result_bind].
  destruct (find _ _) as [m|] eqn:E.
  - right. split; [reflexivity |]. apply find_some_holds in E as [Hin Hname].
    apply String.eqb_eq in Hname. now exists m.
  - left. split; [reflexivity |]. split; [| reflexivity]. intros m Hm.
    pose proof (proj1 (find_none_iff _ _) E m Hm) as Hf. now apply String.eqb_neq.
Qed.

Lemma calculate_costs_unit A B C : exists b, calculate_costs A B C 1 = Return b.
Proof. unfold calculate_costs. eexists. reflexivity. Qed.

Lemma calculate_costs_same_unit A B C q b :
  calculate_costs A B C q = Return b ->
  exists b1, calculate_costs A B C 1 = Return b1 /\ pop_total_cost b1 = pop_total_cost b.
Proof.
  unfold calculate_costs. destruct (float_of_int q) as [f|]; [| discriminate].
  cbn [mbind result_bind]. intros [= <-]. eexists. split; reflexivity.
Qed.

Lemma calculate_costs_fields A B C q b :
  calculate_costs A B C q = Return b ->
  man_hours_per_unit b = round A 4
  /\ machine_hour_rate b = round B 2
  /\ wage_rate b = round C 2
  /\ overheads_per_unit b = round C 2.
Proof.
  unfold calculate_costs. destruct (float_of_int q) as [f|]; [| discriminate].
  cbn [mbind result_bind]. intros [= <-]. repeat split.
Qed.

Lemma round_wage machine_name :
  round (get_wage_rate machine_name) 2 = wage_of_name machine_name.
Proof.
  rewrite wage_rate_of_category. unfold wage_of_name.
  destruct (determine_machine_category machine_name); vm_compute; reflexivity.
Qed.

Lemma detect_shape_inv dims shape dict volume :
  detect_shape dims = Respond (shape, dict, volume) ->
  (exists d l, Dimensions.diameter dims = Some d /\ Dimensions.length dims = Some l
               /\ shape = "round"
               /\ dict = <["diameter" := d]> (<["length" := l]> ∅))
  \/ (exists l b h, Dimensions.diameter dims = None /\ Dimensions.length dims = Some l
                    /\ Dimensions.breadth dims = Some b /\ Dimensions.height dims = Some h
                    /\ shape = "rectangular"
                    /\ dict = rect_dims l b h).
Proof.
  unfold detect_shape.
  destruct (Dimensions.diameter dims) as [d|].
  - destruct (pow2 _) as [sq|]; [| discriminate].
    destruct (Dimensions.length dims) as [l|]; [| discriminate].
    cbn. intros [= <- <- <-]. left. now exists d, l.
  - destruct (Dimensions.breadth dims) as [b|]; [| discriminate].
    destruct (Dimensions.height dims) as [h|]; [| discriminate].
    destruct (Dimensions.length dims) as [l|]; [| discriminate].
    cbn. intros [= <- <- <-]. right. now exists l, b, h.
Qed.

Lemma detect_shape_fail dims e :
  detect_shape dims = Fail e ->
  (e = invalid_dimensions /\ no_shape dims)
  \/ (e = TypeError /\ Dimensions.length dims = None /\ ~ no_shape dims)
  \/ (e = Uncaught OverflowError /\ Dimensions.diameter dims <> None).
Proof.
  unfold detect_shape, no_shape.
  destruct (Dimensions.diameter dims) as [d|].
  - unfold pow2. destruct (_ && _).
    + cbn. intros [= <-]. right. right. now split.
    + destruct (Dimensions.length dims) as [l|]; [discriminate |].
      cbn. intros [= <-]. right. left. repeat split. now intros [? _].
  - destruct (Dimensions.breadth dims) as [b|].
    + destruct (Dimensions.height dims) as [h|].
      * destruct (Dimensions.length dims) as [l|]; [discriminate |].
        cbn. intros [= <-]. right. left. repeat split. now intros [_ [? | ?]].
      * intros [= <-]. left. split; [reflexivity |]. split; [reflexivity | now right].
    + intros [= <-]. left. split; [reflexivity |]. split; [reflexivity | now left].
Qed.

Lemma detect_shape_class dims shape dict volume :
  detect_shape dims = Respond (shape, dict, volume) ->
  exists g, geometric_class dims = Some g
            /\ geometric_base shape dict = Return (Some g).
Proof.
  intros H. unfold geometric_class.
  apply detect_shape_inv in H
    as [(d & l & -> & -> & -> & ->) | (l & b & h & -> & -> & -> & -> & -> & ->)].
  - exists (round_class d l). split; [reflexivity |]. now apply geometric_round.
  - exists (rectangular_class l b h). split; [reflexivity |]. now apply geometric_rectangular.
Qed.

Lemma duty_step_class request dims shape dict volume :
  detect_shape dims = Respond (shape, dict, volume) ->
  exists g, geometric_class dims = Some g
    /\ duty_step request shape dict
       = Respond (match CostEstimationRequest.duty_category request with
                  | Some value => value
                  | None =>
                      duty_value
                        (operation_adjustment
                           (normal_operation (Some (CostEstimationRequest.operation_type request)))
                           (material_adjustment
                              (normal_material (Some (CostEstimationRequest.material request))) g))
                  end).
Proof.
  intros H. destruct (detect_shape_class _ _ _ _ H) as (g & Hg & Hb).
  exists g. split; [exact Hg |]. unfold duty_step.
  destruct (CostEstimationRequest.duty_category request); [reflexivity |].
  rewrite (determine_of_base _ _ _ _ g); [reflexivity |].
  now apply base_of_geometric.
Qed.

Section WithConversion.
Variable float_of_str : string -> option float.

Lemma get_machine_hour_rate_cases operation duty machine_name db machine_id op_type_id duty_id :
  (exists v, get_machine_hour_rate float_of_str operation duty machine_name db
               machine_id op_type_id duty_id = Return v)
  \/ get_machine_hour_rate float_of_str operation duty machine_name db
       machine_id op_type_id duty_id = Raise not_configured.
Proof.
  unfold get_machine_hour_rate.
  destruct (except_pass (deterministic_lookup _ _ _ _ _ _ _)) as [r|]; [left; now exists r |].
  destruct (except_pass (fuzzy_lookup _ _ _ _ _)) as [r|]; [left; now exists r | now right].
Qed.

(** What a response of [calculate_cost_estimation] is made of. *)
Lemma calculate_cost_estimation_inv request db r :
  calculate_cost_estimation float_of_str request db = Respond r ->
  exists m shape dict volume duty rate b,
    machine_query_fails db = false
    /\ m ∈ machines (session db)
    /\ Machine.name m = CostEstimationRequest.machine_name request
    /\ get_machine_details (CostEstimationRequest.machine_name request) db
       = Return (details_of m)
    /\ detect_shape (CostEstimationRequest.dimensions request) = Respond (shape, dict, volume)
    /\ duty_step request shape dict = Respond duty
    /\ get_machine_hour_rate float_of_str
         (Some (CostEstimationRequest.operation_type request)) (Some duty)
         (Some (Machine.name m)) (session db) (Some (Machine.id m)) (Machine.op_id m) None
       = Return rate
    /\ calculate_costs (CostEstimationRequest.man_hours_per_unit request) rate
         (get_wage_rate (Machine.name m)) 1 = Return b
    /\ r = {| resp_duty_category := duty;
              resp_selected_machine := details_of m;
              resp_machine_category := determine_machine_category (Machine.name m);
              resp_shape := shape;
              resp_dimensions := dict;
              resp_volume := round volume 2;
              resp_cost_breakdown := pop_total_cost b;
              resp_material := CostEstimationRequest.material request;
              resp_operation_type := CostEstimationRequest.operation_type request |}.
Proof.
  unfold calculate_cost_estimation.
  destruct (get_machine_details_cases (CostEstimationRequest.machine_name request) db)
    as [[_ ->] | [(_ & _ & ->) | (Hq & m & Hin & Hname & Hdetails)]]; [discriminate .. |].
  rewrite Hdetails.
  cbn [http_on_value_error mbind outcome_bind details_of details_name details_id
       details_operation_type_id].
  destruct (detect_shape _) as [[[shape dict] volume] | e] eqn:Eshape; [| discriminate].
  cbn [mbind outcome_bind].
  destruct (duty_step request shape dict) as [duty | e] eqn:Eduty; [| discriminate].
  cbn [mbind outcome_bind].
  destruct (get_machine_hour_rate _ _ _ _ _ _ _ _) as [rate | e] eqn:Erate;
    [| destruct e; discriminate].
  cbn [http_on_value_error mbind outcome_bind].
  destruct (calculate_costs _ _ _ _) as [b | e] eqn:Eb; [| discriminate].
  cbn [call mbind outcome_bind]. intros [= <-].
  now exists m, shape, dict, volume, duty, rate, b.
Qed.

(** What a response of [quick_estimate] is made of. *)
Lemma quick_estimate_inv operation duty quantity db r :
  quick_estimate float_of_str operation duty quantity db = Respond r ->
  exists m rate b,
    machine_query_fails db = false
    /\ m ∈ machines (session db)
    /\ Machine.name m = quick_machine_name operation duty
    /\ get_machine_details (quick_machine_name operation duty) db = Return (details_of m)
    /\ get_machine_hour_rate float_of_str (Some operation) (Some duty)
         (Some (Machine.name m)) (session db) (Some (Machine.id m)) (Machine.op_id m) None
       = Return rate
    /\ calculate_costs (matrix_hours operation duty) rate
         (get_wage_rate (Machine.name m)) quantity = Return b
    /\ r = {| quick_machine := Machine.name m;
              quick_duty := duty;
              quick_quantity := quantity;
              quick_unit_cost := unit_cost b;
              quick_total_cost := total_cost b;
              quick_details := b |}.
Proof.
  unfold quick_estimate, quick_machine_name, matrix_hours.
  destruct (select_machine operation duty "steel" None) as [machine_name category].
  cbn [fst].
  destruct (get_machine_details_cases machine_name db)
    as [[_ ->] | [(_ & _ & ->) | (Hq & m & Hin & Hname & Hdetails)]]; [discriminate .. |].
  rewrite Hdetails.
  cbn [http_on_value_error mbind outcome_bind details_of details_name details_id
       details_operation_type_id].
  rewrite <- Hname.
  destruct (get_machine_hour_rate _ _ _ _ _ _ _ _) as [rate | e] eqn:Erate;
    [| destruct e; discriminate].
  cbn [http_on_value_error mbind outcome_bind].
  destruct (calculate_costs _ _ _ _) as [b | e] eqn:Eb; [| discriminate].
  cbn [call mbind outcome_bind]. intros [= <-].
  now exists m, rate, b.
Qed.

(** X15: [calculate_cost_estimation] ends without a response in six
    ways only: the error of a failing machine query; 404 "not found" when
    no machine has the requested name; 400 "Invalid dimensions" when there
    is no diameter and breadth or height is missing; [TypeError] when the
    length is missing; [OverflowError] from the square of the radius; and
    400 "MHR not configured". The classification never raises in the route:
    no [KeyError] and no [AttributeError] reaches the caller. *)
Theorem estimation_fails_only_in_known_ways request db e :
  calculate_cost_estimation float_of_str request db = Fail e ->
  (e = Uncaught OperationalError /\ machine_query_fails db = true)
  \/ (e = HTTPException 404
            (detail (machine_not_found (CostEstimationRequest.machine_name request)))
      /\ forall m, m ∈ machines (session db) ->
                   Machine.name m <> CostEstimationRequest.machine_name request)
  \/ (e = invalid_dimensions /\ no_shape (CostEstimationRequest.dimensions request))
  \/ (e = TypeError
      /\ Dimensions.length (CostEstimationRequest.dimensions request) = None)
  \/ (e = Uncaught OverflowError
      /\ Dimensions.diameter (CostEstimationRequest.dimensions request) <> None)
  \/ e = HTTPException 400 (detail not_configured).
Proof.
  unfold calculate_cost_estimation.
  destruct (get_machine_details_cases (CostEstimationRequest.machine_name request) db)
    as [[Hq ->] | [(_ & Hnone & ->) | (Hq & m & Hin & Hname & ->)]].
  - intros [= <-]. now left.
  - intros [= <-]. right. left. now split.
  - cbn [http_on_value_error mbind outcome_bind details_of details_name details_id
         details_operation_type_id].
    destruct (detect_shape _) as [[[shape dict] volume] | e'] eqn:Eshape.
    + cbn [mbind outcome_bind].
      destruct (duty_step_class request _ _ _ _ Eshape) as (g & _ & ->).
      cbn [mbind outcome_bind].
      match goal with
      | |- context [get_machine_hour_rate ?f ?o ?d ?n ?s ?i ?j ?k] =>
          destruct (get_machine_hour_rate_cases o d n s i j k) as [[v ->] | ->]
      end.
      * cbn [http_on_value_error mbind outcome_bind].
        match goal with
        | |- context [calculate_costs ?A ?B ?C 1] =>
            destruct (calculate_costs_unit A B C) as [b ->]
        end.
        discriminate.
      * intros [= <-]. do 5 right. reflexivity.
    + cbn [mbind outcome_bind]. intros [= <-].
      apply detect_shape_fail in Eshape as [[-> H] | [(-> & H & _) | [-> H]]].
      * right. right. left. now split.
      * right. right. right. left. now split.
      * right. right. right. right. left. now split.
Qed.

(** X16: when the machine query succeeds, [calculate_cost_estimation]
    answers 404 exactly when no machine has the requested name: the check
    comes before the dimensions are looked at, and no later step answers
    404. *)
Theorem unknown_machine_is_reported_first request db :
  machine_query_fails db = false ->
  ((forall m, m ∈ machines (session db) ->
              Machine.name m <> CostEstimationRequest.machine_name request)
   <-> exists d, calculate_cost_estimation float_of_str request db
                 = Fail (HTTPException 404 d)).
Proof.
  intros Hq. unfold calculate_cost_estimation.
  destruct (get_machine_details_cases (CostEstimationRequest.machine_name request) db)
    as [[Hq' _] | [(_ & Hnone & ->) | (_ & m & Hin & Hname & ->)]]; [congruence | |].
  - split; [| intros _; exact Hnone]. intros _. eexists. reflexivity.
  - split; [intros H; now specialize (H m Hin) |]. intros [d H]. exfalso. revert H.
    cbn [http_on_value_error mbind outcome_bind details_of details_name details_id
         details_operation_type_id].
    destruct (detect_shape _) as [[[shape dict] volume] | e'] eqn:Eshape.
    + cbn [mbind outcome_bind].
      destruct (duty_step_class request _ _ _ _ Eshape) as (g & _ & ->).
      cbn [mbind outcome_bind].
      match goal with
      | |- context [get_machine_hour_rate ?f ?o ?d ?n ?s ?i ?j ?k] =>
          destruct (get_machine_hour_rate_cases o d n s i j k) as [[v ->] | ->]
      end.
      * cbn [http_on_value_error mbind outcome_bind].
        match goal with
        | |- context [calculate_costs ?A ?B ?C 1] =>
            destruct (calculate_costs_unit A B C) as [b ->]
        end.
        discriminate.
      * discriminate.
    + cbn [mbind outcome_bind]. intros [= ->].
      apply detect_shape_fail in Eshape as [[[=] _] | [([=] & _) | [[=] _]]].
Qed.

(** X17: a response of [calculate_cost_estimation] names a machine of
    the table with the requested name and its category; its wage rate and
    its overheads are both 75 for a conventional name and 100 otherwise;
    its man-hours are the request's, rounded to 4 places; its shape is
    "round" with the diameter and length when a diameter is given (also
    when breadth and height are given too), and "rectangular" with length,
    breadth and height otherwise. *)
Theorem response_describes_the_request request db r :
  calculate_cost_estimation float_of_str request db = Respond r ->
  let name := CostEstimationRequest.machine_name request in
  let dims := CostEstimationRequest.dimensions request in
  (exists m, m ∈ machines (session db) /\ Machine.name m = name
             /\ resp_selected_machine r = details_of m)
  /\ resp_machine_category r = determine_machine_category name
  /\ pu_wage_rate (resp_cost_breakdown r) = wage_of_name name
  /\ pu_overheads_per_unit (resp_cost_breakdown r) = wage_of_name name
  /\ pu_man_hours_per_unit (resp_cost_breakdown r)
     = round (CostEstimationRequest.man_hours_per_unit request) 4
  /\ match Dimensions.diameter dims with
     | Some d =>
         resp_shape r = "round"
         /\ exists l, Dimensions.length dims = Some l
                      /\ resp_dimensions r = <["diameter" := d]> (<["length" := l]> ∅)
     | None =>
         resp_shape r = "rectangular"
         /\ exists l b h, Dimensions.length dims = Some l
                          /\ Dimensions.breadth dims = Some b
                          /\ Dimensions.height dims = Some h
                          /\ resp_dimensions r = rect_dims l b h
     end.
Proof.
  intros H name dims. subst name dims.
  apply calculate_cost_estimation_inv in H
    as (m & shape & dict & volume & duty & rate & b
        & Hq & Hin & Hname & Hdetails & Hshape & Hduty & Hrate & Hb & ->).
  cbn [resp_selected_machine resp_machine_category resp_cost_breakdown resp_shape
       resp_dimensions pop_total_cost pu_wage_rate pu_overheads_per_unit
       pu_man_hours_per_unit].
  apply calculate_costs_fields in Hb as (-> & _ & -> & ->).
  rewrite round_wage, Hname.
  split; [now exists m |]. do 4 (split; [reflexivity |]).
  apply detect_shape_inv in Hshape
    as [(d & l & -> & Hl & -> & ->) | (l & b' & h & -> & Hl & Hb' & Hh & -> & ->)].
  - split; [reflexivity |]. now exists l.
  - split; [reflexivity |]. now exists l, b', h.
Qed.

(** X18: the duty of a response of [calculate_cost_estimation] is
    the request's duty category when one is given; otherwise it is the
    class of the geometric thresholds for the request's fields, moved by
    the material and operation adjustments. The volume-score fallback of
    [determine_duty_category] is never what the route reports. *)
Theorem response_duty_is_override_or_geometric request db r :
  calculate_cost_estimation float_of_str request db = Respond r ->
  match CostEstimationRequest.duty_category request with
  | Some value => resp_duty_category r = value
  | None =>
      exists g,
        geometric_class (CostEstimationRequest.dimensions request) = Some g
        /\ resp_duty_category r
           = duty_value
               (operation_adjustment
                  (normal_operation (Some (CostEstimationRequest.operation_type request)))
                  (material_adjustment
                     (normal_material (Some (CostEstimationRequest.material request))) g))
  end.
Proof.
  intros H.
  apply calculate_cost_estimation_inv in H
    as (m & shape & dict & volume & duty & rate & b
        & Hq & Hin & Hname & Hdetails & Hshape & Hduty & Hrate & Hb & ->).
  cbn [resp_duty_category].
  destruct (duty_step_class request _ _ _ _ Hshape) as (g & Hg & Hstep).
  rewrite Hstep in Hduty. injection Hduty as <-.
  destruct (CostEstimationRequest.duty_category request); [reflexivity |].
  now exists g.
Qed.

(** X19: [quick_estimate] ends without a response in four ways only:
    the error of a failing machine query; 404 when the table has no machine
    with the name [select_machine] chose; 400 "MHR not configured"; and
    [OverflowError] when the quantity is too large for a float. *)
Theorem quick_estimate_fails_only_in_known_ways operation duty quantity db e :
  quick_estimate float_of_str operation duty quantity db = Fail e ->
  (e = Uncaught OperationalError /\ machine_query_fails db = true)
  \/ (e = HTTPException 404 (detail (machine_not_found (quick_machine_name operation duty)))
      /\ forall m, m ∈ machines (session db) ->
                   Machine.name m <> quick_machine_name operation duty)
  \/ e = HTTPException 400 (detail not_configured)
  \/ (e = Uncaught OverflowError /\ float_of_int quantity = Raise OverflowError).
Proof.
  unfold quick_estimate, quick_machine_name.
  destruct (select_machine operation duty "steel" None) as [machine_name category].
  cbn [fst].
  destruct (get_machine_details_cases machine_name db)
    as [[Hq ->] | [(_ & Hnone & ->) | (Hq & m & Hin & Hname & ->)]].
  - intros [= <-]. now left.
  - intros [= <-]. right. left. now split.
  - cbn [http_on_value_error mbind outcome_bind details_of details_name details_id
         details_operation_type_id].
    match goal with
    | |- context [get_machine_hour_rate ?f ?o ?d ?n ?s ?i ?j ?k] =>
        destruct (get_machine_hour_rate_cases o d n s i j k) as [[v ->] | ->]
    end.
    + cbn [http_on_value_error mbind outcome_bind]. unfold calculate_costs.
      unfold float_of_int. destruct (is_infinite (of_int quantity)).
      * intros [= <-]. do 3 right. now split.
      * discriminate.
    + intros [= <-]. right. right. left. reflexivity.
Qed.

(** X20: a response of [quick_estimate] names the machine
    [select_machine] chose for steel, which is in the table; the wage rate
    of its details is 100 when the duty is exactly "heavy" or "medium" and
    75 for every other duty string, whatever the operation; its man-hours
    are the matrix value rounded to 4 places; and its unit and total cost
    are those of its details. *)
Theorem quick_estimate_picks_machine_and_wage_by_duty operation duty quantity db r :
  quick_estimate float_of_str operation duty quantity db = Respond r ->
  quick_machine r = quick_machine_name operation duty
  /\ (exists m, m ∈ machines (session db) /\ Machine.name m = quick_machine r)
  /\ wage_rate (quick_details r)
     = (if String.eqb duty "heavy" || String.eqb duty "medium"
        then of_int 100 else of_int 75)
  /\ man_hours_per_unit (quick_details r) = round (matrix_hours operation duty) 4
  /\ quick_unit_cost r = unit_cost (quick_details r)
  /\ quick_total_cost r = total_cost (quick_details r).
Proof.
  intros H.
  apply quick_estimate_inv in H as (m & rate & b & Hq & Hin & Hname & Hdetails & Hrate & Hb & ->).
  cbn [quick_machine quick_details quick_unit_cost quick_total_cost].
  apply calculate_costs_fields in Hb as (-> & _ & -> & _).
  rewrite round_wage, Hname.
  split; [reflexivity |]. split; [now exists m |].
  split; [| repeat split].
  unfold wage_of_name, quick_machine_name, select_machine, auto_category.
  cbn [PyStr.or_empty PyStr.truthy fst String.eqb Ascii.eqb Bool.eqb orb].
  destruct (String.eqb duty "heavy"); cbn [orb].
  - unfold machine_names; cbn [PyStr.dict_get]. split_keys operation; reflexivity.
  - destruct (String.eqb duty "medium");
      unfold machine_names; cbn [PyStr.dict_get]; split_keys operation; reflexivity.
Qed.

(** X21: the two endpoints agree. When [quick_estimate] responds, a
    request to [calculate_cost_estimation] on the same database for the
    machine it names, the same operation, the same duty as override, the
    matrix man-hours and dimensions of either shape gets a response, with
    the per-unit breakdown of the quick estimate (its details without the
    total cost), the same duty and the same machine, for every quantity of
    the quick estimate. *)
Theorem endpoints_agree_per_unit operation duty quantity db q request s :
  quick_estimate float_of_str operation duty quantity db = Respond q ->
  CostEstimationRequest.machine_name request = quick_machine q ->
  CostEstimationRequest.operation_type request = operation ->
  CostEstimationRequest.duty_category request = Some duty ->
  CostEstimationRequest.man_hours_per_unit request = matrix_hours operation duty ->
  detect_shape (CostEstimationRequest.dimensions request) = Respond s ->
  exists r,
    calculate_cost_estimation float_of_str request db = Respond r
    /\ resp_cost_breakdown r = pop_total_cost (quick_details q)
    /\ resp_duty_category r = quick_duty q
    /\ details_name (resp_selected_machine r) = quick_machine q.
Proof.
  intros H Hname Hop Hduty Hhours Hshape.
  apply quick_estimate_inv in H as (m & rate & b & Hq & Hin & Hm & Hdetails & Hrate & Hb & ->).
  cbn [quick_machine quick_details quick_duty] in *.
  apply calculate_costs_same_unit in Hb as (b1 & Hb1 & <-).
  unfold calculate_cost_estimation, duty_step.
  rewrite Hname, Hm, Hdetails, Hshape, Hduty, Hop, Hhours.
  destruct s as [[shape dict] volume].
  cbn [http_on_value_error mbind outcome_bind details_of details_name details_id
       details_operation_type_id].
  rewrite Hrate. cbn [http_on_value_error mbind outcome_bind].
  rewrite Hb1. cbn [call mbind outcome_bind].
  eexists. split; [reflexivity |].
  split; [reflexivity |]. split; [reflexivity | exact Hm].
Qed.

End WithConversion.

Lemma estimation_fails_only_in_known_ways_witness :
  HTTPException 404 "Machine with name 'Lathe' not found"
  = HTTPException 404 (detail (machine_not_found "Lathe"))
  /\ forall m, m ∈ machines (session (turning_db "CNC Lathe")) -> Machine.name m <> "Lathe".
Proof.
  destruct (estimation_fails_only_in_known_ways Numeral.float_of_decimal
              (sample_request "Lathe" (round_part (of_int 50) (of_int 200)) None)
              (turning_db "CNC Lathe")
              (HTTPException 404 "Machine with name 'Lathe' not found")
              ltac:(vm_compute; reflexivity))
    as [[H _] | [H | [[H _] | [[H _] | [[H _] | H]]]]];
    [discriminate | exact H | discriminate ..].
Defined.

Lemma unknown_machine_is_reported_first_witness :
  exists d,
    calculate_cost_estimation Numeral.float_of_decimal
      (sample_request "Lathe" (round_part (of_int 50) (of_int 200)) None)
      (turning_db "CNC Lathe") = Fail (HTTPException 404 d).
Proof.
  apply (proj1 (unknown_machine_is_reported_first Numeral.float_of_decimal
                  (sample_request "Lathe" (round_part (of_int 50) (of_int 200)) None)
                  (turning_db "CNC Lathe") eq_refl)).
  intros m Hm. apply elem_of_cons in Hm as [-> | Hm]; [discriminate |].
  now apply elem_of_nil in Hm.
Defined.

Lemma response_describes_the_request_witness :
  exists r,
    calculate_cost_estimation Numeral.float_of_decimal
      (sample_request "CNC Lathe" (round_part (of_int 50) (of_int 200)) None)
      (turning_db "CNC Lathe") = Respond r
    /\ resp_shape r = "round"
    /\ pu_wage_rate (resp_cost_breakdown r) = of_int 100.
Proof.
  destruct (calculate_cost_estimation Numeral.float_of_decimal
              (sample_request "CNC Lathe" (round_part (of_int 50) (of_int 200)) None)
              (turning_db "CNC Lathe")) as [r | e] eqn:E;
    [| vm_compute in E; discriminate].
  exists r. split; [reflexivity |].
  destruct (response_describes_the_request _ _ _ _ E) as (_ & _ & Hw & _ & _ & Hs & _).
  split; [exact Hs | exact Hw].
Defined.

Lemma response_duty_is_override_or_geometric_witness :
  exists r,
    calculate_cost_estimation Numeral.float_of_decimal
      (sample_request "CNC Lathe" (round_part (of_int 50) (of_int 200)) None)
      (turning_db "CNC Lathe") = Respond r
    /\ resp_duty_category r = "medium".
Proof.
  destruct (calculate_cost_estimation Numeral.float_of_decimal
              (sample_request "CNC Lathe" (round_part (of_int 50) (of_int 200)) None)
              (turning_db "CNC Lathe")) as [r | e] eqn:E;
    [| vm_compute in E; discriminate].
  exists r. split; [reflexivity |].
  destruct (response_duty_is_override_or_geometric _ _ _ _ E) as (g & Hg & ->).
  injection Hg as <-. vm_compute. reflexivity.
Defined.

Lemma quick_estimate_fails_only_in_known_ways_witness :
  (HTTPException 404 "Machine with name 'CNC Lathe - 3 Axis' not found"
   = HTTPException 404 (detail (machine_not_found (quick_machine_name "turning" "medium")))
   /\ forall m, m ∈ machines (session (turning_db "CNC Lathe")) ->
                Machine.name m <> quick_machine_name "turning" "medium").
Proof.
  destruct (quick_estimate_fails_only_in_known_ways Numeral.float_of_decimal
              "turning" "medium" 3 (turning_db "CNC Lathe")
              (HTTPException 404 "Machine with name 'CNC Lathe - 3 Axis' not found")
              ltac:(vm_compute; reflexivity))
    as [[H _] | [H | [H | [H _]]]]; [discriminate | exact H | discriminate ..].
Defined.

Lemma quick_estimate_picks_machine_and_wage_by_duty_witness :
  exists r,
    quick_estimate Numeral.float_of_decimal "turning" "medium" 3
      (turning_db "CNC Lathe - 3 Axis") = Respond r
    /\ quick_machine r = "CNC Lathe - 3 Axis"
    /\ wage_rate (quick_details r) = of_int 100.
Proof.
  destruct (quick_estimate Numeral.float_of_decimal "turning" "medium" 3
              (turning_db "CNC Lathe - 3 Axis")) as [r | e] eqn:E;
    [| vm_compute in E; discriminate].
  exists r. split; [reflexivity |].
  destruct (quick_estimate_picks_machine_and_wage_by_duty _ _ _ _ _ _ E)
    as (Hm & _ & Hw & _).
  split; [exact Hm | exact Hw].
Defined.

Lemma endpoints_agree_per_unit_witness :
  exists q r,
    quick_estimate Numeral.float_of_decimal "turning" "medium" 3
      (turning_db "CNC Lathe - 3 Axis") = Respond q
    /\ calculate_cost_estimation Numeral.float_of_decimal
         (sample_request "CNC Lathe - 3 Axis" (round_part (of_int 50) (of_int 200))
            (Some "medium"))
         (turning_db "CNC Lathe - 3 Axis") = Respond r
    /\ resp_cost_breakdown r = pop_total_cost (quick_details q).
Proof.
  destruct (quick_estimate Numeral.float_of_decimal "turning" "medium" 3
              (turning_db "CNC Lathe - 3 Axis")) as [q | e] eqn:E;
    [| vm_compute in E; discriminate].
  exists q.
  assert (Hname : CostEstimationRequest.machine_name
                    (sample_request "CNC Lathe - 3 Axis"
                       (round_part (of_int 50) (of_int 200)) (Some "medium"))
                  = quick_machine q).
  { destruct (quick_estimate_inv _ _ _ _ _ _ E) as (m & rate & b & _ & _ & Hm & _ & _ & _ & ->).
    cbn [quick_machine]. rewrite Hm. reflexivity. }
  assert (Hhours : CostEstimationRequest.man_hours_per_unit
                     (sample_request "CNC Lathe - 3 Axis"
                        (round_part (of_int 50) (of_int 200)) (Some "medium"))
                   = matrix_hours "turning" "medium") by reflexivity.
  destruct (detect_shape (round_part (of_int 50) (of_int 200))) as [s | e] eqn:Es;
    [| vm_compute in Es; discriminate].
  destruct (endpoints_agree_per_unit Numeral.float_of_decimal "turning" "medium" 3
              (turning_db "CNC Lathe - 3 Axis") q
              (sample_request "CNC Lathe - 3 Axis" (round_part (of_int 50) (of_int 200))
                 (Some "medium"))
              s E Hname eq_refl eq_refl Hhours Es) as (r & Hr & Hb & _).
  exists r. split; [reflexivity |]. split; assumption.
Defined.

End Endpoints.
